(** * SystemClock: the Instant time value, its calendar conversions and the
      NTP clock-offset computation

    A shallow embedding of [Instant.h], [Instant.cpp], the timestamp
    request and the offset computation of [NTPTime.cpp], [Timer.h],
    [Timer.cpp] and the settings of [SystemClock.h] and [SystemClock.cpp]
    (namespace [lsc]).

    Conventions of the embedding.
    - Every C++ integer is a [Z]; each conversion to a fixed-width type is
      written out with [wrap_u32], [wrap_s32], [wrap_u64] or [wrap_s64]
      (two's complement, as the ESP8266 and ESP32 targets behave; [int] and
      [long] are 32 bits wide there).
    - The C++ operators [/] and [%] truncate toward zero: [Z.quot], [Z.rem].
    - A [double] is a rational number ([Q]) and its arithmetic is exact; the
      functions that use doubles say where this is the value the hardware
      computes.
    - The conversion of a double to an integer type that does not hold its
      truncated value is undefined in C++: the functions that can reach one
      return an [option], [None] for a run that does.
    - A read outside [daysPerMonth] and a loop that runs out of fuel are
      results of their own ([OutOfBounds], [OutOfFuel]). *)

From Stdlib Require Import ZArith QArith Qround Qabs Lia List Bool.
Import ListNotations.
Local Open Scope Z_scope.

(** [lia] after the equations of [/], [mod], [Z.quot] and [Z.rem]. *)
Ltac zlia := Z.to_euclidean_division_equations; lia.

(** ** Fixed-width integers *)

Module Machine.

Definition wrap_u32 (z : Z) : Z := z mod 4294967296.
Definition wrap_s32 (z : Z) : Z := (z + 2147483648) mod 4294967296 - 2147483648.
Definition wrap_u64 (z : Z) : Z := z mod 18446744073709551616.
Definition wrap_s64 (z : Z) : Z :=
  (z + 9223372036854775808) mod 18446744073709551616 - 9223372036854775808.

Definition in_u32 (z : Z) : Prop := 0 <= z < 4294967296.
Definition in_s32 (z : Z) : Prop := -2147483648 <= z < 2147483648.
Definition in_u64 (z : Z) : Prop := 0 <= z < 18446744073709551616.
Definition in_s64 (z : Z) : Prop :=
  -9223372036854775808 <= z < 9223372036854775808.

End Machine.
Import Machine.

Ltac unwrap := unfold wrap_u32, wrap_s32, wrap_u64, wrap_s64,
                      in_u32, in_s32, in_u64, in_s64 in *.

(** ** Instant.h: constants and the Instant class *)

Definition POW2_32 : Z := 4294967296.
Definition SECS_IN_68_YEARS : Z := 2144448000.
Definition SECS_IN_DAY : Z := 86400.

(** [int64_t _sysTime; uint32_t _fraction;] *)
Record Instant : Type := mkInstant { _sysTime : Z; _fraction : Z }.

(** The values an [Instant] object can hold. *)
Definition Instant_repr (x : Instant) : Prop :=
  in_s64 (_sysTime x) /\ in_u32 (_fraction x).

(** [Instant()  {setSysTime(0);setFraction(0);}] *)
Definition Instant_zero : Instant := mkInstant 0 0.

(** [int64_t secs() const {return _sysTime;}] *)
Definition secs (x : Instant) : Z := _sysTime x.

(** [void initialize(int32_t e,uint32_t o,uint32_t f=0)
       {setSysTime(e*POW2_32+o);setFraction(f);}]
    [POW2_32] is a [long long], so product and sum are 64-bit. *)
Definition initialize (e o f : Z) : Instant :=
  mkInstant (wrap_s64 (wrap_s64 (e * POW2_32) + o)) f.

(** [int32_t era() const
       {return ((_sysTime%POW2_32 < 0)?((_sysTime/POW2_32)-1):(_sysTime/POW2_32));}]
    The 64-bit value is converted to the [int32_t] return type. *)
Definition era (x : Instant) : Z :=
  wrap_s32 (if Z.rem (_sysTime x) POW2_32 <? 0
            then wrap_s64 (Z.quot (_sysTime x) POW2_32 - 1)
            else Z.quot (_sysTime x) POW2_32).

(** [uint32_t eraOffset() const
       {int32_t result = _sysTime%POW2_32;
        return((result<0)?(result+POW2_32):(result));}]
    The remainder is first narrowed to [int32_t]; the conditional has type
    [long long] and is narrowed to [uint32_t] by the return. *)
Definition eraOffset (x : Instant) : Z :=
  let result := wrap_s32 (Z.rem (_sysTime x) POW2_32) in
  wrap_u32 (if result <? 0 then result + POW2_32 else result).

(** [Instant& Instant::operator+=(const Instant& rhs)] *)
Definition plus_assign (this rhs : Instant) : Instant :=
  let sysTime := wrap_s64 (_sysTime this + _sysTime rhs) in
  let fraction := wrap_u64 (_fraction this + _fraction rhs) in
  if fraction >=? POW2_32
  then mkInstant (wrap_s64 (sysTime + 1)) (wrap_u32 (wrap_u64 (fraction - POW2_32)))
  else mkInstant sysTime (wrap_u32 fraction).

(** [friend Instant operator+(Instant lhs,const Instant& rhs) {lhs += rhs;return lhs;}] *)
Definition plus (lhs rhs : Instant) : Instant := plus_assign lhs rhs.

(** [Instant Instant::operator-() const] *)
Definition negate (this : Instant) : Instant :=
  let sysTime := wrap_s64 (- _sysTime this) in
  let fraction := wrap_u32 (wrap_s64 (POW2_32 - _fraction this)) in
  if negb (fraction =? 0)
  then mkInstant (wrap_s64 (sysTime - 1)) fraction
  else mkInstant sysTime fraction.

(** [Instant& operator-=(const Instant& rhs) {*this += -rhs;return *this;}] *)
Definition minus_assign (this rhs : Instant) : Instant :=
  plus_assign this (negate rhs).

(** [friend Instant operator-(Instant lhs,const Instant& rhs) {lhs -= rhs;return lhs;}] *)
Definition minus (lhs rhs : Instant) : Instant := minus_assign lhs rhs.

(** ** Results of fallible code *)

Inductive result (A : Type) : Type :=
| Ok (a : A)
| OutOfBounds
| OutOfFuel.
Arguments Ok {A} a.
Arguments OutOfBounds {A}.
Arguments OutOfFuel {A}.

Definition bind {A B : Type} (r : result A) (k : A -> result B) : result B :=
  match r with
  | Ok a => k a
  | OutOfBounds => OutOfBounds
  | OutOfFuel => OutOfFuel
  end.

Notation "x <- r ;; k" := (bind r (fun x => k))
  (at level 61, r at next level, right associativity).

(** ** Instant.h: calendar macros *)

(** [#define IS_LEAP_YEAR(y)
       ((((((y)%400)==0) || (((y)%100)!=0)) && ((((y)%4)==0)))?(true):(false))] *)
Definition IS_LEAP_YEAR (y : Z) : bool :=
  ((Z.rem y 400 =? 0) || negb (Z.rem y 100 =? 0)) && (Z.rem y 4 =? 0).

(** [#define DAYS_IN_YEAR(y) ((IS_LEAP_YEAR(y))?(366):(365))] *)
Definition DAYS_IN_YEAR (y : Z) : Z := if IS_LEAP_YEAR y then 366 else 365.

(** [#define SECS_IN_YEAR(y) (DAYS_IN_YEAR(y)*SECS_IN_DAY)] *)
Definition SECS_IN_YEAR (y : Z) : Z := DAYS_IN_YEAR y * SECS_IN_DAY.

(** [const int daysPerMonth[12] = {31,28,31,30,31,30,31,31,30,31,30,31};] *)
Definition daysPerMonth : list Z := [31; 28; 31; 30; 31; 30; 31; 31; 30; 31; 30; 31].

(** [daysPerMonth[m]]: the array has no element below 0 or above 11. *)
Definition daysPerMonth_at (m : Z) : result Z :=
  if m <? 0 then OutOfBounds
  else match nth_error daysPerMonth (Z.to_nat m) with
       | Some d => Ok d
       | None => OutOfBounds
       end.

(** [#define MONTH_DAYS(m,y)
       ((m==1)?((IS_LEAP_YEAR(y))?(daysPerMonth[m]+1):(daysPerMonth[m])):((daysPerMonth[m])))]
    The month is an index into [daysPerMonth]: 0 is January. *)
Definition MONTH_DAYS (m y : Z) : result Z :=
  if m =? 1
  then (if IS_LEAP_YEAR y
        then d <- daysPerMonth_at m ;; Ok (d + 1)
        else daysPerMonth_at m)
  else daysPerMonth_at m.

(** [#define SECS_IN_MONTH(m,y) (MONTH_DAYS(m-1,y)*SECS_IN_DAY)] *)
Definition SECS_IN_MONTH (m y : Z) : result Z :=
  d <- MONTH_DAYS (m - 1) y ;; Ok (d * SECS_IN_DAY).

(** ** Instant.h: Time and Date *)

(** [int hour; int min; int sec; uint32_t fraction;] *)
Record Time : Type := mkTime { hour : Z; min : Z; sec : Z; fraction : Z }.

(** [int month; int day; int year;] *)
Record Date : Type := mkDate { month : Z; day : Z; year : Z }.

(** [Time(int h,int m, int s)
       {hour=((h<59)?((h>=0)?(h):(0)):(59));sec=((s<59)?((s>=0)?(s):(0)):(59));
        min=((m<59)?((m>=0)?(m):(0)):(59));fraction=0;}] *)
Definition Time_hms (h m s : Z) : Time :=
  let hour := if h <? 59 then (if h >=? 0 then h else 0) else 59 in
  let sec := if s <? 59 then (if s >=? 0 then s else 0) else 59 in
  let min := if m <? 59 then (if m >=? 0 then m else 0) else 59 in
  mkTime hour min sec 0.

(** [Time(int h,int m, int s,uint32_t f)
       {hour=((h<24)?((h>=0)?(h):(0)):(23));sec=((s<59)?((s>=0)?(s):(0)):(59));
        min=((m<59)?((m>=0)?(m):(0)):(59));fraction=f;}]
    [initializeTime] of Instant.cpp has the same body. *)
Definition Time_hmsf (h m s f : Z) : Time :=
  let hour := if h <? 24 then (if h >=? 0 then h else 0) else 23 in
  let sec := if s <? 59 then (if s >=? 0 then s else 0) else 59 in
  let min := if m <? 59 then (if m >=? 0 then m else 0) else 59 in
  mkTime hour min sec f.

(** [Date(int m, int d, int y)
       {month=((m<13)?((m>0)?(m):(1)):(12));year=((y>=0)?(y):(0));
        day=((d>0)?((d>MONTH_DAYS(month,year))?(MONTH_DAYS(month,year)):(d)):(1));}]
    [MONTH_DAYS] is given the month number 1..12 here, and is only
    evaluated when [d > 0]. [initializeDate] of Instant.cpp has the same
    body. *)
Definition Date_mdy (m d y : Z) : result Date :=
  let month := if m <? 13 then (if m >? 0 then m else 1) else 12 in
  let year := if y >=? 0 then y else 0 in
  if d >? 0
  then md <- MONTH_DAYS month year ;;
       Ok (mkDate month (if d >? md then md else d) year)
  else Ok (mkDate month 1 year).

(** ** Instant.cpp: calendar conversions *)

(** [while( sysT <  -SECS_IN_YEAR(year) ) {sysT += SECS_IN_YEAR(year);year--;}] *)
Fixpoint toDate_before (fuel : nat) (sysT year : Z) : result (Z * Z) :=
  match fuel with
  | O => OutOfFuel
  | S fuel' =>
      if sysT <? - SECS_IN_YEAR year
      then toDate_before fuel' (wrap_s64 (sysT + SECS_IN_YEAR year)) (wrap_s32 (year - 1))
      else Ok (sysT, year)
  end.

(** [while( sysT >=  SECS_IN_YEAR(year) ) {sysT -= SECS_IN_YEAR(year);year++;}] *)
Fixpoint toDate_after (fuel : nat) (sysT year : Z) : result (Z * Z) :=
  match fuel with
  | O => OutOfFuel
  | S fuel' =>
      if sysT >=? SECS_IN_YEAR year
      then toDate_after fuel' (wrap_s64 (sysT - SECS_IN_YEAR year)) (wrap_s32 (year + 1))
      else Ok (sysT, year)
  end.

(** [for( ; (month<11) && (days>=MONTH_DAYS(month,y)); month++ )
       {days -= MONTH_DAYS(month,y);}]
    [days] is a [uint32_t]. *)
Fixpoint toDate_months (fuel : nat) (month days y : Z) : result (Z * Z) :=
  match fuel with
  | O => OutOfFuel
  | S fuel' =>
      if month <? 11
      then md <- MONTH_DAYS month y ;;
           if days >=? wrap_u32 md
           then toDate_months fuel' (wrap_s32 (month + 1)) (wrap_u32 (days - md)) y
           else Ok (month, days)
      else Ok (month, days)
  end.

(** Every turn of the year loops moves [sysT] toward zero by 365 days or
    more, so this many turns are enough. *)
Definition toDate_fuel (s : Z) : nat := S (Z.to_nat (Z.abs s / 31536000)).

(** [Date Instant::toDate(int64_t s)] *)
Definition toDate (s : Z) : result Date :=
  let sysT := s in
  let beforePrimeEpoch := sysT <? 0 in
  let year := if beforePrimeEpoch then 1899 else 1900 in
  sy <- (if beforePrimeEpoch
         then toDate_before (toDate_fuel s) sysT year
         else toDate_after (toDate_fuel s) sysT year) ;;
  let '(sysT, year) := sy in
  let y := year in
  let secs := wrap_u32 (if beforePrimeEpoch then SECS_IN_YEAR year + sysT else sysT) in
  let days := wrap_u32 (Z.quot secs SECS_IN_DAY) in
  md <- toDate_months 12 0 days y ;;
  let '(month, days) := md in
  Ok (mkDate (month + 1) (wrap_s32 (wrap_u32 (days + 1))) y).

(** [Time Instant::toTime(int64_t secs)] *)
Definition toTime (secs : Z) : Time :=
  let seconds := secs in
  let seconds := Z.rem seconds SECS_IN_DAY in
  let seconds := if seconds <? 0 then SECS_IN_DAY + seconds else seconds in
  mkTime (wrap_s32 (Z.rem (Z.quot seconds 3600) 24))
         (wrap_s32 (Z.rem (Z.quot seconds 60) 60))
         (wrap_s32 (Z.rem seconds 60))
         0.

(** [for( ;year > d.year; year-- ) {sysTime -= SECS_IN_YEAR(year);}] *)
Fixpoint toInstant_before (fuel : nat) (year dyear sysTime : Z) : result Z :=
  match fuel with
  | O => OutOfFuel
  | S fuel' =>
      if year >? dyear
      then toInstant_before fuel' (wrap_s32 (year - 1)) dyear
             (wrap_s64 (sysTime - SECS_IN_YEAR year))
      else Ok sysTime
  end.

(** [for( ;year < d.year; year++ ) {sysTime += SECS_IN_YEAR(year);}] *)
Fixpoint toInstant_after (fuel : nat) (year dyear sysTime : Z) : result Z :=
  match fuel with
  | O => OutOfFuel
  | S fuel' =>
      if year <? dyear
      then toInstant_after fuel' (wrap_s32 (year + 1)) dyear
             (wrap_s64 (sysTime + SECS_IN_YEAR year))
      else Ok sysTime
  end.

(** [for(;month < d.month; month++) {secsInYear += SECS_IN_MONTH(month,d.year);}]
    [secsInYear] is a [long]. *)
Fixpoint toInstant_months (fuel : nat) (month dmonth dyear secsInYear : Z) : result Z :=
  match fuel with
  | O => OutOfFuel
  | S fuel' =>
      if month <? dmonth
      then sm <- SECS_IN_MONTH month dyear ;;
           toInstant_months fuel' (wrap_s32 (month + 1)) dmonth dyear
             (wrap_s32 (secsInYear + sm))
      else Ok secsInYear
  end.

(** [Instant Instant::toInstant(const Date& d, const Time& t)]
    The year loops turn [|d.year - 1900|] times and the month loop
    [d.month - 1] times at most. *)
Definition toInstant (d : Date) (t : Time) : result Instant :=
  let beforePrimeEpoch := year d <? 1900 in
  let sysTime := 0 in
  let year0 := if beforePrimeEpoch then 1899 else 1900 in
  sysTime <- (if beforePrimeEpoch
              then toInstant_before (S (Z.to_nat (1899 - year d))) year0 (year d) sysTime
              else toInstant_after (S (Z.to_nat (year d - 1900))) year0 (year d) sysTime) ;;
  secsInYear <- toInstant_months (S (Z.to_nat (month d - 1))) 1 (month d) (year d) 0 ;;
  let secsInYear := wrap_s32 (secsInYear + wrap_s32 ((day d - 1) * SECS_IN_DAY)) in
  let secsInYear := wrap_s32 (secsInYear + wrap_s32 (hour t * 3600)) in
  let secsInYear := wrap_s32 (secsInYear + wrap_s32 (min t * 60)) in
  let secsInYear := wrap_s32 (secsInYear + sec t) in
  let yearsComplimentSeconds := wrap_s32 (SECS_IN_YEAR (year d) - secsInYear) in
  let sysTime := wrap_s64 (sysTime + (if beforePrimeEpoch
                                      then wrap_s32 (- yearsComplimentSeconds)
                                      else secsInYear)) in
  Ok (mkInstant sysTime 0).

(** ** Doubles *)

(** Conversion of a double to an integer type truncates toward zero.
    C++ defines the conversion only when the truncated value fits the
    type; the two conversions of [tzOffset] always do. *)
Definition Qtrunc (d : Q) : Z := Z.quot (Qnum d) (Z.pos (Qden d)).

Definition Qltb (a b : Q) : bool := negb (Qle_bool b a).

(** Conversion of a double to the integer type of the values [lo .. hi]:
    the truncated value when it fits the type. When it does not, the
    conversion is undefined in C++ and nothing is known of the program
    from there on: [None]. *)
Definition double_to_int (lo hi : Z) (d : Q) : option Z :=
  let t := Qtrunc d in
  if (lo <=? t) && (t <=? hi) then Some t else None.

(** [int32_t Instant::tzOffset( double hours )]
    Comparisons of doubles are exact; [hours - h] is computed exactly for
    [|hours| < 2^31], the product and the sum of the last line are exact,
    and beyond that range rounding keeps every comparison with .5 and .75
    as it is. *)
Definition tzOffset (hours : Q) : Z :=
  let h := if Qle_bool hours (-14 # 1) then -14
           else if Qltb (14 # 1) hours then 14
           else wrap_s32 (Qtrunc hours) in
  let fraction := (hours - inject_Z h)%Q in
  let fraction :=
    if Qltb fraction 0
    then (if Qle_bool fraction (-3 # 4) then (-3 # 4)%Q
          else if Qle_bool fraction (-1 # 2) then (-1 # 2)%Q
          else (-1 # 4)%Q)
    else if Qltb 0 fraction
    then (if Qle_bool (3 # 4) fraction then (3 # 4)%Q
          else if Qle_bool (1 # 2) fraction then (1 # 2)%Q
          else (1 # 4)%Q)
    else fraction in
  wrap_s32 (Qtrunc ((3600 # 1) * inject_Z h + (3600 # 1) * fraction)%Q).

(** [void Instant::initialize(double sysd)]
    [_sysTime = (int64_t)sysd] and [_fraction = diff*POW2_32] convert a
    double to [int64_t] and to [uint32_t]. The difference [sysd -
    (double)_sysTime] and its product with 2^32 are exact. The product is
    negative when [sysd] is negative and not whole: from -1 down its
    conversion to [uint32_t] is undefined. *)
Definition initialize_double (sysd : Q) : option Instant :=
  match double_to_int (-9223372036854775808) 9223372036854775807 sysd with
  | None => None
  | Some sysTime =>
      let diff := (sysd - inject_Z sysTime)%Q in
      match double_to_int 0 4294967295 (diff * inject_Z POW2_32)%Q with
      | None => None
      | Some fraction =>
          Some (if Qltb sysd 0 && (fraction >? 0)
                then mkInstant (wrap_s64 (sysTime - 1)) fraction
                else mkInstant sysTime fraction)
      end
  end.

(** [double sysTimed() const
       {return((double)_sysTime+((double)_fraction/(double)POW2_32));}]
    The quotient by 2^32 is exact; the conversion of the seconds and the
    sum round once the value needs more than 53 bits, and are exact below
    that, in particular for the zero Instant. *)
Definition sysTimed (x : Instant) : Q :=
  (inject_Z (_sysTime x) + inject_Z (_fraction x) / inject_Z POW2_32)%Q.

(** [Instant Instant::operator/(const int denom) const]
    The quotient by [(double)0] is an infinity or a NaN, which no integer
    type holds: the conversion in [initialize] is undefined. *)
Definition div_int (this : Instant) (denom : Z) : option Instant :=
  if denom =? 0 then None
  else
    let sysT := (sysTimed this / inject_Z denom)%Q in
    initialize_double sysT.

(** ** NTPTime.cpp: the clock offset *)

(** What [getNTPOffset] leaves behind: its local Instants [T2] and [T3],
    the Instants of the output timestamps [t2] and [t3] (initialized to
    zero, then [t2 += T2; t3 += T3]) and the returned clock offset
    ([None] when the division that computes it is undefined). *)
Record NTPOffset : Type := mkNTPOffset {
  T2 : Instant;
  T3 : Instant;
  t2_ntpTime : Instant;
  t3_ntpTime : Instant;
  clockOffset : option Instant
}.

(** [Instant NTPTime::getNTPOffset(...)] after the two local stamps:
    [T1] and [T4] are [t1.ntpTime()] and [t4.ntpTime()], [status] and the
    four unsigned 32-bit values are what [getNTPTimestamp] returned. *)
Definition getNTPOffset (T1 T4 : Instant)
    (status rcvSecs rcvFraction tsmSecs tsmFraction : Z) : NTPOffset :=
  let zero := Instant_zero in
  let T1Era := era T1 in
  let T4Era := era T4 in
  let T23 :=
    if status =? 1
    then
      let rcvDiff := wrap_s64 (eraOffset T1 - rcvSecs) in
      let tsmDiff := wrap_s64 (eraOffset T4 - tsmSecs) in
      (if rcvDiff >? SECS_IN_68_YEARS
       then initialize (wrap_s32 (T1Era + 1)) rcvSecs rcvFraction
       else if rcvDiff <? - SECS_IN_68_YEARS
       then initialize (wrap_s32 (T1Era - 1)) rcvSecs rcvFraction
       else initialize T1Era rcvSecs rcvFraction,
       if tsmDiff >? SECS_IN_68_YEARS
       then initialize (wrap_s32 (T4Era + 1)) tsmSecs tsmFraction
       else if tsmDiff <? - SECS_IN_68_YEARS
       then initialize (wrap_s32 (T4Era - 1)) tsmSecs tsmFraction
       else initialize T4Era tsmSecs tsmFraction)
    else (T1, T4) in
  let T2 := fst T23 in
  let T3 := snd T23 in
  mkNTPOffset T2 T3 (plus_assign zero T2) (plus_assign zero T3)
    (div_int (plus (minus T2 T1) (minus T3 T4)) 2).

(** ** Instant.h, Instant.cpp: comparison, milliseconds, absolute value *)

(** [int Instant::cmp(const Instant& rhs)] *)
Definition cmp (this rhs : Instant) : Z :=
  if _sysTime this <? secs rhs then -1
  else if _sysTime this >? _sysTime rhs then 1
  else if _fraction this <? _fraction rhs then -1
  else if _fraction this >? _fraction rhs then 1
  else 0.

(** [void Instant::addMillis(uint32_t millis)]
    [mfrac*POW2_32] is a [long long] product. *)
Definition addMillis (this : Instant) (millis : Z) : Instant :=
  let mfrac := wrap_u32 (Z.rem millis 1000) in
  let secs := wrap_u32 (Z.quot millis 1000) in
  let frac := wrap_u64 (Z.quot (wrap_s64 (mfrac * POW2_32)) 1000) in
  let fraction := wrap_u64 (frac + _fraction this) in
  let sysTime := wrap_s64 (_sysTime this + secs) in
  if fraction >=? POW2_32
  then mkInstant (wrap_s64 (sysTime + 1)) (wrap_u32 (wrap_u64 (fraction - POW2_32)))
  else mkInstant sysTime (wrap_u32 fraction).

(** [friend Instant operator+(const Instant& lhs, const int rhs)
       {Instant result = lhs;result._sysTime += rhs;return result;}] *)
Definition plus_int (lhs : Instant) (rhs : Z) : Instant :=
  mkInstant (wrap_s64 (_sysTime lhs + rhs)) (_fraction lhs).

(** [friend Instant abs(const Instant& ref) {return((ref.secs()<0)?(-ref):ref);}] *)
Definition abs (ref : Instant) : Instant :=
  if secs ref <? 0 then negate ref else ref.

(** [uint64_t elapsedTime(const Instant& t) const {return abs( *this-t ).secs();}] *)
Definition elapsedTime (this t : Instant) : Z :=
  wrap_u64 (secs (abs (minus this t))).

(** [Instant toTimezone(double hours) {return *this + tzOffset(hours);}] *)
Definition toTimezone (this : Instant) (hours : Q) : Instant :=
  plus_int this (tzOffset hours).

(** [void Instant::printElapsedTime(const Instant& ref, char buffer[], int size) const]:
    the days and the time of day that are formatted into the buffer.
    [SECS_IN_DAY] is converted to [uint64_t] for the quotient and the
    remainder. *)
Definition printElapsedTime (this ref : Instant) : Z * Time :=
  let runningSecs := elapsedTime this ref in
  let runningDays := wrap_s32 (Z.quot runningSecs (wrap_u64 SECS_IN_DAY)) in
  let runningTime := toTime (wrap_s64 (Z.rem runningSecs (wrap_u64 SECS_IN_DAY))) in
  (runningDays, runningTime).

(** ** NTPTime.cpp: the timestamp request and the update *)

Definition NTP_PACKET_SIZE : Z := 48.

(** One turn of the wait loop as the channel and the clock show it: the
    reading of [millis()] in the loop condition and the datagram that
    [parsePacket()] finds (its length is the size returned; the empty list
    when there is none). *)
Record Poll : Type := mkPoll { poll_millis : Z; poll_packet : list Z }.

(** What the channel does during one call: the status of [begin(0)], the
    status of [endPacket()], the reading of [millis()] before the loop and
    the turns of the loop. *)
Record UDPChannel : Type := mkUDPChannel {
  udp_begin : Z;
  udp_endPacket : Z;
  udp_beginWait : Z;
  udp_polls : list Poll
}.

(** The returned status and the four reference parameters of
    [getNTPTimestamp]. *)
Record NTPTimestamps : Type := mkNTPTimestamps {
  status : Z;
  rcvSecs : Z;
  rcvFraction : Z;
  tsmSecs : Z;
  tsmFraction : Z
}.

(** [x  = (unsigned long)packetBuffer[i] << 24;
     x |= (unsigned long)packetBuffer[i+1] << 16;
     x |= (unsigned long)packetBuffer[i+2] << 8;
     x |= (unsigned long)packetBuffer[i+3];]
    written out four times in the source, for [i] = 32, 36, 40 and 44. *)
Definition read_u32 (packetBuffer : list Z) (i : nat) : Z :=
  let x := wrap_u32 (Z.shiftl (nth i packetBuffer 0) 24) in
  let x := Z.lor x (wrap_u32 (Z.shiftl (nth (i + 1) packetBuffer 0) 16)) in
  let x := Z.lor x (wrap_u32 (Z.shiftl (nth (i + 2) packetBuffer 0) 8)) in
  Z.lor x (wrap_u32 (nth (i + 3) packetBuffer 0)).

(** [while (((millis() - beginWait) < timeout) && !done) {...}]
    The loop ends with the buffer of the first datagram of 48 bytes or
    more, or with nothing when the time is up; it goes on for as long as
    the channel shows turns. *)
Fixpoint wait_reply (polls : list Poll) (beginWait timeout : Z)
  : result (option (list Z)) :=
  match polls with
  | [] => OutOfFuel
  | p :: rest =>
      if wrap_u32 (poll_millis p - beginWait) <? timeout
      then if Z.of_nat (length (poll_packet p)) >=? NTP_PACKET_SIZE
           then Ok (Some (firstn 48 (poll_packet p)))
           else wait_reply rest beginWait timeout
      else Ok None
  end.

(** [int NTPTime::getNTPTimestamp(...)]. The header fields [LI] .. [REFID]
    are read into locals that nothing uses; draining stale datagrams and
    writing the request change none of the outputs. *)
Definition getNTPTimestamp (ch : UDPChannel) (timeout : Z) : result NTPTimestamps :=
  let status := udp_begin ch in
  if negb (status =? 1)
  then Ok (mkNTPTimestamps (-1) 0 0 0 0)
  else
    let status := udp_endPacket ch in
    if negb (status =? 1)
    then Ok (mkNTPTimestamps (-2) 0 0 0 0)
    else
      reply <- wait_reply (udp_polls ch) (udp_beginWait ch) timeout ;;
      match reply with
      | Some packetBuffer =>
          Ok (mkNTPTimestamps status
                (read_u32 packetBuffer 32) (read_u32 packetBuffer 36)
                (read_u32 packetBuffer 40) (read_u32 packetBuffer 44))
      | None => Ok (mkNTPTimestamps (-3) 0 0 0 0)
      end.


(** ** Timer.h, Timer.cpp *)

(** The counters of a Timer, all [unsigned long]. The handler is a
    callback of the application; [setHandler] never leaves it empty. *)
Record Timer : Type := mkTimer {
  _millis : Z;
  _setPoint : Z;
  _limit : Z;
  _stoppage : Z;
  _pauseMillis : Z;
  _pauseLimit : Z
}.

(** [bool started() {return _millis != 0;}] *)
Definition started (t : Timer) : bool := negb (_millis t =? 0).

(** [bool stopped() {return !started();}] *)
Definition stopped (t : Timer) : bool := negb (started t).

(** [bool paused() {return _pauseMillis != 0;}] *)
Definition paused (t : Timer) : bool := negb (_pauseMillis t =? 0).

(** [unsigned long limit() {return _limit;}] *)
Definition limit (t : Timer) : Z := _limit t.

(** [unsigned long pauseLimit() {return _pauseLimit;}] *)
Definition pauseLimit (t : Timer) : Z := _pauseLimit t.

(** [void start()
       {if(stopped()) {_millis = millis();_pauseMillis=0;_pauseLimit=0;
                       _limit=_millis+_stoppage;}}]
    [now] is the reading of [millis()]. *)
Definition start (t : Timer) (now : Z) : Timer :=
  if stopped t
  then mkTimer now (_setPoint t) (wrap_u32 (now + _stoppage t)) (_stoppage t) 0 0
  else t.

(** [void stop()
       {if(started()) {_millis=0;unsigned long current = millis();
                       _stoppage=((current<_limit)?(_limit-current):(0));_limit=0;}}] *)
Definition stop (t : Timer) (now : Z) : Timer :=
  if started t
  then let current := now in
       mkTimer 0 (_setPoint t) 0
         (if current <? _limit t then wrap_u32 (_limit t - current) else 0)
         (_pauseMillis t) (_pauseLimit t)
  else t.

(** [void reset() {_millis=0;_stoppage=_setPoint;_limit=0;_pauseLimit=0;_pauseMillis=0;}] *)
Definition reset (t : Timer) : Timer :=
  mkTimer 0 (_setPoint t) 0 (_setPoint t) 0 0.

(** [void set(int h, int m, int s)
       {h=((h<0)?(0):(h));m=((m<0)?(0):(m));s=((s<0)?(0):(s));
        _setPoint = 1000*s + 60000*m + 3600000*h;_stoppage=_setPoint;}]
    The sum is computed in [int] and converted to [unsigned long]. *)
Definition set_hms (t : Timer) (h m s : Z) : Timer :=
  let h := if h <? 0 then 0 else h in
  let m := if m <? 0 then 0 else m in
  let s := if s <? 0 then 0 else s in
  let setPoint :=
    wrap_u32 (wrap_s32 (wrap_s32 (wrap_s32 (1000 * s) + wrap_s32 (60000 * m))
                        + wrap_s32 (3600000 * h))) in
  mkTimer (_millis t) setPoint (_limit t) setPoint (_pauseMillis t) (_pauseLimit t).

(** [void pause(unsigned long duration)
       {if(!paused()) {stop();_pauseMillis=millis();_pauseLimit=_pauseMillis+duration;}}]
    [now] is the reading of [millis()] in [stop], [now'] the one after it. *)
Definition pause (t : Timer) (duration now now' : Z) : Timer :=
  if negb (paused t)
  then let t := stop t now in
       mkTimer (_millis t) (_setPoint t) (_limit t) (_stoppage t)
         now' (wrap_u32 (now' + duration))
  else t.

(** [void cancelPause() {if(paused()) start();}] *)
Definition cancelPause (t : Timer) (now : Z) : Timer :=
  if paused t then start t now else t.

(** [void run() {_handler();}]
    [handler] is what the callback of the application does to the
    counters of this Timer: nothing, or for one that calls [start()] what
    [start] does. *)
Definition run (handler : Timer -> Timer) (t : Timer) : Timer := handler t.

(** [void Timer::doDevice()]: the Timer after the call and whether [run()]
    was called; [run()] comes after [reset()]. [now] is the reading of
    [millis()] that is compared, [now'] the one [start] takes when a
    pause is cancelled. *)
Definition doDevice (handler : Timer -> Timer) (t : Timer) (now now' : Z)
  : Timer * bool :=
  if started t
  then (if now >? limit t then (run handler (reset t), true) else (t, false))
  else if paused t
  then (if now >? pauseLimit t then (cancelPause t now', false) else (t, false))
  else (t, false).

(** ** SystemClock.h, SystemClock.cpp *)

(** The members of SystemClock that the functions below read or write. *)
Record SystemClock : Type := mkSystemClock {
  _tzOffset : Z;
  _nextSync : Z;
  _lastSync : Z;
  _ntpSync : Z;
  _timerOFF : bool;
  _syncTimer : Timer
}.

(** [void SystemClock::tzOffset( double hours )]: the value stored in
    [_tzOffset]. The body is that of [Instant::tzOffset], written out
    again in SystemClock.cpp. *)
Definition SystemClock_set_tzOffset (hours : Q) : Z :=
  let h := if Qle_bool hours (-14 # 1) then -14
           else if Qltb (14 # 1) hours then 14
           else wrap_s32 (Qtrunc hours) in
  let fraction := (hours - inject_Z h)%Q in
  let fraction :=
    if Qltb fraction 0
    then (if Qle_bool fraction (-3 # 4) then (-3 # 4)%Q
          else if Qle_bool fraction (-1 # 2) then (-1 # 2)%Q
          else (-1 # 4)%Q)
    else if Qltb 0 fraction
    then (if Qle_bool (3 # 4) fraction then (3 # 4)%Q
          else if Qle_bool (1 # 2) fraction then (1 # 2)%Q
          else (1 # 4)%Q)
    else fraction in
  wrap_s32 (Qtrunc ((3600 # 1) * inject_Z h + (3600 # 1) * fraction)%Q).

(** [double tzOffset() const {return (double)_tzOffset/3600.0;}]
    A stored offset is a whole number of quarter hours, so the quotient
    is exact. *)
Definition SystemClock_tzOffset (_tzOffset : Z) : Q :=
  (inject_Z _tzOffset / (3600 # 1))%Q.

(** [Instant utcToLocal(const Instant& utc) const {return utc + _tzOffset;}] *)
Definition utcToLocal (c : SystemClock) (utc : Instant) : Instant :=
  plus_int utc (_tzOffset c).

(** [boolean timerOFF() const {return _timerOFF;}] *)
Definition timerOFF (c : SystemClock) : bool := _timerOFF c.

(** [boolean timerON() const {return !timerOFF();}] *)
Definition timerON (c : SystemClock) : bool := negb (timerOFF c).

(** [unsigned int ntpSync() const {return _ntpSync;}] *)
Definition ntpSync (c : SystemClock) : Z := _ntpSync c.

(** [void SystemClock::resetSyncTimer()
       {_syncTimer.set(0,ntpSync(),0); _syncTimer.reset();
        if( timerON() ) _syncTimer.start();}] *)
Definition resetSyncTimer (c : SystemClock) (now : Z) : SystemClock :=
  let t := set_hms (_syncTimer c) 0 (wrap_s32 (ntpSync c)) 0 in
  let t := reset t in
  let t := if timerON c then start t now else t in
  mkSystemClock (_tzOffset c) (_nextSync c) (_lastSync c) (_ntpSync c) (_timerOFF c) t.

(** [void SystemClock::ntpSync(unsigned int min)] *)
Definition set_ntpSync (c : SystemClock) (min now : Z) : SystemClock :=
  let refresh := if min <? 15 then 15 else if min >? 1440 then 1440 else min in
  let c := mkSystemClock (_tzOffset c) (_nextSync c) (_lastSync c) refresh
             (_timerOFF c) (_syncTimer c) in
  let c := mkSystemClock (_tzOffset c)
             (wrap_s64 (_lastSync c + wrap_u32 (ntpSync c * 60)))
             (_lastSync c) (_ntpSync c) (_timerOFF c) (_syncTimer c) in
  resetSyncTimer c now.

(** [void SystemClock::timerOFF(boolean flg)] *)
Definition set_timerOFF (c : SystemClock) (flg : bool) (now : Z) : SystemClock :=
  if negb flg && timerOFF c
  then resetSyncTimer
         (mkSystemClock (_tzOffset c) (_nextSync c) (_lastSync c) (_ntpSync c) flg
            (_syncTimer c)) now
  else if flg && timerON c
  then resetSyncTimer
         (mkSystemClock (_tzOffset c) (_nextSync c) (_lastSync c) (_ntpSync c) flg
            (_syncTimer c)) now
  else c.

(** ** Vocabulary of the properties *)

(** The Gregorian calendar, stated without the tables of the code: a leap
    year is divisible by 4 and not by 100, or divisible by 400. *)
Definition gregorian_leap (y : Z) : bool :=
  ((y mod 4 =? 0) && negb (y mod 100 =? 0)) || (y mod 400 =? 0).

(** Days of month [m], 1 = January. *)
Definition days_in_month (m y : Z) : Z :=
  if m =? 2 then (if gregorian_leap y then 29 else 28)
  else if (m =? 4) || (m =? 6) || (m =? 9) || (m =? 11) then 30
  else 31.

(** A valid calendar value; the year is any [int]. *)
Definition valid_Date (d : Date) : Prop :=
  1 <= month d <= 12 /\ 1 <= day d <= days_in_month (month d) (year d) /\
  in_s32 (year d).

Definition valid_Time (t : Time) : Prop :=
  0 <= hour t <= 23 /\ 0 <= min t <= 59 /\ 0 <= sec t <= 59.

(** Days of the [k] years from [y] on, and of the [k] months that follow
    month [m]. *)
Fixpoint days_of_years (k : nat) (y : Z) : Z :=
  match k with
  | O => 0
  | S k' => DAYS_IN_YEAR y + days_of_years k' (y + 1)
  end.

Fixpoint days_of_months (k : nat) (m y : Z) : Z :=
  match k with
  | O => 0
  | S k' => days_in_month (m + 1) y + days_of_months k' (m + 1) y
  end.

(** Days from Jan 1, 1900 to Jan 1 of year [y]; negative before 1900. *)
Definition days_from_epoch (y : Z) : Z :=
  if y <? 1900
  then - days_of_years (Z.to_nat (1900 - y)) y
  else days_of_years (Z.to_nat (y - 1900)) 1900.

(** Day of the year, from 0, and second of the day. *)
Definition day_of_year (d : Date) : Z :=
  days_of_months (Z.to_nat (month d - 1)) 0 (year d) + (day d - 1).

Definition second_of_day (t : Time) : Z := hour t * 3600 + min t * 60 + sec t.

(** The whole hours of a timezone offset: the integer part of [hours],
    clamped to [-14, 14]. *)
Definition tz_whole_hours (hours : Q) : Z :=
  Z.max (-14) (Z.min 14 (Qtrunc hours)).

(** Quarter hours of a fraction as the specification words them: the
    magnitude is truncated down to the next lower of 0, 1/4, 1/2 and 3/4,
    and keeps the sign of the fraction. *)
Definition quarters_truncated (fraction : Q) : Z :=
  Z.sgn (Qnum fraction) * Z.min 3 (Qfloor (4 * Qabs fraction)).

(** Quarter hours as [tzOffset] computes them: as above, but a fraction
    that is not zero gets one quarter at least. *)
Definition quarters_snapped (fraction : Q) : Z :=
  Z.sgn (Qnum fraction) * Z.max 1 (Z.min 3 (Qfloor (4 * Qabs fraction))).

(** [3600 * whole_hours + 3600 * snapped_fraction], for a given snapping. *)
Definition tzOffset_spec (quarters : Q -> Z) (hours : Q) : Z :=
  let whole := tz_whole_hours hours in
  3600 * whole + 900 * quarters (hours - inject_Z whole)%Q.

(** The value of an Instant in units of 2^-32 s. *)
Definition ticks (x : Instant) : Z := _sysTime x * 4294967296 + _fraction x.

(** A byte of a datagram. *)
Definition is_byte (b : Z) : Prop := 0 <= b < 256.

(** The counters a Timer can hold. *)
Definition Timer_repr (t : Timer) : Prop :=
  in_u32 (_millis t) /\ in_u32 (_setPoint t) /\ in_u32 (_limit t) /\
  in_u32 (_stoppage t) /\ in_u32 (_pauseMillis t) /\ in_u32 (_pauseLimit t).

(** Time left on a running Timer at the reading [now] of [millis()]. *)
Definition remaining (t : Timer) (now : Z) : Z := _limit t - now.

(** * Properties *)

Ltac eq_ok := first [ reflexivity | f_equal; first [ lia | f_equal; lia ] ].

(** ** Fixed-width helper lemmas *)

Lemma wrap_s64_small z : in_s64 z -> wrap_s64 z = z.
Proof. unwrap. zlia. Qed.

Lemma wrap_s32_small z : in_s32 z -> wrap_s32 z = z.
Proof. unwrap. zlia. Qed.

Lemma wrap_u32_small z : in_u32 z -> wrap_u32 z = z.
Proof. unwrap. zlia. Qed.

Lemma wrap_u64_small z : in_u64 z -> wrap_u64 z = z.
Proof. unwrap. zlia. Qed.

Lemma wrap_s64_range z : in_s64 (wrap_s64 z).
Proof. unwrap. zlia. Qed.

Lemma wrap_s32_range z : in_s32 (wrap_s32 z).
Proof. unwrap. zlia. Qed.

Lemma wrap_u32_range z : in_u32 (wrap_u32 z).
Proof. unwrap. zlia. Qed.

(** ** Era decomposition *)

(** The era is the floor quotient of the seconds by 2^32. *)
Lemma era_floor x :
  in_s64 (_sysTime x) -> era x = _sysTime x / 4294967296.
Proof.
  intros H. unfold era, POW2_32.
  destruct (Z.ltb_spec (Z.rem (_sysTime x) 4294967296) 0).
  - rewrite (wrap_s64_small (Z.quot _ _ - 1)) by (unwrap; zlia).
    rewrite wrap_s32_small by (unwrap; zlia). zlia.
  - rewrite wrap_s32_small by (unwrap; zlia). zlia.
Qed.

(** The era offset is the floor remainder, although the remainder passes
    through an [int32_t]. *)
Lemma eraOffset_mod x : eraOffset x = _sysTime x mod 4294967296.
Proof.
  unfold eraOffset, POW2_32.
  destruct (Z.ltb_spec (wrap_s32 (Z.rem (_sysTime x) 4294967296)) 0);
    unwrap; zlia.
Qed.

Lemma initialize_sysTime e o f :
  in_s32 e -> in_u32 o -> _sysTime (initialize e o f) = e * 4294967296 + o.
Proof.
  intros He Ho. unfold initialize, POW2_32. cbn [_sysTime].
  rewrite (wrap_s64_small (e * _)) by (unwrap; lia).
  apply wrap_s64_small. unwrap. lia.
Qed.

(** C2: for every seconds value of an Instant, [era * 2^32 + eraOffset] is
    the seconds value and [eraOffset] lies in [0, 2^32), also when the
    seconds are negative. *)
Theorem C2_era_invariant (x : Instant) :
  in_s64 (_sysTime x) ->
  era x * 4294967296 + eraOffset x = _sysTime x /\
  0 <= eraOffset x < 4294967296.
Proof.
  intros H. rewrite (era_floor x H), eraOffset_mod. zlia.
Qed.

Lemma C2_era_invariant_witness :
  in_s64 (_sysTime (mkInstant (-1) 0)) /\
  (era (mkInstant (-1) 0) * 4294967296 + eraOffset (mkInstant (-1) 0)
     = _sysTime (mkInstant (-1) 0) /\
   0 <= eraOffset (mkInstant (-1) 0) < 4294967296).
Proof.
  assert (H : in_s64 (_sysTime (mkInstant (-1) 0))) by (unwrap; simpl; lia).
  split; [exact H | exact (C2_era_invariant (mkInstant (-1) 0) H)].
Defined.

Lemma initialize_inverse e o f :
  in_s32 e -> in_u32 o ->
  era (initialize e o f) = e /\ eraOffset (initialize e o f) = o.
Proof.
  intros He Ho.
  assert (Hs := initialize_sysTime e o f He Ho).
  assert (Hr : in_s64 (_sysTime (initialize e o f))) by (rewrite Hs; unwrap; lia).
  rewrite (era_floor _ Hr), eraOffset_mod, Hs.
  split; unwrap; zlia.
Qed.

Lemma eraOffset_range x : in_u32 (eraOffset x).
Proof. rewrite eraOffset_mod. unwrap. zlia. Qed.

(** C10: construction from (era, era offset, fraction) and the era
    decomposition are mutually inverse on int32 x uint32 x uint32. *)
Theorem C10_initialize_era_inverse (e o f : Z) :
  in_s32 e -> in_u32 o -> in_u32 f ->
  era (initialize e o f) = e /\
  eraOffset (initialize e o f) = o /\
  _fraction (initialize e o f) = f.
Proof.
  intros He Ho Hf.
  destruct (initialize_inverse e o f He Ho) as [H1 H2].
  split; [ exact H1 | split; [ exact H2 | reflexivity ] ].
Qed.

Lemma C10_initialize_era_inverse_witness :
  era (initialize (-1) 4294967295 7) = -1 /\
  eraOffset (initialize (-1) 4294967295 7) = 4294967295 /\
  _fraction (initialize (-1) 4294967295 7) = 7.
Proof.
  apply (C10_initialize_era_inverse (-1) 4294967295 7); unwrap; lia.
Defined.

(** ** Addition and negation *)

Lemma plus_assign_carry a b :
  Instant_repr a -> Instant_repr b ->
  4294967296 <= _fraction a + _fraction b ->
  plus_assign a b =
    mkInstant (wrap_s64 (_sysTime a + _sysTime b + 1))
              (_fraction a + _fraction b - 4294967296).
Proof.
  intros [_ Ha] [_ Hb] Hc. unfold plus_assign, POW2_32.
  rewrite (wrap_u64_small (_fraction a + _fraction b)) by (unwrap; lia).
  destruct (Z.geb_spec (_fraction a + _fraction b) 4294967296); [ | lia ].
  f_equal; unwrap; zlia.
Qed.

Lemma plus_assign_no_carry a b :
  Instant_repr a -> Instant_repr b ->
  _fraction a + _fraction b < 4294967296 ->
  plus_assign a b =
    mkInstant (wrap_s64 (_sysTime a + _sysTime b)) (_fraction a + _fraction b).
Proof.
  intros [_ Ha] [_ Hb] Hc. unfold plus_assign, POW2_32.
  rewrite (wrap_u64_small (_fraction a + _fraction b)) by (unwrap; lia).
  destruct (Z.geb_spec (_fraction a + _fraction b) 4294967296); [ lia | ].
  f_equal. unwrap; zlia.
Qed.

Lemma negate_zero_fraction x :
  _fraction x = 0 -> negate x = mkInstant (wrap_s64 (- _sysTime x)) 0.
Proof.
  intros H. unfold negate, POW2_32. rewrite H. reflexivity.
Qed.

Lemma negate_borrow x :
  in_u32 (_fraction x) -> _fraction x <> 0 ->
  negate x = mkInstant (wrap_s64 (- _sysTime x - 1)) (4294967296 - _fraction x).
Proof.
  intros Hf Hnz. unfold negate, POW2_32.
  assert (E : wrap_u32 (wrap_s64 (4294967296 - _fraction x))
              = 4294967296 - _fraction x) by (unwrap; zlia).
  rewrite E.
  destruct (Z.eqb_spec (4294967296 - _fraction x) 0) as [H0 | _];
    [ unwrap; lia | ].
  cbn [negb]. f_equal. unwrap. zlia.
Qed.

Lemma negate_repr x : Instant_repr x -> Instant_repr (negate x).
Proof.
  intros [Hs Hf]. destruct (Z.eq_dec (_fraction x) 0) as [E | E].
  - rewrite (negate_zero_fraction x E). split; cbn [_sysTime _fraction]; [ apply wrap_s64_range | unwrap; lia ].
  - rewrite (negate_borrow x Hf E). split; cbn [_sysTime _fraction]; [ apply wrap_s64_range | unwrap; lia ].
Qed.

(** Adding an Instant to its negation gives the zero Instant, for every
    representable Instant. *)
Lemma plus_negate_self x :
  Instant_repr x -> plus_assign x (negate x) = Instant_zero.
Proof.
  intros Hx. pose proof (negate_repr x Hx) as Hn. destruct Hx as [Hs Hf].
  destruct (Z.eq_dec (_fraction x) 0) as [E | E].
  - rewrite plus_assign_no_carry;
      [ | split; assumption | assumption
        | rewrite (negate_zero_fraction x E), E; cbn [_fraction]; lia ].
    rewrite (negate_zero_fraction x E), E. cbn [_sysTime _fraction].
    unfold Instant_zero. f_equal. unwrap. zlia.
  - rewrite plus_assign_carry;
      [ | split; assumption | assumption
        | rewrite (negate_borrow x Hf E); cbn [_fraction]; lia ].
    rewrite (negate_borrow x Hf E). cbn [_sysTime _fraction].
    unfold Instant_zero. f_equal; [ unwrap; zlia | lia ].
Qed.

(** C5: addition sums the seconds and sums the fractions with a carry: a
    fraction sum of 2^32 or more adds exactly one second and leaves the
    fraction sum minus 2^32; otherwise seconds and fractions are just
    summed. The seconds are the exact sum whenever it is a 64-bit value. *)
Theorem C5_plus_fraction_carry (a b : Instant) :
  Instant_repr a -> Instant_repr b ->
  (4294967296 <= _fraction a + _fraction b ->
     _sysTime (plus a b) = wrap_s64 (_sysTime a + _sysTime b + 1) /\
     _fraction (plus a b) = _fraction a + _fraction b - 4294967296 /\
     (in_s64 (_sysTime a + _sysTime b + 1) ->
      _sysTime (plus a b) = _sysTime a + _sysTime b + 1)) /\
  (_fraction a + _fraction b < 4294967296 ->
     _sysTime (plus a b) = wrap_s64 (_sysTime a + _sysTime b) /\
     _fraction (plus a b) = _fraction a + _fraction b /\
     (in_s64 (_sysTime a + _sysTime b) ->
      _sysTime (plus a b) = _sysTime a + _sysTime b)).
Proof.
  intros Ha Hb. unfold plus. split; intros Hc.
  - rewrite (plus_assign_carry a b Ha Hb Hc). cbn [_sysTime _fraction].
    split; [ reflexivity | split; [ reflexivity | apply wrap_s64_small ] ].
  - rewrite (plus_assign_no_carry a b Ha Hb Hc). cbn [_sysTime _fraction].
    split; [ reflexivity | split; [ reflexivity | apply wrap_s64_small ] ].
Qed.

Lemma C5_plus_fraction_carry_witness :
  _sysTime (plus (mkInstant 10 4294967295) (mkInstant (-3) 2)) = 8 /\
  _fraction (plus (mkInstant 10 4294967295) (mkInstant (-3) 2)) = 1.
Proof.
  assert (Ha : Instant_repr (mkInstant 10 4294967295))
    by (unfold Instant_repr; unwrap; simpl; lia).
  assert (Hb : Instant_repr (mkInstant (-3) 2))
    by (unfold Instant_repr; unwrap; simpl; lia).
  destruct (C5_plus_fraction_carry _ _ Ha Hb) as [Hcarry _].
  assert (Hc : 4294967296 <= _fraction (mkInstant 10 4294967295)
                               + _fraction (mkInstant (-3) 2)) by (simpl; lia).
  destruct (Hcarry Hc) as (_ & Hf & Hs).
  split; [ apply Hs; unwrap; simpl; lia | exact Hf ].
Defined.

(** C6: for every Instant [x], [x + (-x)] has seconds 0 and fraction 0;
    the negation has fraction [2^32 - fraction] and borrows one second
    exactly when the fraction of [x] is not zero. *)
Theorem C6_plus_negate_zero (x : Instant) :
  Instant_repr x ->
  _sysTime (plus x (negate x)) = 0 /\
  _fraction (plus x (negate x)) = 0 /\
  (_fraction x <> 0 ->
     _fraction (negate x) = 4294967296 - _fraction x /\
     _sysTime (negate x) = wrap_s64 (- _sysTime x - 1)) /\
  (_fraction x = 0 ->
     _fraction (negate x) = 0 /\
     _sysTime (negate x) = wrap_s64 (- _sysTime x)).
Proof.
  intros Hx. unfold plus. rewrite (plus_negate_self x Hx).
  split; [ reflexivity | split; [ reflexivity | split ] ]; intros E.
  - rewrite (negate_borrow x (proj2 Hx) E). split; reflexivity.
  - rewrite (negate_zero_fraction x E). split; reflexivity.
Qed.

Lemma C6_plus_negate_zero_witness :
  _sysTime (plus (mkInstant (-5) 3000000000) (negate (mkInstant (-5) 3000000000))) = 0 /\
  _fraction (plus (mkInstant (-5) 3000000000) (negate (mkInstant (-5) 3000000000))) = 0.
Proof.
  assert (Hx : Instant_repr (mkInstant (-5) 3000000000))
    by (unfold Instant_repr; unwrap; simpl; lia).
  destruct (C6_plus_negate_zero _ Hx) as (Hs & Hf & _).
  split; [ exact Hs | exact Hf ].
Defined.

(** ** The clock offset *)

(** The three-way era test of [getNTPOffset], seen through the era
    accessors of the Instant it initializes. *)
Lemma era_resolution_step (local : Instant) (srvSecs srvFraction : Z) :
  in_u32 srvSecs -> in_s32 (era local - 1) -> in_s32 (era local + 1) ->
  let diff := wrap_s64 (eraOffset local - srvSecs) in
  let T := if diff >? SECS_IN_68_YEARS
           then initialize (wrap_s32 (era local + 1)) srvSecs srvFraction
           else if diff <? - SECS_IN_68_YEARS
           then initialize (wrap_s32 (era local - 1)) srvSecs srvFraction
           else initialize (era local) srvSecs srvFraction in
  eraOffset T = srvSecs /\ _fraction T = srvFraction /\
  (eraOffset local - srvSecs > 2144448000 -> era T = era local + 1) /\
  (eraOffset local - srvSecs < -2144448000 -> era T = era local - 1) /\
  (-2144448000 <= eraOffset local - srvSecs <= 2144448000 -> era T = era local).
Proof.
  intros Hs Hm Hp diff T.
  pose proof (eraOffset_range local) as Ho.
  assert (Hd : diff = eraOffset local - srvSecs)
    by (apply wrap_s64_small; unwrap; lia).
  assert (He : in_s32 (era local)) by (unwrap; lia).
  unfold T, SECS_IN_68_YEARS. rewrite Hd.
  destruct (Z.gtb_spec (eraOffset local - srvSecs) 2144448000) as [Hgt | Hle].
  - rewrite (wrap_s32_small _ Hp).
    destruct (initialize_inverse (era local + 1) srvSecs srvFraction Hp Hs) as [E1 E2].
    split; [ exact E2 | split; [ reflexivity | ] ].
    split; [ | split ]; intros; solve [ exact E1 | lia ].
  - destruct (Z.ltb_spec (eraOffset local - srvSecs) (Z.opp 2144448000)) as [Hlt | Hge].
    + rewrite (wrap_s32_small _ Hm).
      destruct (initialize_inverse (era local - 1) srvSecs srvFraction Hm Hs) as [E1 E2].
      split; [ exact E2 | split; [ reflexivity | ] ].
    split; [ | split ]; intros; solve [ exact E1 | lia ].
    + destruct (initialize_inverse (era local) srvSecs srvFraction He Hs) as [E1 E2].
      split; [ exact E2 | split; [ reflexivity | ] ].
    split; [ | split ]; intros; solve [ exact E1 | lia ].
Qed.

Lemma plus_assign_zero_l x :
  Instant_repr x -> plus_assign Instant_zero x = x.
Proof.
  intros [Hs Hf].
  rewrite plus_assign_no_carry;
    [ | unfold Instant_repr, Instant_zero; unwrap; cbn [_sysTime _fraction]; lia
      | split; assumption
      | unfold Instant_zero; cbn [_fraction]; unwrap; lia ].
  unfold Instant_zero. cbn [_sysTime _fraction]. destruct x as [s f].
  cbn [_sysTime _fraction] in *. f_equal. apply wrap_s64_small. exact Hs.
Qed.

(** C3: on success the era of each server timestamp is resolved against
    the local era offset ([T1] for [T2], [T4] for [T3]): a difference
    above 68 years gives the local era plus one, a difference below minus
    68 years the local era minus one, anything else the local era; the
    server's seconds and fraction become era offset and fraction. A local
    era offset near 2^32 - 1 with a server offset near 0 selects the next
    era. *)
Theorem C3_era_resolution (T1 T4 : Instant)
    (rcvSecs rcvFraction tsmSecs tsmFraction : Z) :
  in_u32 rcvSecs -> in_u32 tsmSecs ->
  in_s32 (era T1 - 1) -> in_s32 (era T1 + 1) ->
  in_s32 (era T4 - 1) -> in_s32 (era T4 + 1) ->
  let r := getNTPOffset T1 T4 1 rcvSecs rcvFraction tsmSecs tsmFraction in
  (eraOffset (T2 r) = rcvSecs /\ _fraction (T2 r) = rcvFraction /\
   (eraOffset T1 - rcvSecs > 2144448000 -> era (T2 r) = era T1 + 1) /\
   (eraOffset T1 - rcvSecs < -2144448000 -> era (T2 r) = era T1 - 1) /\
   (-2144448000 <= eraOffset T1 - rcvSecs <= 2144448000 -> era (T2 r) = era T1)) /\
  (eraOffset (T3 r) = tsmSecs /\ _fraction (T3 r) = tsmFraction /\
   (eraOffset T4 - tsmSecs > 2144448000 -> era (T3 r) = era T4 + 1) /\
   (eraOffset T4 - tsmSecs < -2144448000 -> era (T3 r) = era T4 - 1) /\
   (-2144448000 <= eraOffset T4 - tsmSecs <= 2144448000 -> era (T3 r) = era T4)) /\
  ((4294967295 - eraOffset T1) + rcvSecs < 2150519295 -> era (T2 r) = era T1 + 1) /\
  ((4294967295 - eraOffset T4) + tsmSecs < 2150519295 -> era (T3 r) = era T4 + 1).
Proof.
  intros Hr Ht H1m H1p H4m H4p r.
  pose proof (era_resolution_step T1 rcvSecs rcvFraction Hr H1m H1p) as A.
  pose proof (era_resolution_step T4 tsmSecs tsmFraction Ht H4m H4p) as B.
  cbv zeta in A, B.
  assert (E2 : T2 r = if wrap_s64 (eraOffset T1 - rcvSecs) >? SECS_IN_68_YEARS
           then initialize (wrap_s32 (era T1 + 1)) rcvSecs rcvFraction
           else if wrap_s64 (eraOffset T1 - rcvSecs) <? - SECS_IN_68_YEARS
           then initialize (wrap_s32 (era T1 - 1)) rcvSecs rcvFraction
           else initialize (era T1) rcvSecs rcvFraction) by reflexivity.
  assert (E3 : T3 r = if wrap_s64 (eraOffset T4 - tsmSecs) >? SECS_IN_68_YEARS
           then initialize (wrap_s32 (era T4 + 1)) tsmSecs tsmFraction
           else if wrap_s64 (eraOffset T4 - tsmSecs) <? - SECS_IN_68_YEARS
           then initialize (wrap_s32 (era T4 - 1)) tsmSecs tsmFraction
           else initialize (era T4) tsmSecs tsmFraction) by reflexivity.
  rewrite E2, E3.
  split; [ exact A | split; [ exact B | split ] ]; intros Hnear.
  - apply A. lia.
  - apply B. lia.
Qed.

Lemma C3_era_resolution_witness :
  era (T2 (getNTPOffset (mkInstant 4294967295 0) (mkInstant 4294967295 9) 1 0 5 1 6))
    = era (mkInstant 4294967295 0) + 1 /\
  era (T3 (getNTPOffset (mkInstant 4294967295 0) (mkInstant 4294967295 9) 1 0 5 1 6))
    = era (mkInstant 4294967295 9) + 1.
Proof.
  assert (H : in_u32 0 /\ in_u32 1 /\
              in_s32 (era (mkInstant 4294967295 0) - 1) /\
              in_s32 (era (mkInstant 4294967295 0) + 1) /\
              in_s32 (era (mkInstant 4294967295 9) - 1) /\
              in_s32 (era (mkInstant 4294967295 9) + 1))
    by (vm_compute; intuition discriminate).
  destruct H as (Hr & Ht & H1m & H1p & H4m & H4p).
  destruct (C3_era_resolution (mkInstant 4294967295 0) (mkInstant 4294967295 9)
              0 5 1 6 Hr Ht H1m H1p H4m H4p) as (_ & _ & N2 & N3).
  split; [ apply N2 | apply N3 ]; vm_compute; reflexivity.
Defined.

Lemma div_int_zero : div_int Instant_zero 2 = Some Instant_zero.
Proof. vm_compute. reflexivity. Qed.

(** C4: when the timestamp request does not return success,
    [getNTPOffset] sets [T2] to [T1] and [T3] to [T4] (the output
    timestamps [t2] and [t3] get the same Instants) and returns a clock
    offset with seconds 0 and fraction 0, whatever [T1] and [T4] are. *)
Theorem C4_offset_zero_on_failure (T1 T4 : Instant)
    (status rcvSecs rcvFraction tsmSecs tsmFraction : Z) :
  Instant_repr T1 -> Instant_repr T4 -> status <> 1 ->
  let r := getNTPOffset T1 T4 status rcvSecs rcvFraction tsmSecs tsmFraction in
  T2 r = T1 /\ T3 r = T4 /\
  t2_ntpTime r = T1 /\ t3_ntpTime r = T4 /\
  clockOffset r = Some (mkInstant 0 0).
Proof.
  intros H1 H4 Hst r. unfold r, getNTPOffset.
  destruct (Z.eqb_spec status 1) as [E | _]; [ contradiction | ].
  cbn [fst snd T2 T3 t2_ntpTime t3_ntpTime clockOffset].
  unfold minus, minus_assign, plus.
  rewrite (plus_negate_self T1 H1), (plus_negate_self T4 H4).
  rewrite (plus_assign_zero_l T1 H1), (plus_assign_zero_l T4 H4).
  rewrite (plus_assign_zero_l Instant_zero)
    by (unfold Instant_repr, Instant_zero; unwrap; cbn [_sysTime _fraction]; lia).
  rewrite div_int_zero. repeat split.
Qed.

Lemma C4_offset_zero_on_failure_witness :
  T2 (getNTPOffset (mkInstant 1000 7) (mkInstant 1002 500000000) (-3) 0 0 0 0)
    = mkInstant 1000 7 /\
  clockOffset
    (getNTPOffset (mkInstant 1000 7) (mkInstant 1002 500000000) (-3) 0 0 0 0)
  = Some (mkInstant 0 0).
Proof.
  assert (H1 : Instant_repr (mkInstant 1000 7))
    by (unfold Instant_repr; unwrap; simpl; lia).
  assert (H4 : Instant_repr (mkInstant 1002 500000000))
    by (unfold Instant_repr; unwrap; simpl; lia).
  assert (Hst : -3 <> 1) by lia.
  destruct (C4_offset_zero_on_failure (mkInstant 1000 7) (mkInstant 1002 500000000)
              (-3) 0 0 0 0 H1 H4 Hst) as (E2 & _ & _ & _ & Eo).
  split; [ exact E2 | exact Eo ].
Defined.

(** ** Construction of Time and Date *)

(** C8: the three-argument Time constructor lets an hour of 30 through
    (it clamps at 59, the four-argument one at 23), and the Date
    constructor looks the days of the month up one month too far: Feb 31
    is kept, Jan 31 becomes Jan 28, and December reads past the table. *)
Theorem C8_constructors_miss_clamp :
  hour (Time_hms 30 0 0) = 30 /\
  hour (Time_hmsf 30 0 0 0) = 23 /\
  Date_mdy 2 31 2023 = Ok (mkDate 2 31 2023) /\
  Date_mdy 1 31 2023 = Ok (mkDate 1 28 2023) /\
  Date_mdy 12 31 2023 = OutOfBounds.
Proof. repeat split. Qed.

(** ** Timezone offsets *)

Lemma whole_hours_code (n : Z) (d : positive) :
  (if Qle_bool (n # d) (-14 # 1) then -14
   else if Qltb (14 # 1) (n # d) then 14
   else wrap_s32 (Qtrunc (n # d))) = tz_whole_hours (n # d).
Proof.
  unfold tz_whole_hours, Qltb, Qtrunc, Qle_bool. cbn [Qnum Qden].
  destruct (Z.leb_spec (n * 1) (-14 * Z.pos d)).
  - assert (Z.quot n (Z.pos d) <= -14) by (Z.to_euclidean_division_equations; nia). lia.
  - destruct (Z.leb_spec (n * 1) (14 * Z.pos d)); cbn [negb].
    + assert (-14 <= Z.quot n (Z.pos d) <= 14) by (Z.to_euclidean_division_equations; nia).
      rewrite wrap_s32_small by (unwrap; lia). lia.
    + assert (14 <= Z.quot n (Z.pos d)) by (Z.to_euclidean_division_equations; nia). lia.
Qed.

Lemma quarters_value (a d : Z) :
  0 < d -> 0 <= a ->
  (3 * d <= a -> Z.max 1 (Z.min 3 (a / d)) = 3) /\
  (2 * d <= a < 3 * d -> Z.max 1 (Z.min 3 (a / d)) = 2) /\
  (a < 2 * d -> Z.max 1 (Z.min 3 (a / d)) = 1).
Proof.
  intros Hd Ha. split; [ | split ]; intros H.
  - assert (3 <= a / d) by (apply Z.div_le_lower_bound; lia). lia.
  - assert (2 <= a / d) by (apply Z.div_le_lower_bound; lia).
    assert (a / d < 3) by (apply Z.div_lt_upper_bound; lia). lia.
  - assert (a / d < 2) by (apply Z.div_lt_upper_bound; lia). lia.
Qed.

Lemma snap_code_quarters (h : Z) (f : Q) :
  -14 <= h <= 14 ->
  wrap_s32 (Qtrunc ((3600 # 1) * inject_Z h + (3600 # 1) *
    (if Qltb f 0
     then (if Qle_bool f (-3 # 4) then (-3 # 4)%Q
           else if Qle_bool f (-1 # 2) then (-1 # 2)%Q
           else (-1 # 4)%Q)
     else if Qltb 0 f
     then (if Qle_bool (3 # 4) f then (3 # 4)%Q
           else if Qle_bool (1 # 2) f then (1 # 2)%Q
           else (1 # 4)%Q)
     else f))%Q)
  = 3600 * h + 900 * quarters_snapped f.
Proof.
  intros Hh. destruct f as [fn fd].
  unfold quarters_snapped, Qltb, Qle_bool, Qfloor, Qabs, Qtrunc, Qmult, Qplus, inject_Z.
  cbn [Qnum Qden].
  assert (Hd : 0 < Z.pos fd) by lia.
  destruct (quarters_value (4 * Z.abs fn) (Z.pos fd) Hd ltac:(lia)) as (Q3 & Q2 & Q1).
  destruct (Z.leb_spec (0 * Z.pos fd) (fn * 1)) as [Hn | Hn]; cbn [negb].
  - destruct (Z.leb_spec (fn * 1) (0 * Z.pos fd)) as [Hz | Hp]; cbn [negb].
    + cbn [Qnum Qden]; rewrite ?Pos2Z.inj_mul.
      assert (fn = 0) by lia. subst fn.
      replace (3600 * h * (1 * Z.pos fd) + 3600 * 0 * (1 * 1))
        with ((3600 * h) * Z.pos fd) by ring.
      replace (1 * 1 * (1 * Z.pos fd)) with (Z.pos fd) by ring.
      rewrite Z.quot_mul by lia. cbn [Z.sgn]. rewrite Z.mul_0_l.
      rewrite wrap_s32_small by (unwrap; lia). lia.
    + destruct (Z.leb_spec (3 * Z.pos fd) (fn * 4)) as [H3 | H3];
        [ | destruct (Z.leb_spec (1 * Z.pos fd) (fn * 2)) as [H2 | H2] ];
        cbn [Qnum Qden]; rewrite ?Pos2Z.inj_mul, ?Z.mul_1_l;
        [ rewrite Q3 by lia | rewrite Q2 by lia | rewrite Q1 by lia ];
        (rewrite wrap_s32_small; [ | unwrap ]); zlia.
  - destruct (Z.leb_spec (fn * 4) (-3 * Z.pos fd)) as [H3 | H3];
        [ | destruct (Z.leb_spec (fn * 2) (-1 * Z.pos fd)) as [H2 | H2] ];
        cbn [Qnum Qden]; rewrite ?Pos2Z.inj_mul, ?Z.mul_1_l;
        [ rewrite Q3 by lia | rewrite Q2 by lia | rewrite Q1 by lia ];
        (rewrite wrap_s32_small; [ | unwrap ]); zlia.
Qed.

Lemma tzOffset_snapped hours :
  tzOffset hours = tzOffset_spec quarters_snapped hours.
Proof.
  destruct hours as [n d]. unfold tzOffset, tzOffset_spec. cbv zeta.
  rewrite whole_hours_code.
  apply snap_code_quarters. unfold tz_whole_hours. lia.
Qed.

(** C7, as the code has it: [tzOffset] clamps the whole hours to
    [-14, 14] and snaps the fraction (hours minus whole hours) to quarter
    hours: zero stays zero, any other fraction has its magnitude truncated
    down to a quarter, a half or three quarters but never below a quarter,
    and keeps its sign; the result is [3600 * whole_hours + 3600 *
    snapped_fraction], and [tzOffset(5.6)] is 19800, for 5.6 itself and
    for the double nearest to it, 3152519739159347 / 2^49. *)
Theorem C7_tzOffset_snaps_quarters :
  (forall hours : Q, tzOffset hours = tzOffset_spec quarters_snapped hours) /\
  (forall hours : Q, -14 <= tz_whole_hours hours <= 14) /\
  (forall fraction : Q,
     quarters_snapped fraction = 0 <-> Qnum fraction = 0) /\
  (forall fraction : Q,
     (1 # 4 <= Qabs fraction)%Q ->
     quarters_snapped fraction = quarters_truncated fraction) /\
  tzOffset (28 # 5) = 19800 /\
  tzOffset (3152519739159347 # 562949953421312) = 19800.
Proof.
  split; [ exact tzOffset_snapped | ].
  split; [ intros hours; unfold tz_whole_hours; lia | ].
  split; [ | split; [ | split; reflexivity ] ].
  - intros [fn fd]. unfold quarters_snapped. cbn [Qnum]. lia.
  - intros [fn fd]. unfold quarters_snapped, quarters_truncated, Qfloor, Qabs, Qmult, Qle.
    cbn [Qnum Qden]. intros H. rewrite ?Pos2Z.inj_mul in *.
    assert (1 <= 4 * Z.abs fn / (1 * Z.pos fd))
      by (apply Z.div_le_lower_bound; lia).
    f_equal. lia.
Qed.

(** The claim C7 as the specification states it fails at 5.1 hours (and
    at the double nearest to it, 2871044762448691 / 2^49): the fraction .1
    is raised to a quarter of an hour, not truncated to 0. *)
Lemma C7_counterexample :
  tzOffset (51 # 10) = 18900 /\
  tzOffset_spec quarters_truncated (51 # 10) = 18000 /\
  tzOffset (51 # 10) <> tzOffset_spec quarters_truncated (51 # 10) /\
  tzOffset (2871044762448691 # 562949953421312) = 18900 /\
  tzOffset_spec quarters_truncated (2871044762448691 # 562949953421312) = 18000.
Proof.
  split; [ reflexivity | split; [ reflexivity | split ] ].
  - vm_compute. discriminate.
  - split; reflexivity.
Qed.

(** ** Construction from a double *)

(** The remainder of [n / d] scaled by 2^32 and truncated: its range and
    its distance from the exact value. *)
Lemma fraction_core (n d : Z) :
  0 < d ->
  let r := Z.rem n d in
  let p := Z.quot (r * 4294967296) d in
  (0 <= n -> 0 <= p < 4294967296 /\ 0 <= r * 4294967296 - p * d < d) /\
  (n <= 0 -> -4294967296 < p <= 0 /\ - d < r * 4294967296 - p * d <= 0).
Proof.
  intros Hd r p.
  assert (Hr : n = d * Z.quot n d + r /\ (0 <= n -> 0 <= r < d) /\ (n <= 0 -> - d < r <= 0)).
  { unfold r. Z.to_euclidean_division_equations. nia. }
  assert (Hp : r * 4294967296 = d * p + Z.rem (r * 4294967296) d /\
               (0 <= r -> 0 <= Z.rem (r * 4294967296) d < d) /\
               (r <= 0 -> - d < Z.rem (r * 4294967296) d <= 0)).
  { unfold p. Z.to_euclidean_division_equations. nia. }
  split; intros Hn; nia.
Qed.

Lemma initialize_double_value (n : Z) (d : positive) :
  in_s64 (Z.quot n (Z.pos d)) ->
  let whole := Z.quot n (Z.pos d) in
  let p := Z.quot (Z.rem n (Z.pos d) * 4294967296) (Z.pos d) in
  Qtrunc (n # d) = whole /\
  Qtrunc (((n # d) - inject_Z whole) * inject_Z POW2_32) = p /\
  initialize_double (n # d) =
    if p <? 0 then None else Some (mkInstant whole p).
Proof.
  intros Hrange whole p.
  assert (Hd : 0 < Z.pos d) by lia.
  assert (Ht : Qtrunc (n # d) = whole) by reflexivity.
  assert (Hp : Qtrunc (((n # d) - inject_Z whole) * inject_Z POW2_32) = p).
  { unfold Qtrunc, Qminus, Qplus, Qmult, Qopp, inject_Z, POW2_32. cbn [Qnum Qden].
    rewrite !Pos.mul_1_r. unfold p. f_equal. unfold whole.
    Z.to_euclidean_division_equations. nia. }
  split; [ exact Ht | split; [ exact Hp | ] ].
  unfold initialize_double, double_to_int. cbv zeta. rewrite Ht.
  assert (Hin : (-9223372036854775808 <=? whole) && (whole <=? 9223372036854775807) = true).
  { unfold whole in *. unwrap.
    destruct (Z.leb_spec (-9223372036854775808) (Z.quot n (Z.pos d))),
      (Z.leb_spec (Z.quot n (Z.pos d)) 9223372036854775807); cbn [andb]; lia. }
  rewrite Hin. rewrite Hp.
  destruct (fraction_core n (Z.pos d) Hd) as [Hpos Hneg]. fold p in Hpos, Hneg.
  replace (Qltb (n # d) 0) with (n <? 0).
  2:{ unfold Qltb, Qle_bool. cbn [Qnum Qden].
      destruct (Z.ltb_spec n 0), (Z.leb_spec (0 * Z.pos d) (n * 1)); cbn [negb]; lia. }
  destruct (Z.ltb_spec p 0) as [Hlt | Hge].
  - destruct (Z.leb_spec 0 p); [ lia | reflexivity ].
  - assert (Hb : p < 4294967296).
    { destruct (Z.le_gt_cases 0 n) as [Hn | Hn];
        [ destruct (Hpos Hn) | destruct (Hneg ltac:(lia)) ]; lia. }
    destruct (Z.leb_spec 0 p); [ | lia ].
    destruct (Z.leb_spec p 4294967295); [ | lia ]. cbn [andb].
    destruct (Z.ltb_spec n 0) as [Hn | Hn]; cbn [andb]; [ | reflexivity ].
    destruct (Hneg ltac:(lia)) as [Hb' _].
    destruct (Z.gtb_spec p 0); [ lia | reflexivity ].
Qed.

(** C9, as the code has it: for a scalar [x] whose integer part is a
    64-bit value, let [p] be the remainder of [x] scaled by 2^32 and
    truncated. [p] is negative exactly when the remainder is -2^-32 or
    below, and then the conversion of the negative product to [uint32_t]
    is undefined: the code gives no result. Otherwise the seconds are the
    integer part of [x] and the fraction is [p], within 2^-32 of [x]. A
    negative [x] either has no result or keeps its integer part with
    fraction 0: no defined run takes the branch that decrements the
    seconds, and none stores the positive complement. *)
Theorem C9_initialize_double (x : Q) :
  in_s64 (Qtrunc x) ->
  let whole := Qtrunc x in
  let p := Qtrunc ((x - inject_Z whole) * inject_Z POW2_32) in
  (p < 0 <-> (x - inject_Z whole <= - (1 # 4294967296))%Q) /\
  (p < 0 -> initialize_double x = None) /\
  (0 <= p ->
   initialize_double x = Some (mkInstant whole p) /\ in_u32 p /\
   (Qabs (sysTimed (mkInstant whole p) - x) < 1 # 4294967296)%Q) /\
  ((x < 0)%Q ->
   forall i, initialize_double x = Some i -> i = mkInstant whole 0).
Proof.
  destruct x as [n d]. intros Hrange. cbv zeta.
  destruct (initialize_double_value n d Hrange) as (Ht & Hp & Hv).
  cbv zeta in Hp, Hv. rewrite Ht in *. rewrite Hp, Hv. clear Hp Hv Ht.
  assert (Hd : 0 < Z.pos d) by lia.
  destruct (fraction_core n (Z.pos d) Hd) as [Hpos Hneg].
  assert (Hq : n = Z.pos d * Z.quot n (Z.pos d) + Z.rem n (Z.pos d))
    by (Z.to_euclidean_division_equations; nia).
  assert (Hqd : Z.rem n (Z.pos d) * 4294967296
                = Z.pos d * Z.quot (Z.rem n (Z.pos d) * 4294967296) (Z.pos d)
                  + Z.rem (Z.rem n (Z.pos d) * 4294967296) (Z.pos d) /\
                - Z.pos d < Z.rem (Z.rem n (Z.pos d) * 4294967296) (Z.pos d) < Z.pos d)
    by (Z.to_euclidean_division_equations; nia).
  cbv zeta in Hpos, Hneg.
  remember (Z.quot n (Z.pos d)) as w eqn:Ew.
  remember (Z.rem (Z.rem n (Z.pos d) * 4294967296) (Z.pos d)) as rr eqn:Err.
  remember (Z.quot (Z.rem n (Z.pos d) * 4294967296) (Z.pos d)) as q eqn:Eq.
  remember (Z.rem n (Z.pos d)) as r eqn:Er.
  clear Ew Eq Er Err.
  split; [ | split; [ | split ] ].
  - unfold Qle, Qminus, Qplus, Qopp, inject_Z. cbn [Qnum Qden].
    rewrite ?Pos2Z.inj_mul. split; intros H; nia.
  - intros Hlt. destruct (Z.ltb_spec q 0); [ reflexivity | lia ].
  - intros Hge. destruct (Z.ltb_spec q 0); [ lia | ].
    assert (Hb : q < 4294967296).
    { destruct (Z.le_gt_cases 0 n) as [Hn | Hn];
        [ destruct (Hpos Hn) | destruct (Hneg ltac:(lia)) ]; lia. }
    split; [ reflexivity | split; [ unwrap; lia | ] ].
    unfold sysTimed, Qminus, Qdiv.
    change (/ inject_Z POW2_32)%Q with (1 # 4294967296)%Q.
    unfold Qlt, Qplus, Qmult, Qopp, Qabs, inject_Z.
    cbn [Qnum Qden _sysTime _fraction]. rewrite ?Pos2Z.inj_mul.
    destruct (Z.le_gt_cases 0 n) as [Hn | Hn];
      [ destruct (Hpos Hn) | destruct (Hneg ltac:(lia)) ]; nia.
  - unfold Qlt. cbn [Qnum Qden]. intros Hn i.
    destruct (Hneg ltac:(lia)) as [Hb _].
    destruct (Z.ltb_spec q 0); [ discriminate | ].
    intros E. injection E as <-. f_equal. lia.
Qed.

Lemma C9_initialize_double_witness : initialize_double (-3 # 2) = None.
Proof.
  assert (H : in_s64 (Qtrunc (-3 # 2))) by (vm_compute; intuition discriminate).
  assert (Hp : Qtrunc (((-3 # 2) - inject_Z (Qtrunc (-3 # 2))) * inject_Z POW2_32) < 0)
    by (vm_compute; reflexivity).
  exact (proj1 (proj2 (C9_initialize_double (-3 # 2) H)) Hp).
Defined.

(** ** Calendar conversions *)

Lemma IS_LEAP_YEAR_gregorian y : IS_LEAP_YEAR y = gregorian_leap y.
Proof.
  unfold IS_LEAP_YEAR, gregorian_leap.
  destruct (Z.eqb_spec (Z.rem y 400) 0), (Z.eqb_spec (Z.rem y 100) 0),
    (Z.eqb_spec (Z.rem y 4) 0), (Z.eqb_spec (y mod 400) 0),
    (Z.eqb_spec (y mod 100) 0), (Z.eqb_spec (y mod 4) 0);
    cbn [negb andb orb]; try reflexivity; exfalso; zlia.
Qed.

Lemma MONTH_DAYS_Ok m y :
  0 <= m <= 11 -> MONTH_DAYS m y = Ok (days_in_month (m + 1) y).
Proof.
  intros H.
  assert (C : m = 0 \/ m = 1 \/ m = 2 \/ m = 3 \/ m = 4 \/ m = 5 \/ m = 6 \/
              m = 7 \/ m = 8 \/ m = 9 \/ m = 10 \/ m = 11) by lia.
  unfold MONTH_DAYS, days_in_month. rewrite <- IS_LEAP_YEAR_gregorian.
  repeat (destruct C as [C | C]; [ subst m; cbn; destruct (IS_LEAP_YEAR y); reflexivity | ]).
  subst m; reflexivity.
Qed.

Lemma days_in_month_bounds m y : 28 <= days_in_month m y <= 31.
Proof.
  unfold days_in_month.
  destruct (m =? 2); [ destruct (gregorian_leap y); lia | ].
  destruct ((m =? 4) || (m =? 6) || (m =? 9) || (m =? 11)); lia.
Qed.

Lemma DAYS_IN_YEAR_bounds y : 365 <= DAYS_IN_YEAR y <= 366.
Proof. unfold DAYS_IN_YEAR. destruct (IS_LEAP_YEAR y); lia. Qed.

Lemma SECS_IN_YEAR_days y : SECS_IN_YEAR y = 86400 * DAYS_IN_YEAR y.
Proof. unfold SECS_IN_YEAR, SECS_IN_DAY. lia. Qed.

Lemma days_of_years_bounds k y :
  365 * Z.of_nat k <= days_of_years k y <= 366 * Z.of_nat k.
Proof.
  revert y. induction k as [ | k IH]; intros y.
  - cbn [days_of_years Z.of_nat]. lia.
  - cbn [days_of_years]. specialize (IH (y + 1)).
    pose proof (DAYS_IN_YEAR_bounds y). lia.
Qed.

Lemma days_of_years_snoc k y :
  days_of_years (S k) y = days_of_years k y + DAYS_IN_YEAR (y + Z.of_nat k).
Proof.
  revert y. induction k as [ | k IH]; intros y.
  - cbn [days_of_years Z.of_nat]. rewrite !Z.add_0_r. lia.
  - change (days_of_years (S (S k)) y)
      with (DAYS_IN_YEAR y + days_of_years (S k) (y + 1)).
    rewrite IH. cbn [days_of_years].
    replace (y + 1 + Z.of_nat k) with (y + Z.of_nat (S k)) by lia. lia.
Qed.

Lemma days_of_months_year y : days_of_months 12 0 y = DAYS_IN_YEAR y.
Proof.
  unfold DAYS_IN_YEAR. rewrite IS_LEAP_YEAR_gregorian.
  cbn. unfold days_in_month. cbn. destruct (gregorian_leap y); reflexivity.
Qed.

Lemma days_of_months_app j k m y :
  days_of_months (j + k) m y
  = days_of_months j m y + days_of_months k (m + Z.of_nat j) y.
Proof.
  revert m. induction j as [ | j IH]; intros m.
  - cbn [Nat.add days_of_months Z.of_nat]. rewrite Z.add_0_r. reflexivity.
  - cbn [Nat.add days_of_months]. rewrite IH.
    replace (m + 1 + Z.of_nat j) with (m + Z.of_nat (S j)) by lia. lia.
Qed.

Lemma days_of_months_nonneg k m y : 0 <= days_of_months k m y.
Proof.
  revert m. induction k as [ | k IH]; intros m; cbn [days_of_months]; [ lia | ].
  specialize (IH (m + 1)). pose proof (days_in_month_bounds (m + 1) y). lia.
Qed.

(** The day of the year of a valid date is within the year. *)
Lemma day_of_year_bound (j : nat) (dd y : Z) :
  (j < 12)%nat -> 1 <= dd <= days_in_month (Z.of_nat j + 1) y ->
  0 <= days_of_months j 0 y + (dd - 1) < DAYS_IN_YEAR y.
Proof.
  intros Hj Hd. rewrite <- days_of_months_year.
  replace 12%nat with (j + S (11 - j))%nat by lia.
  rewrite days_of_months_app. cbn [days_of_months]. rewrite Z.add_0_l.
  pose proof (days_of_months_nonneg j 0 y).
  pose proof (days_of_months_nonneg (11 - j) (Z.of_nat j + 1) y). lia.
Qed.

(** ** The loops of toInstant *)

Lemma toInstant_after_spec (k : nat) :
  forall (fuel : nat) (year dyear acc : Z),
  (k < fuel)%nat -> dyear = year + Z.of_nat k ->
  in_s32 year -> in_s32 dyear ->
  0 <= acc -> acc + 86400 * days_of_years k year < 9223372036854775808 ->
  toInstant_after fuel year dyear acc = Ok (acc + 86400 * days_of_years k year).
Proof.
  induction k as [ | k IH]; intros fuel year dyear acc Hf Hy Hr Hd Ha Hb;
    (destruct fuel as [ | fuel]; [ lia | ]); cbn [toInstant_after days_of_years].
  - destruct (Z.ltb_spec year dyear); [ lia | ]. eq_ok.
  - destruct (Z.ltb_spec year dyear); [ | lia ].
    cbn [days_of_years] in Hb.
    pose proof (DAYS_IN_YEAR_bounds year).
    pose proof (days_of_years_bounds k (year + 1)).
    rewrite SECS_IN_YEAR_days.
    rewrite wrap_s32_small by (unwrap; lia).
    rewrite wrap_s64_small by (unwrap; lia).
    rewrite (IH fuel (year + 1) dyear (acc + 86400 * DAYS_IN_YEAR year));
      [ eq_ok | lia | lia | unwrap; lia | assumption | lia | lia ].
Qed.

Lemma toInstant_before_spec (k : nat) :
  forall (fuel : nat) (year dyear acc : Z),
  (k < fuel)%nat -> year = dyear + Z.of_nat k ->
  in_s32 year -> in_s32 dyear ->
  acc <= 0 -> - 9223372036854775808 <= acc - 86400 * days_of_years k (dyear + 1) ->
  toInstant_before fuel year dyear acc
  = Ok (acc - 86400 * days_of_years k (dyear + 1)).
Proof.
  induction k as [ | k IH]; intros fuel year dyear acc Hf Hy Hr Hd Ha Hb;
    (destruct fuel as [ | fuel]; [ lia | ]); cbn [toInstant_before].
  - destruct (Z.gtb_spec year dyear); [ lia | ]. cbn [days_of_years]. eq_ok.
  - destruct (Z.gtb_spec year dyear); [ | lia ].
    rewrite days_of_years_snoc in Hb |- *.
    replace (dyear + 1 + Z.of_nat k) with year in Hb |- * by lia.
    pose proof (DAYS_IN_YEAR_bounds year).
    pose proof (days_of_years_bounds k (dyear + 1)).
    rewrite SECS_IN_YEAR_days.
    rewrite wrap_s32_small by (unwrap; lia).
    rewrite wrap_s64_small by (unwrap; lia).
    rewrite (IH fuel (year - 1) dyear (acc - 86400 * DAYS_IN_YEAR year));
      [ eq_ok | lia | lia | unwrap; lia | assumption | lia | lia ].
Qed.

Lemma toInstant_months_spec (k : nat) :
  forall (fuel : nat) (m dmonth y acc : Z),
  (k < fuel)%nat -> 1 <= m -> dmonth = m + Z.of_nat k -> dmonth <= 12 ->
  0 <= acc -> acc + 86400 * days_of_months k (m - 1) y < 2147483648 ->
  toInstant_months fuel m dmonth y acc
  = Ok (acc + 86400 * days_of_months k (m - 1) y).
Proof.
  induction k as [ | k IH]; intros fuel m dmonth y acc Hf Hm Hd Hle Ha Hb;
    (destruct fuel as [ | fuel]; [ lia | ]); cbn [toInstant_months days_of_months].
  - destruct (Z.ltb_spec m dmonth); [ lia | ]. eq_ok.
  - destruct (Z.ltb_spec m dmonth); [ | lia ].
    cbn [days_of_months] in Hb.
    replace (m - 1 + 1) with m in Hb |- * by lia.
    unfold SECS_IN_MONTH. rewrite MONTH_DAYS_Ok by lia.
    replace (m - 1 + 1) with m by lia. cbn [bind]. unfold SECS_IN_DAY.
    pose proof (days_in_month_bounds m y).
    pose proof (days_of_months_nonneg k m y).
    rewrite wrap_s32_small by (unwrap; lia).
    rewrite wrap_s32_small by (unwrap; lia).
    rewrite (IH fuel (m + 1) dmonth y (acc + days_in_month m y * 86400));
      replace (m + 1 - 1) with m by lia;
      [ eq_ok | lia | lia | lia | lia | lia | lia ].
Qed.

(** ** The loops of toDate *)

Lemma toDate_after_spec (k : nat) :
  forall (fuel : nat) (y r : Z),
  (k < fuel)%nat -> in_s32 y -> in_s32 (y + Z.of_nat k) ->
  0 <= r < 86400 * DAYS_IN_YEAR (y + Z.of_nat k) ->
  86400 * days_of_years k y + r < 9223372036854775808 ->
  toDate_after fuel (86400 * days_of_years k y + r) y = Ok (r, y + Z.of_nat k).
Proof.
  induction k as [ | k IH]; intros fuel y r Hf Hy Hyk Hr Hb;
    (destruct fuel as [ | fuel]; [ lia | ]); cbn [toDate_after days_of_years].
  - replace (y + Z.of_nat 0) with y in * by lia.
    rewrite SECS_IN_YEAR_days.
    destruct (Z.geb_spec (86400 * 0 + r) (86400 * DAYS_IN_YEAR y)); [ lia | ].
    eq_ok.
  - cbn [days_of_years] in Hb.
    pose proof (DAYS_IN_YEAR_bounds y).
    pose proof (days_of_years_bounds k (y + 1)).
    rewrite SECS_IN_YEAR_days.
    destruct (Z.geb_spec (86400 * (DAYS_IN_YEAR y + days_of_years k (y + 1)) + r)
                (86400 * DAYS_IN_YEAR y)); [ | lia ].
    rewrite wrap_s32_small by (unwrap; lia).
    rewrite wrap_s64_small by (unwrap; lia).
    replace (86400 * (DAYS_IN_YEAR y + days_of_years k (y + 1)) + r
             - 86400 * DAYS_IN_YEAR y)
      with (86400 * days_of_years k (y + 1) + r) by lia.
    replace (y + Z.of_nat (S k)) with (y + 1 + Z.of_nat k) in * by lia.
    apply IH; [ lia | unwrap; lia | assumption | assumption | lia ].
Qed.

Lemma toDate_before_spec (Y : Z) (k : nat) :
  forall (fuel : nat) (r : Z),
  (k < fuel)%nat -> in_s32 Y -> in_s32 (Y + Z.of_nat k) ->
  0 <= r < 86400 * DAYS_IN_YEAR Y ->
  - 9223372036854775808 <= - (86400 * days_of_years (S k) Y) + r ->
  toDate_before fuel (- (86400 * days_of_years (S k) Y) + r) (Y + Z.of_nat k)
  = Ok (- (86400 * DAYS_IN_YEAR Y) + r, Y).
Proof.
  induction k as [ | k IH]; intros fuel r Hf Hy Hyk Hr Hb;
    (destruct fuel as [ | fuel]; [ lia | ]); cbn [toDate_before].
  - replace (Y + Z.of_nat 0) with Y in * by lia.
    cbn [days_of_years]. rewrite SECS_IN_YEAR_days.
    destruct (Z.ltb_spec (- (86400 * (DAYS_IN_YEAR Y + 0)) + r)
                (- (86400 * DAYS_IN_YEAR Y))); [ lia | ].
    eq_ok.
  - rewrite (days_of_years_snoc (S k) Y) in Hb |- *.
    pose proof (DAYS_IN_YEAR_bounds Y).
    pose proof (DAYS_IN_YEAR_bounds (Y + Z.of_nat (S k))).
    pose proof (days_of_years_bounds k (Y + 1)).
    assert (Hs : days_of_years (S k) Y = DAYS_IN_YEAR Y + days_of_years k (Y + 1))
      by reflexivity.
    rewrite SECS_IN_YEAR_days.
    destruct (Z.ltb_spec
                (- (86400 * (days_of_years (S k) Y + DAYS_IN_YEAR (Y + Z.of_nat (S k)))) + r)
                (- (86400 * DAYS_IN_YEAR (Y + Z.of_nat (S k))))); [ | lia ].
    rewrite wrap_s32_small by (unwrap; lia).
    rewrite wrap_s64_small by (unwrap; lia).
    replace (- (86400 * (days_of_years (S k) Y + DAYS_IN_YEAR (Y + Z.of_nat (S k)))) + r
             + 86400 * DAYS_IN_YEAR (Y + Z.of_nat (S k)))
      with (- (86400 * days_of_years (S k) Y) + r) by lia.
    replace (Y + Z.of_nat (S k) - 1) with (Y + Z.of_nat k) by lia.
    apply IH; [ lia | assumption | unwrap; lia | assumption | lia ].
Qed.

Lemma toDate_months_spec (k : nat) :
  forall (fuel : nat) (m dd y : Z),
  (k < fuel)%nat -> 0 <= m -> m + Z.of_nat k <= 11 ->
  0 <= dd < days_in_month (m + Z.of_nat k + 1) y ->
  toDate_months fuel m (days_of_months k m y + dd) y = Ok (m + Z.of_nat k, dd).
Proof.
  induction k as [ | k IH]; intros fuel m dd y Hf Hm Hk Hd;
    (destruct fuel as [ | fuel]; [ lia | ]); cbn [toDate_months days_of_months].
  - replace (m + Z.of_nat 0) with m in * by lia. rewrite Z.add_0_l.
    destruct (Z.ltb_spec m 11); [ | reflexivity ].
    rewrite MONTH_DAYS_Ok by lia. cbn [bind].
    pose proof (days_in_month_bounds (m + 1) y).
    rewrite wrap_u32_small by (unwrap; lia).
    destruct (Z.geb_spec dd (days_in_month (m + 1) y)); [ lia | reflexivity ].
  - destruct (Z.ltb_spec m 11); [ | lia ].
    rewrite MONTH_DAYS_Ok by lia. cbn [bind].
    pose proof (days_in_month_bounds (m + 1) y).
    pose proof (days_in_month_bounds (m + Z.of_nat (S k) + 1) y).
    pose proof (days_of_months_nonneg k (m + 1) y).
    assert (days_of_months k (m + 1) y <= 31 * Z.of_nat k).
    { clear. generalize (m + 1). induction k as [ | k IH]; intros z;
        cbn [days_of_months]; [ lia | ].
      specialize (IH (z + 1)). pose proof (days_in_month_bounds (z + 1) y). lia. }
    rewrite wrap_u32_small by (unwrap; lia).
    destruct (Z.geb_spec (days_in_month (m + 1) y + days_of_months k (m + 1) y + dd)
                (days_in_month (m + 1) y)); [ | lia ].
    rewrite wrap_s32_small by (unwrap; lia).
    rewrite wrap_u32_small by (unwrap; lia).
    replace (days_in_month (m + 1) y + days_of_months k (m + 1) y + dd
             - days_in_month (m + 1) y)
      with (days_of_months k (m + 1) y + dd) by lia.
    replace (m + Z.of_nat (S k)) with (m + 1 + Z.of_nat k) in * by lia.
    apply IH; [ lia | lia | lia | assumption ].
Qed.

Lemma day_of_year_range d :
  valid_Date d -> 0 <= day_of_year d < DAYS_IN_YEAR (year d).
Proof.
  intros (Hm & Hd & _). unfold day_of_year.
  apply day_of_year_bound; [ lia | ].
  replace (Z.of_nat (Z.to_nat (month d - 1)) + 1) with (month d) by lia.
  exact Hd.
Qed.

Lemma second_of_day_range t : valid_Time t -> 0 <= second_of_day t < 86400.
Proof. intros (Hh & Hm & Hs). unfold second_of_day. lia. Qed.

(** toInstant returns the seconds from the epoch in closed form. *)
Lemma toInstant_value (d : Date) (t : Time) :
  valid_Date d -> valid_Time t ->
  toInstant d t
  = Ok (mkInstant (86400 * (days_from_epoch (year d) + day_of_year d)
                   + second_of_day t) 0).
Proof.
  intros Hd Ht.
  pose proof (day_of_year_range d Hd) as Hdoy.
  pose proof (second_of_day_range t Ht) as Htod.
  pose proof (DAYS_IN_YEAR_bounds (year d)) as Hdiy.
  destruct Hd as (Hm & Hday & Hy). destruct Ht as (Hh & Hmin & Hs).
  unfold day_of_year, second_of_day in *.
  pose proof (days_of_months_nonneg (Z.to_nat (month d - 1)) 0 (year d)) as Hnn.
  pose proof (days_in_month_bounds (month d) (year d)) as Hdim.
  unfold toInstant, days_from_epoch.
  rewrite (toInstant_months_spec (Z.to_nat (month d - 1)));
    [ | lia | lia | lia | lia | lia | change (1 - 1) with 0; lia ].
  change (1 - 1) with 0. cbn [bind]. unfold SECS_IN_DAY.
  rewrite SECS_IN_YEAR_days.
  rewrite (wrap_s32_small ((day d - 1) * 86400)) by (unwrap; lia).
  rewrite (wrap_s32_small (hour t * 3600)) by (unwrap; lia).
  rewrite (wrap_s32_small (min t * 60)) by (unwrap; lia).
  rewrite (wrap_s32_small (0 + _ + _)) by (unwrap; lia).
  rewrite (wrap_s32_small (0 + _ + _ + _)) by (unwrap; lia).
  rewrite (wrap_s32_small (0 + _ + _ + _ + _)) by (unwrap; lia).
  rewrite (wrap_s32_small (0 + _ + _ + _ + _ + _)) by (unwrap; lia).
  rewrite (wrap_s32_small (86400 * _ - _)) by (unwrap; lia).
  destruct (Z.ltb_spec (year d) 1900) as [Hb | Ha].
  - pose proof (days_of_years_bounds (Z.to_nat (1899 - year d)) (year d + 1)) as Hyb.
    rewrite (toInstant_before_spec (Z.to_nat (1899 - year d)));
      [ | lia | lia | unwrap; lia | assumption | lia | unwrap; lia ].
    cbn [bind].
    rewrite (wrap_s32_small (- _)) by (unwrap; lia).
    replace (Z.to_nat (1900 - year d)) with (S (Z.to_nat (1899 - year d))) by lia.
    cbn [days_of_years].
    rewrite wrap_s64_small by (unwrap; lia).
    f_equal. f_equal. lia.
  - pose proof (days_of_years_bounds (Z.to_nat (year d - 1900)) 1900) as Hyb.
    rewrite (toInstant_after_spec (Z.to_nat (year d - 1900)));
      [ | lia | lia | unwrap; lia | assumption | lia | unwrap; lia ].
    cbn [bind].
    rewrite wrap_s64_small by (unwrap; lia).
    f_equal. f_equal. lia.
Qed.

Lemma toDate_value (d : Date) (tod : Z) :
  valid_Date d -> 0 <= tod < 86400 ->
  toDate (86400 * (days_from_epoch (year d) + day_of_year d) + tod) = Ok d.
Proof.
  intros Hd Htod.
  pose proof (day_of_year_range d Hd) as Hdoy.
  pose proof (DAYS_IN_YEAR_bounds (year d)) as Hdiy.
  destruct Hd as (Hm & Hday & Hy).
  pose proof (days_in_month_bounds (month d) (year d)) as Hdim.
  set (r := 86400 * day_of_year d + tod).
  assert (Hr : 0 <= r < 86400 * DAYS_IN_YEAR (year d)) by (unfold r; lia).
  assert (Hdays : Z.quot r 86400 = day_of_year d) by (unfold r; zlia).
  assert (Hmonths : toDate_months 12 0 (day_of_year d) (year d)
                    = Ok (month d - 1, day d - 1)).
  { unfold day_of_year.
    rewrite (toDate_months_spec (Z.to_nat (month d - 1)));
      [ eq_ok | lia | lia | lia | ].
    replace (0 + Z.of_nat (Z.to_nat (month d - 1)) + 1) with (month d) by lia.
    lia. }
  unfold toDate, days_from_epoch, toDate_fuel.
  destruct (Z.ltb_spec (year d) 1900) as [Hb | Ha].
  - set (k := Z.to_nat (1899 - year d)).
    replace (Z.to_nat (1900 - year d)) with (S k) by (unfold k; lia).
    pose proof (days_of_years_bounds k (year d + 1)) as Hyb.
    assert (Hs : days_of_years (S k) (year d)
                 = DAYS_IN_YEAR (year d) + days_of_years k (year d + 1)) by reflexivity.
    replace (86400 * (- days_of_years (S k) (year d) + day_of_year d) + tod)
      with (- (86400 * days_of_years (S k) (year d)) + r) by (unfold r; lia).
    destruct (Z.ltb_spec (- (86400 * days_of_years (S k) (year d)) + r) 0); [ | lia ].
    replace 1899 with (year d + Z.of_nat k) by (unfold k; lia).
    rewrite (toDate_before_spec (year d) k);
      [ | | assumption | unwrap; unfold k in *; lia | assumption | unfold k in *; unwrap; lia ].
    + cbn [bind]. rewrite SECS_IN_YEAR_days.
      replace (86400 * DAYS_IN_YEAR (year d) + (- (86400 * DAYS_IN_YEAR (year d)) + r))
        with r by lia.
      rewrite (wrap_u32_small r) by (unwrap; lia).
      unfold SECS_IN_DAY. rewrite Hdays.
      rewrite (wrap_u32_small (day_of_year d)) by (unwrap; lia).
      rewrite Hmonths. cbn [bind].
      rewrite (wrap_u32_small (day d - 1 + 1)) by (unwrap; lia).
      rewrite (wrap_s32_small (day d - 1 + 1)) by (unwrap; lia).
      destruct d as [dm dd dy]. cbn [month day year]. f_equal. f_equal; lia.
    + apply Nat.lt_succ_r. apply Nat2Z.inj_le.
      rewrite Z2Nat.id by (apply Z.div_pos; lia).
      apply Z.div_le_lower_bound; [ lia | ].
      unfold k in *. lia.
  - set (k := Z.to_nat (year d - 1900)).
    pose proof (days_of_years_bounds k 1900) as Hyb.
    replace (86400 * (days_of_years k 1900 + day_of_year d) + tod)
      with (86400 * days_of_years k 1900 + r) by (unfold r; lia).
    destruct (Z.ltb_spec (86400 * days_of_years k 1900 + r) 0); [ lia | ].
    replace (year d) with (1900 + Z.of_nat k) in Hr by (unfold k; lia).
    rewrite (toDate_after_spec k);
      [ | | unwrap; lia | unwrap; unfold k in *; lia | assumption | unfold k in *; unwrap; lia ].
    + cbn [bind].
      replace (1900 + Z.of_nat k) with (year d) by (unfold k; lia).
      rewrite (wrap_u32_small r) by (unwrap; lia).
      unfold SECS_IN_DAY. rewrite Hdays.
      rewrite (wrap_u32_small (day_of_year d)) by (unwrap; lia).
      rewrite Hmonths. cbn [bind].
      rewrite (wrap_u32_small (day d - 1 + 1)) by (unwrap; lia).
      rewrite (wrap_s32_small (day d - 1 + 1)) by (unwrap; lia).
      destruct d as [dm dd dy]. cbn [month day year]. f_equal. f_equal; lia.
    + apply Nat.lt_succ_r. apply Nat2Z.inj_le.
      rewrite Z2Nat.id by (apply Z.div_pos; lia).
      apply Z.div_le_lower_bound; [ lia | ].
      unfold k in *. lia.
Qed.

Lemma toTime_value (days : Z) (t : Time) :
  valid_Time t ->
  toTime (86400 * days + second_of_day t) = mkTime (hour t) (min t) (sec t) 0.
Proof.
  intros (Hh & Hm & Hs). unfold toTime, second_of_day, SECS_IN_DAY.
  set (s := 86400 * days + (hour t * 3600 + min t * 60 + sec t)).
  assert (E : (if Z.rem s 86400 <? 0 then 86400 + Z.rem s 86400 else Z.rem s 86400)
              = hour t * 3600 + min t * 60 + sec t).
  { destruct (Z.ltb_spec (Z.rem s 86400) 0); unfold s in *; zlia. }
  rewrite E.
  assert (E1 : Z.rem (Z.quot (hour t * 3600 + min t * 60 + sec t) 3600) 24 = hour t) by zlia.
  assert (E2 : Z.rem (Z.quot (hour t * 3600 + min t * 60 + sec t) 60) 60 = min t) by zlia.
  assert (E3 : Z.rem (hour t * 3600 + min t * 60 + sec t) 60 = sec t) by zlia.
  rewrite E1, E2, E3.
  rewrite !wrap_s32_small by (unwrap; lia). reflexivity.
Qed.

(** C1: for every valid date and time, before or after the 1900 epoch,
    [toInstant] succeeds and [toDate] and [toTime] of its seconds give the
    date and the hour, minute and second back. *)
Theorem C1_calendar_roundtrip (d : Date) (t : Time) :
  valid_Date d -> valid_Time t ->
  exists i : Instant,
    toInstant d t = Ok i /\
    toDate (secs i) = Ok d /\
    toTime (secs i) = mkTime (hour t) (min t) (sec t) 0.
Proof.
  intros Hd Ht. eexists. split; [ apply (toInstant_value d t Hd Ht) | ].
  unfold secs. cbn [_sysTime]. split.
  - apply toDate_value; [ exact Hd | apply second_of_day_range; exact Ht ].
  - apply toTime_value. exact Ht.
Qed.

Lemma C1_calendar_roundtrip_witness :
  exists i : Instant,
    toInstant (mkDate 2 29 1896) (mkTime 23 59 59 0) = Ok i /\
    toDate (secs i) = Ok (mkDate 2 29 1896) /\
    toTime (secs i) = mkTime 23 59 59 0.
Proof.
  assert (Hd : valid_Date (mkDate 2 29 1896))
    by (vm_compute; intuition discriminate).
  assert (Ht : valid_Time (mkTime 23 59 59 0))
    by (vm_compute; intuition discriminate).
  exact (C1_calendar_roundtrip (mkDate 2 29 1896) (mkTime 23 59 59 0) Hd Ht).
Defined.

(** ** The examples of the sources *)

(** The table of NTPTime.h: era, offset, system time and date. *)
Example table_Jan_1_2024 :
  _sysTime (initialize 0 3913056000 0) = 3913056000 /\
  toDate 3913056000 = Ok (mkDate 1 1 2024) /\
  toTime 3913056000 = mkTime 0 0 0 0.
Proof. repeat split. Qed.

Example table_Feb_7_2036 :
  _sysTime (initialize 1 0 0) = 4294967296 /\
  toDate 4294967296 = Ok (mkDate 2 7 2036) /\
  toTime 4294967296 = mkTime 6 28 16 0.
Proof. repeat split. Qed.

Example table_Dec_31_1899 :
  _sysTime (initialize (-1) 4294967295 0) = -1 /\
  toDate (-1) = Ok (mkDate 12 31 1899) /\
  toTime (-1) = mkTime 23 59 59 0 /\
  toInstant (mkDate 12 31 1899) (mkTime 23 59 59 0) = Ok (mkInstant (-1) 0).
Proof. repeat split. Qed.

Example table_Nov_24_1763 :
  _sysTime (initialize (-1) 0 0) = -4294967296 /\
  toDate (-4294967296) = Ok (mkDate 11 24 1763) /\
  toTime (-4294967296) = mkTime 17 31 44 0.
Proof. repeat split. Qed.

Example table_Oct_18_1627 :
  toDate (-8589934592) = Ok (mkDate 10 18 1627) /\
  toTime (-8589934592) = mkTime 11 3 28 0.
Proof. repeat split. Qed.

(** Server replies equal to the local era offsets give a zero offset. *)
Example same_era_offset_zero :
  clockOffset (getNTPOffset (mkInstant 1000 0) (mkInstant 1000 500000000)
                 1 1000 0 1000 500000000)
  = Some (mkInstant 0 0).
Proof. vm_compute. reflexivity. Qed.

(** * Further properties of the code *)

Ltac repr_now :=
  unfold Instant_repr, Timer_repr; unwrap;
  cbn [_sysTime _fraction _millis _setPoint _limit _stoppage _pauseMillis _pauseLimit];
  lia.

(** ** Instant arithmetic is arithmetic modulo 2^96 on the ticks *)

Lemma ticks_inj_mod a b k :
  Instant_repr a -> Instant_repr b ->
  ticks a = ticks b + k * 79228162514264337593543950336 -> a = b.
Proof.
  intros [Ha1 Ha2] [Hb1 Hb2] H. destruct a as [sa fa], b as [sb fb].
  unfold ticks in H. cbn [_sysTime _fraction] in *. unwrap.
  assert (k = 0) by lia. subst k.
  assert (sa = sb) by lia. subst. f_equal. lia.
Qed.

Lemma wrap_s64_cong z : exists k, wrap_s64 z = z + k * 18446744073709551616.
Proof.
  exists (- ((z + 9223372036854775808) / 18446744073709551616)).
  unwrap. zlia.
Qed.

Lemma Instant_zero_repr : Instant_repr Instant_zero.
Proof. unfold Instant_zero. repr_now. Qed.

Lemma plus_assign_ticks a b :
  Instant_repr a -> Instant_repr b ->
  Instant_repr (plus_assign a b) /\
  exists k, ticks (plus_assign a b)
            = ticks a + ticks b + k * 79228162514264337593543950336.
Proof.
  intros Ha Hb.
  destruct (Z.le_gt_cases 4294967296 (_fraction a + _fraction b)) as [Hc | Hc].
  - rewrite (plus_assign_carry a b Ha Hb Hc).
    destruct (wrap_s64_cong (_sysTime a + _sysTime b + 1)) as [k Hk].
    split.
    + split; cbn [_sysTime _fraction]; [ apply wrap_s64_range | ].
      destruct Ha as [_ Ha], Hb as [_ Hb]. unwrap. lia.
    + exists k. unfold ticks. cbn [_sysTime _fraction]. rewrite Hk. lia.
  - rewrite (plus_assign_no_carry a b Ha Hb ltac:(lia)).
    destruct (wrap_s64_cong (_sysTime a + _sysTime b)) as [k Hk].
    split.
    + split; cbn [_sysTime _fraction]; [ apply wrap_s64_range | ].
      destruct Ha as [_ Ha], Hb as [_ Hb]. unwrap. lia.
    + exists k. unfold ticks. cbn [_sysTime _fraction]. rewrite Hk. lia.
Qed.

Lemma plus_assign_ticks_exact a b :
  Instant_repr a -> Instant_repr b ->
  in_s64 (_sysTime a + _sysTime b) -> in_s64 (_sysTime a + _sysTime b + 1) ->
  Instant_repr (plus_assign a b) /\ ticks (plus_assign a b) = ticks a + ticks b.
Proof.
  intros Ha Hb H0 H1.
  destruct (plus_assign_ticks a b Ha Hb) as [R _]. split; [ exact R | ].
  destruct (Z.le_gt_cases 4294967296 (_fraction a + _fraction b)) as [Hc | Hc].
  - rewrite (plus_assign_carry a b Ha Hb Hc). unfold ticks. cbn [_sysTime _fraction].
    rewrite wrap_s64_small by assumption. lia.
  - rewrite (plus_assign_no_carry a b Ha Hb ltac:(lia)). unfold ticks.
    cbn [_sysTime _fraction]. rewrite wrap_s64_small by assumption. lia.
Qed.

Lemma negate_ticks x :
  Instant_repr x ->
  exists k, ticks (negate x) = - ticks x + k * 79228162514264337593543950336.
Proof.
  intros [Hs Hf]. destruct (Z.eq_dec (_fraction x) 0) as [E | E].
  - rewrite (negate_zero_fraction x E).
    destruct (wrap_s64_cong (- _sysTime x)) as [k Hk].
    exists k. unfold ticks. cbn [_sysTime _fraction]. rewrite Hk, E. lia.
  - rewrite (negate_borrow x Hf E).
    destruct (wrap_s64_cong (- _sysTime x - 1)) as [k Hk].
    exists k. unfold ticks. cbn [_sysTime _fraction]. rewrite Hk. lia.
Qed.

Lemma plus_assign_zero_r a : Instant_repr a -> plus_assign a Instant_zero = a.
Proof.
  intros Ha. destruct (plus_assign_ticks a _ Ha Instant_zero_repr) as [R [k E]].
  apply (ticks_inj_mod _ _ k); [ exact R | exact Ha | ].
  rewrite E. unfold ticks at 2. unfold Instant_zero. cbn [_sysTime _fraction]. lia.
Qed.

Lemma minus_repr a b :
  Instant_repr a -> Instant_repr b -> Instant_repr (minus a b).
Proof.
  intros Ha Hb. unfold minus, minus_assign.
  apply plus_assign_ticks; [ exact Ha | apply negate_repr; exact Hb ].
Qed.

Lemma minus_ticks_exact a b :
  Instant_repr a -> Instant_repr b ->
  in_s64 (_sysTime a - _sysTime b - 1) -> in_s64 (_sysTime a - _sysTime b) ->
  ticks (minus a b) = ticks a - ticks b.
Proof.
  intros Ha Hb H1 H2.
  pose proof (negate_repr b Hb) as Rnb.
  destruct (negate_ticks b Hb) as [kb Eb].
  unfold minus, minus_assign.
  destruct (plus_assign_ticks a _ Ha Rnb) as [[R1 R2] [k1 E1]].
  rewrite E1, Eb. destruct Ha as [Ha1 Ha2], Hb as [Hb1 Hb2].
  unfold ticks in *. unwrap. lia.
Qed.

(** X1: addition of Instants is commutative and associative, and the zero
    Instant is neutral on both sides, for all representable Instants
    (also when the seconds wrap around). *)
Theorem X1_plus_comm_assoc (a b c : Instant) :
  Instant_repr a -> Instant_repr b -> Instant_repr c ->
  plus a b = plus b a /\
  plus (plus a b) c = plus a (plus b c) /\
  plus a Instant_zero = a /\ plus Instant_zero a = a.
Proof.
  intros Ha Hb Hc. unfold plus.
  destruct (plus_assign_ticks a b Ha Hb) as [Rab [k1 E1]].
  destruct (plus_assign_ticks b a Hb Ha) as [Rba [k2 E2]].
  destruct (plus_assign_ticks b c Hb Hc) as [Rbc [k3 E3]].
  destruct (plus_assign_ticks _ c Rab Hc) as [R1 [k4 E4]].
  destruct (plus_assign_ticks a _ Ha Rbc) as [R2 [k5 E5]].
  split; [ | split; [ | split ] ].
  - apply (ticks_inj_mod _ _ (k1 - k2)); [ assumption | assumption | lia ].
  - apply (ticks_inj_mod _ _ (k4 + k1 - k5 - k3)); [ assumption | assumption | lia ].
  - apply plus_assign_zero_r. exact Ha.
  - apply plus_assign_zero_l. exact Ha.
Qed.

Lemma X1_plus_comm_assoc_witness :
  plus (plus (mkInstant 1 4000000000) (mkInstant (-2) 3000000000)) (mkInstant 5 9)
  = plus (mkInstant 1 4000000000) (plus (mkInstant (-2) 3000000000) (mkInstant 5 9)).
Proof.
  assert (Ha : Instant_repr (mkInstant 1 4000000000)) by repr_now.
  assert (Hb : Instant_repr (mkInstant (-2) 3000000000)) by repr_now.
  assert (Hc : Instant_repr (mkInstant 5 9)) by repr_now.
  exact (proj1 (proj2 (X1_plus_comm_assoc _ _ _ Ha Hb Hc))).
Defined.

(** X2: subtraction undoes addition and addition undoes subtraction, and
    [a - b] is the negation of [b - a], for all representable
    Instants. *)
Theorem X2_minus_plus_cancel (a b : Instant) :
  Instant_repr a -> Instant_repr b ->
  plus (minus a b) b = a /\ minus (plus a b) b = a /\
  minus a b = negate (minus b a).
Proof.
  intros Ha Hb. unfold plus, minus, minus_assign.
  pose proof (negate_repr a Ha) as Rna. pose proof (negate_repr b Hb) as Rnb.
  destruct (negate_ticks a Ha) as [ka Ea]. destruct (negate_ticks b Hb) as [kb Eb].
  destruct (plus_assign_ticks a _ Ha Rnb) as [R1 [k1 E1]].
  destruct (plus_assign_ticks _ b R1 Hb) as [R2 [k2 E2]].
  destruct (plus_assign_ticks a b Ha Hb) as [R3 [k3 E3]].
  destruct (plus_assign_ticks _ _ R3 Rnb) as [R4 [k4 E4]].
  destruct (plus_assign_ticks b _ Hb Rna) as [R5 [k5 E5]].
  destruct (negate_ticks _ R5) as [k6 E6].
  pose proof (negate_repr _ R5) as R6.
  split; [ | split ].
  - apply (ticks_inj_mod _ _ (k2 + k1 + kb)); [ assumption | assumption | lia ].
  - apply (ticks_inj_mod _ _ (k4 + k3 + kb)); [ assumption | assumption | lia ].
  - apply (ticks_inj_mod _ _ (k1 + kb - k6 + k5 + ka)); [ assumption | assumption | lia ].
Qed.

Lemma X2_minus_plus_cancel_witness :
  plus (minus (mkInstant 3 5) (mkInstant 7 4294967295)) (mkInstant 7 4294967295)
  = mkInstant 3 5.
Proof.
  assert (Ha : Instant_repr (mkInstant 3 5)) by repr_now.
  assert (Hb : Instant_repr (mkInstant 7 4294967295)) by repr_now.
  exact (proj1 (X2_minus_plus_cancel _ _ Ha Hb)).
Defined.

(** ** Comparison *)

Ltac cmp_cases :=
  repeat match goal with
  | |- context [ ?x <? ?y ] => destruct (Z.ltb_spec x y)
  | |- context [ ?x >? ?y ] => destruct (Z.gtb_spec x y)
  end.

Lemma cmp_lt_iff a b :
  in_u32 (_fraction a) -> in_u32 (_fraction b) ->
  (cmp a b = -1 <-> ticks a < ticks b).
Proof.
  intros Ha Hb. unfold cmp, ticks, secs. unwrap. cmp_cases; lia.
Qed.

(** X3: [cmp] orders Instants as their values order them: it is -1, 0 or
    1 as the ticks of the first are below, equal to or above the ticks of
    the second; it is 0 for equal Instants only, and swapping the
    arguments changes its sign. *)
Theorem X3_cmp_numeric_order (a b : Instant) :
  in_u32 (_fraction a) -> in_u32 (_fraction b) ->
  (cmp a b = -1 <-> ticks a < ticks b) /\
  (cmp a b = 0 <-> a = b) /\
  (cmp a b = 1 <-> ticks a > ticks b) /\
  cmp b a = - cmp a b.
Proof.
  intros Ha Hb. destruct a as [sa fa], b as [sb fb].
  unfold cmp, ticks, secs. cbn [_sysTime _fraction] in *. unwrap.
  assert (Heq : mkInstant sa fa = mkInstant sb fb <-> sa = sb /\ fa = fb).
  { split; [ intros E; injection E; auto | intros [-> ->]; reflexivity ]. }
  rewrite Heq.
  split; [ | split; [ | split ] ]; cmp_cases; lia.
Qed.

Lemma X3_cmp_numeric_order_witness :
  cmp (mkInstant (-1) 4294967295) (mkInstant 0 0) = -1 <->
  ticks (mkInstant (-1) 4294967295) < ticks (mkInstant 0 0).
Proof.
  assert (Ha : in_u32 (_fraction (mkInstant (-1) 4294967295)))
    by (unwrap; cbn [_fraction]; lia).
  assert (Hb : in_u32 (_fraction (mkInstant 0 0))) by (unwrap; cbn [_fraction]; lia).
  exact (proj1 (X3_cmp_numeric_order _ _ Ha Hb)).
Defined.

(** X4: when the difference of the seconds fits 64 bits, [a - b] has
    exactly the ticks of [a] less the ticks of [b], and [a] compares
    below [b] exactly when [a - b] has negative seconds. *)
Theorem X4_cmp_minus (a b : Instant) :
  Instant_repr a -> Instant_repr b ->
  in_s64 (_sysTime a - _sysTime b - 1) -> in_s64 (_sysTime a - _sysTime b) ->
  ticks (minus a b) = ticks a - ticks b /\
  (cmp a b = -1 <-> secs (minus a b) < 0).
Proof.
  intros Ha Hb H1 H2.
  pose proof (minus_ticks_exact a b Ha Hb H1 H2) as Et.
  destruct (minus_repr a b Ha Hb) as [_ Rf].
  split; [ exact Et | ].
  rewrite (cmp_lt_iff a b (proj2 Ha) (proj2 Hb)).
  unfold secs. unfold ticks at 1 in Et. unwrap. lia.
Qed.

Lemma X4_cmp_minus_witness :
  ticks (minus (mkInstant 3 5) (mkInstant 7 4294967295))
  = ticks (mkInstant 3 5) - ticks (mkInstant 7 4294967295).
Proof.
  assert (Ha : Instant_repr (mkInstant 3 5)) by repr_now.
  assert (Hb : Instant_repr (mkInstant 7 4294967295)) by repr_now.
  assert (H1 : in_s64 (_sysTime (mkInstant 3 5) - _sysTime (mkInstant 7 4294967295) - 1))
    by (unwrap; cbn [_sysTime]; lia).
  assert (H2 : in_s64 (_sysTime (mkInstant 3 5) - _sysTime (mkInstant 7 4294967295)))
    by (unwrap; cbn [_sysTime]; lia).
  exact (proj1 (X4_cmp_minus _ _ Ha Hb H1 H2)).
Defined.

(** ** addMillis *)

Lemma addMillis_ticks (x : Instant) (millis : Z) :
  Instant_repr x -> in_u32 millis ->
  in_s64 (_sysTime x + millis / 1000 + 1) ->
  Instant_repr (addMillis x millis) /\
  ticks (addMillis x millis) = ticks x + millis * 4294967296 / 1000.
Proof.
  intros [Hs Hf] Hm Hov. unfold addMillis, POW2_32.
  assert (Er : wrap_u32 (Z.rem millis 1000) = millis mod 1000) by (unwrap; zlia).
  assert (Eq : wrap_u32 (Z.quot millis 1000) = millis / 1000) by (unwrap; zlia).
  rewrite Er, Eq.
  assert (Hr : 0 <= millis mod 1000 < 1000) by zlia.
  assert (Hq : 0 <= millis / 1000 < 4294968) by (unwrap; zlia).
  rewrite (wrap_s64_small (millis mod 1000 * 4294967296)) by (unwrap; lia).
  set (fr := Z.quot (millis mod 1000 * 4294967296) 1000).
  assert (Hfr : 0 <= fr < 4294967296) by (unfold fr; zlia).
  assert (Efl : millis * 4294967296 / 1000 = millis / 1000 * 4294967296 + fr)
    by (unfold fr; zlia).
  rewrite (wrap_u64_small fr) by (unwrap; lia).
  rewrite (wrap_u64_small (fr + _fraction x)) by (unwrap; lia).
  rewrite (wrap_s64_small (_sysTime x + millis / 1000)) by (unwrap; lia).
  destruct (Z.geb_spec (fr + _fraction x) 4294967296).
  - rewrite (wrap_s64_small (_sysTime x + millis / 1000 + 1)) by assumption.
    rewrite (wrap_u64_small (fr + _fraction x - 4294967296)) by (unwrap; lia).
    rewrite wrap_u32_small by (unwrap; lia).
    unfold Instant_repr, ticks. cbn [_sysTime _fraction]. unwrap. lia.
  - rewrite wrap_u32_small by (unwrap; lia).
    unfold Instant_repr, ticks. cbn [_sysTime _fraction]. unwrap. lia.
Qed.

(** X5: [addMillis] advances an Instant by [millis / 1000] seconds
    truncated to a whole tick: by [floor(millis * 2^32 / 1000)] ticks,
    never ahead and less than one tick behind; a whole number of seconds
    is added exactly and leaves the fraction alone. *)
Theorem X5_addMillis_truncates (x : Instant) (millis : Z) :
  Instant_repr x -> in_u32 millis ->
  in_s64 (_sysTime x + millis / 1000 + 1) ->
  Instant_repr (addMillis x millis) /\
  ticks (addMillis x millis) = ticks x + millis * 4294967296 / 1000 /\
  0 <= millis * 4294967296 - 1000 * (ticks (addMillis x millis) - ticks x) < 1000 /\
  (millis mod 1000 = 0 ->
   addMillis x millis = mkInstant (_sysTime x + millis / 1000) (_fraction x)).
Proof.
  intros Hx Hm Hov.
  destruct (addMillis_ticks x millis Hx Hm Hov) as [Hr Ht].
  split; [ exact Hr | split; [ exact Ht | split; [ rewrite Ht; zlia | ] ] ].
  intros H0.
  apply (ticks_inj_mod _ _ 0); [ exact Hr | | ].
  - destruct Hx as [Hs Hf]. split; cbn [_sysTime _fraction]; [ | exact Hf ].
    unwrap. zlia.
  - rewrite Ht. unfold ticks. cbn [_sysTime _fraction]. zlia.
Qed.

Lemma X5_addMillis_truncates_witness :
  ticks (addMillis (mkInstant 10 4294967000) 1500)
  = ticks (mkInstant 10 4294967000) + 1500 * 4294967296 / 1000.
Proof.
  assert (Hx : Instant_repr (mkInstant 10 4294967000)) by repr_now.
  assert (Hm : in_u32 1500) by (unwrap; lia).
  assert (Hov : in_s64 (_sysTime (mkInstant 10 4294967000) + 1500 / 1000 + 1))
    by (vm_compute; intuition discriminate).
  exact (proj1 (proj2 (X5_addMillis_truncates _ _ Hx Hm Hov))).
Defined.

(** X6: adding milliseconds in two steps is never ahead of adding their
    sum in one step, and at most one tick behind it. *)
Theorem X6_addMillis_compose (x : Instant) (m1 m2 : Z) :
  Instant_repr x -> in_u32 m1 -> in_u32 m2 -> in_u32 (m1 + m2) ->
  in_s64 (_sysTime x + m1 / 1000 + m2 / 1000 + 2) ->
  ticks (addMillis (addMillis x m1) m2) <= ticks (addMillis x (m1 + m2))
    <= ticks (addMillis (addMillis x m1) m2) + 1.
Proof.
  intros Hx H1 H2 H12 Hov.
  assert (Hs := proj1 Hx).
  destruct (addMillis_ticks x m1 Hx H1) as [R1 T1]; [ unwrap; zlia | ].
  destruct (addMillis_ticks x (m1 + m2) Hx H12) as [R12 T12]; [ unwrap; zlia | ].
  assert (Hs1 : _sysTime x + m1 / 1000 <= _sysTime (addMillis x m1)
                <= _sysTime x + m1 / 1000 + 1).
  { destruct R1 as [_ Rf]. destruct Hx as [_ Hf].
    unfold ticks in T1. unwrap. zlia. }
  destruct (addMillis_ticks (addMillis x m1) m2 R1 H2) as [R2 T2]; [ unwrap; zlia | ].
  rewrite T2, T12, T1. zlia.
Qed.

Lemma X6_addMillis_compose_witness :
  ticks (addMillis (addMillis (mkInstant 0 0) 1) 1) <= ticks (addMillis (mkInstant 0 0) (1 + 1))
    <= ticks (addMillis (addMillis (mkInstant 0 0) 1) 1) + 1.
Proof.
  assert (Hx : Instant_repr (mkInstant 0 0)) by repr_now.
  assert (H1 : in_u32 1) by (unwrap; lia).
  assert (H12 : in_u32 (1 + 1)) by (unwrap; lia).
  assert (Hov : in_s64 (_sysTime (mkInstant 0 0) + 1 / 1000 + 1 / 1000 + 2))
    by (vm_compute; intuition discriminate).
  exact (X6_addMillis_compose _ _ _ Hx H1 H1 H12 Hov).
Defined.

(** ** abs and elapsedTime *)

Lemma negate_involutive x : Instant_repr x -> negate (negate x) = x.
Proof.
  intros Hx. pose proof (negate_repr x Hx) as Rn.
  destruct (negate_ticks x Hx) as [k1 E1].
  destruct (negate_ticks _ Rn) as [k2 E2].
  apply (ticks_inj_mod _ _ (k2 - k1)); [ apply negate_repr; exact Rn | exact Hx | lia ].
Qed.

Lemma abs_negate x : Instant_repr x -> abs (negate x) = abs x.
Proof.
  intros Hx. pose proof (negate_involutive x Hx) as Hinv.
  destruct Hx as [Hs Hf]. unfold abs, secs. rewrite Hinv.
  assert (Hn : (_sysTime (negate x) < 0 <-> 0 <= _sysTime x) \/ negate x = x).
  { destruct (Z.eq_dec (_fraction x) 0) as [E | E].
    - rewrite (negate_zero_fraction x E). cbn [_sysTime].
      destruct (Z.eq_dec (_sysTime x) 0) as [E0 | E0];
        [ right | destruct (Z.eq_dec (_sysTime x) (-9223372036854775808)) as [Em | Em];
                  [ right | left; unwrap; zlia ] ];
        destruct x as [s f]; cbn [_sysTime _fraction] in *; subst; reflexivity.
    - rewrite (negate_borrow x Hf E). cbn [_sysTime]. left. unwrap. zlia. }
  destruct Hn as [Hn | Hn].
  - destruct (Z.ltb_spec (_sysTime (negate x)) 0), (Z.ltb_spec (_sysTime x) 0);
      try reflexivity; lia.
  - rewrite Hn. destruct (Z.ltb_spec (_sysTime x) 0); reflexivity.
Qed.

Lemma abs_ticks (x : Instant) :
  Instant_repr x -> x <> mkInstant (-9223372036854775808) 0 ->
  Instant_repr (abs x) /\ ticks (abs x) = Z.abs (ticks x) /\ 0 <= secs (abs x).
Proof.
  intros Hx Hne. assert (Hx' := Hx). destruct Hx' as [Hs Hf]. unfold abs, secs.
  destruct (Z.ltb_spec (_sysTime x) 0) as [Hn | Hp].
  - split; [ apply negate_repr; exact Hx | ].
    destruct (Z.eq_dec (_fraction x) 0) as [E | E].
    + rewrite (negate_zero_fraction x E). unfold ticks. cbn [_sysTime _fraction].
      assert (_sysTime x <> -9223372036854775808).
      { intros C. apply Hne. destruct x as [s f]. cbn [_sysTime _fraction] in *.
        subst. reflexivity. }
      rewrite wrap_s64_small by (unwrap; lia). unwrap. lia.
    + rewrite (negate_borrow x Hf E). unfold ticks. cbn [_sysTime _fraction].
      rewrite wrap_s64_small by (unwrap; lia). unwrap. lia.
  - split; [ exact Hx | ]. unfold ticks. unwrap. lia.
Qed.

(** X7: [abs] of an Instant and of its negation agree; apart from the
    Instant of the least seconds value with fraction 0 (whose negation is
    itself), [abs] has the absolute value of the ticks and seconds that
    are not negative. *)
Theorem X7_abs_value (x : Instant) :
  Instant_repr x ->
  abs (negate x) = abs x /\
  (x <> mkInstant (-9223372036854775808) 0 ->
   Instant_repr (abs x) /\ ticks (abs x) = Z.abs (ticks x) /\ 0 <= secs (abs x)) /\
  abs (mkInstant (-9223372036854775808) 0) = mkInstant (-9223372036854775808) 0.
Proof.
  intros Hx. split; [ apply abs_negate; exact Hx | split ].
  - intros Hne. apply abs_ticks; assumption.
  - reflexivity.
Qed.

Lemma X7_abs_value_witness :
  abs (negate (mkInstant (-3) 1)) = abs (mkInstant (-3) 1).
Proof.
  assert (Hx : Instant_repr (mkInstant (-3) 1)) by repr_now.
  exact (proj1 (X7_abs_value _ Hx)).
Defined.

(** X8: [elapsedTime] is symmetric in its two Instants, and when the
    difference of the seconds fits 64 bits it is the whole seconds of the
    absolute difference of the two values. *)
Theorem X8_elapsedTime_symmetric (a b : Instant) :
  Instant_repr a -> Instant_repr b ->
  elapsedTime a b = elapsedTime b a /\
  (in_s64 (_sysTime a - _sysTime b - 1) -> in_s64 (_sysTime a - _sysTime b + 1) ->
   elapsedTime a b = Z.abs (ticks a - ticks b) / 4294967296).
Proof.
  intros Ha Hb.
  pose proof (negate_repr a Ha) as Rna. pose proof (negate_repr b Hb) as Rnb.
  destruct (plus_assign_ticks b _ Hb Rna) as [Rba [k E]].
  assert (Hm : minus a b = negate (minus b a)).
  { unfold minus, minus_assign.
    destruct (negate_ticks a Ha) as [ka Ea]. destruct (negate_ticks b Hb) as [kb Eb].
    destruct (plus_assign_ticks a _ Ha Rnb) as [R1 [k1 E1]].
    destruct (negate_ticks _ Rba) as [k6 E6].
    apply (ticks_inj_mod _ _ (k1 + kb - k6 + k + ka));
      [ assumption | apply negate_repr; assumption | lia ]. }
  split.
  - unfold elapsedTime. rewrite Hm. rewrite abs_negate; [ reflexivity | exact Rba ].
  - intros H1 H2. unfold elapsedTime.
    assert (Et : ticks (minus a b) = ticks a - ticks b)
      by (apply minus_ticks_exact; [ assumption | assumption | assumption | unwrap; lia ]).
    pose proof (minus_repr a b Ha Hb) as Rab.
    assert (Hne : minus a b <> mkInstant (-9223372036854775808) 0).
    { intros C. rewrite C in Et. unfold ticks in Et. cbn [_sysTime _fraction] in Et.
      destruct Ha as [Ha1 Ha2], Hb as [Hb1 Hb2]. unwrap. lia. }
    destruct (abs_ticks _ Rab Hne) as ([Rs Rf] & Ta & Hnn).
    rewrite Et in Ta. rewrite <- Ta. unfold secs in *. unfold ticks.
    rewrite wrap_u64_small by (unwrap; lia). unwrap. zlia.
Qed.

Lemma X8_elapsedTime_symmetric_witness :
  elapsedTime (mkInstant 3 5) (mkInstant 7 4294967295)
  = elapsedTime (mkInstant 7 4294967295) (mkInstant 3 5).
Proof.
  assert (Ha : Instant_repr (mkInstant 3 5)) by repr_now.
  assert (Hb : Instant_repr (mkInstant 7 4294967295)) by repr_now.
  exact (proj1 (X8_elapsedTime_symmetric _ _ Ha Hb)).
Defined.

(** ** toTime and toDate on every seconds value *)

Lemma toTime_of_mod (s : Z) :
  toTime s = mkTime (s mod 86400 / 3600) (s mod 86400 / 60 mod 60)
                    (s mod 86400 mod 60) 0.
Proof.
  unfold toTime, SECS_IN_DAY.
  set (m := if Z.rem s 86400 <? 0 then 86400 + Z.rem s 86400 else Z.rem s 86400).
  assert (Hm : m = s mod 86400).
  { unfold m. destruct (Z.ltb_spec (Z.rem s 86400) 0); zlia. }
  assert (Hr : 0 <= m < 86400) by (rewrite Hm; zlia).
  assert (E1 : Z.rem (Z.quot m 3600) 24 = m / 3600) by zlia.
  assert (E2 : Z.rem (Z.quot m 60) 60 = (m / 60) mod 60) by zlia.
  assert (E3 : Z.rem m 60 = m mod 60) by zlia.
  rewrite E1, E2, E3.
  rewrite !wrap_s32_small by (unwrap; zlia).
  rewrite Hm. reflexivity.
Qed.

Lemma toTime_second_of_day (s : Z) :
  valid_Time (toTime s) /\ second_of_day (toTime s) = s mod 86400.
Proof.
  rewrite toTime_of_mod. unfold valid_Time, second_of_day. cbn [hour min sec].
  split; zlia.
Qed.

(** X9: for every seconds value, negative ones too, [toTime] gives a
    valid time of day whose second of the day is the seconds modulo
    86400, with fraction 0; seconds a whole number of days apart give
    the same time. *)
Theorem X9_toTime_valid :
  forall s : Z,
    valid_Time (toTime s) /\
    second_of_day (toTime s) = s mod 86400 /\
    fraction (toTime s) = 0 /\
    forall k : Z, toTime (s + 86400 * k) = toTime s.
Proof.
  intros s. destruct (toTime_second_of_day s) as [V S].
  split; [ exact V | split; [ exact S | split; [ reflexivity | ] ] ].
  intros k. rewrite !toTime_of_mod.
  replace ((s + 86400 * k) mod 86400) with (s mod 86400) by zlia. reflexivity.
Qed.

Lemma years_after_decompose (fuel : nat) :
  forall (s y : Z),
  0 <= s < 31536000 * Z.of_nat fuel ->
  exists (k : nat) (r : Z),
    (k < fuel)%nat /\ s = 86400 * days_of_years k y + r /\
    0 <= r < 86400 * DAYS_IN_YEAR (y + Z.of_nat k).
Proof.
  induction fuel as [ | fuel IH]; intros s y Hs; [ lia | ].
  pose proof (DAYS_IN_YEAR_bounds y) as Hy.
  destruct (Z.lt_ge_cases s (86400 * DAYS_IN_YEAR y)) as [Hlt | Hge].
  - exists O, s. cbn [days_of_years Z.of_nat]. rewrite Z.add_0_r. lia.
  - destruct (IH (s - 86400 * DAYS_IN_YEAR y) (y + 1)) as (k & r & Hk & E & Hr); [ lia | ].
    exists (S k), r. cbn [days_of_years].
    replace (y + Z.of_nat (S k)) with (y + 1 + Z.of_nat k) by lia. lia.
Qed.

Lemma years_before_decompose (fuel : nat) :
  forall (s y : Z),
  - (31536000 * Z.of_nat fuel) <= s < 0 ->
  exists (k : nat) (r : Z),
    (k < fuel)%nat /\
    s = - (86400 * days_of_years (S k) (y - Z.of_nat k)) + r /\
    0 <= r < 86400 * DAYS_IN_YEAR (y - Z.of_nat k).
Proof.
  induction fuel as [ | fuel IH]; intros s y Hs; [ lia | ].
  pose proof (DAYS_IN_YEAR_bounds y) as Hy.
  destruct (Z.lt_ge_cases s (- (86400 * DAYS_IN_YEAR y))) as [Hlt | Hge].
  - destruct (IH (s + 86400 * DAYS_IN_YEAR y) (y - 1)) as (k & r & Hk & E & Hr); [ lia | ].
    exists (S k), r.
    replace (y - Z.of_nat (S k)) with (y - 1 - Z.of_nat k) by lia.
    rewrite (days_of_years_snoc (S k)).
    replace (y - 1 - Z.of_nat k + Z.of_nat (S k)) with y by lia. lia.
  - exists O, (s + 86400 * DAYS_IN_YEAR y). cbn [days_of_years Z.of_nat].
    rewrite Z.sub_0_r. lia.
Qed.

Lemma months_decompose (fuel : nat) :
  forall (x m y : Z),
  0 <= x < days_of_months fuel m y ->
  exists (j : nat) (dd : Z),
    (j < fuel)%nat /\ x = days_of_months j m y + (dd - 1) /\
    1 <= dd <= days_in_month (m + Z.of_nat j + 1) y.
Proof.
  induction fuel as [ | fuel IH]; intros x m y Hx; cbn [days_of_months] in Hx; [ lia | ].
  destruct (Z.lt_ge_cases x (days_in_month (m + 1) y)) as [Hlt | Hge].
  - exists O, (x + 1). cbn [days_of_months Z.of_nat]. rewrite Z.add_0_r. lia.
  - destruct (IH (x - days_in_month (m + 1) y) (m + 1) y) as (j & dd & Hj & E & Hd); [ lia | ].
    exists (S j), dd. cbn [days_of_months].
    replace (m + Z.of_nat (S j) + 1) with (m + 1 + Z.of_nat j + 1) by lia. lia.
Qed.

(** X10: for every seconds value of magnitude up to 2^55 (about 1.1
    billion years either side of 1900), [toDate] returns a valid calendar
    date, and [toInstant] of that date and of [toTime] of the seconds
    gives the seconds back. *)
Theorem X10_seconds_roundtrip (s : Z) :
  - 36028797018963968 <= s <= 36028797018963968 ->
  exists d : Date,
    toDate s = Ok d /\ valid_Date d /\
    toInstant d (toTime s) = Ok (mkInstant s 0).
Proof.
  intros Hs.
  destruct (toTime_second_of_day s) as (Vt & St).
  assert (Hex : exists (Y r : Z), in_s32 Y /\
            s = 86400 * days_from_epoch Y + r /\ 0 <= r < 86400 * DAYS_IN_YEAR Y).
  { destruct (Z.lt_ge_cases s 0) as [Hn | Hp].
    - destruct (years_before_decompose (S (Z.to_nat (- s / 31536000))) s 1899)
        as (k & r & Hk & E & Hr); [ zlia | ].
      exists (1899 - Z.of_nat k), r.
      assert (Z.of_nat k <= - s / 31536000) by zlia.
      split; [ unwrap; zlia | split; [ | exact Hr ] ].
      unfold days_from_epoch.
      destruct (Z.ltb_spec (1899 - Z.of_nat k) 1900); [ | lia ].
      replace (Z.to_nat (1900 - (1899 - Z.of_nat k))) with (S k) by lia. lia.
    - destruct (years_after_decompose (S (Z.to_nat (s / 31536000))) s 1900)
        as (k & r & Hk & E & Hr); [ zlia | ].
      exists (1900 + Z.of_nat k), r.
      assert (Z.of_nat k <= s / 31536000) by zlia.
      split; [ unwrap; zlia | split; [ | exact Hr ] ].
      unfold days_from_epoch.
      destruct (Z.ltb_spec (1900 + Z.of_nat k) 1900); [ lia | ].
      replace (Z.to_nat (1900 + Z.of_nat k - 1900)) with k by lia. lia. }
  destruct Hex as (Y & r & HY & Es & Hr).
  destruct (months_decompose 12 (r / 86400) 0 Y) as (j & dd & Hj & Ej & Hdd).
  { rewrite days_of_months_year. zlia. }
  set (d := mkDate (Z.of_nat j + 1) dd Y).
  assert (Vd : valid_Date d).
  { unfold valid_Date, d. cbn [month day year].
    replace (0 + Z.of_nat j + 1) with (Z.of_nat j + 1) in Hdd by lia.
    split; [ lia | split; [ exact Hdd | exact HY ] ]. }
  assert (Edoy : day_of_year d = r / 86400).
  { unfold day_of_year, d. cbn [month day year].
    replace (Z.to_nat (Z.of_nat j + 1 - 1)) with j by lia. lia. }
  assert (Eval : s = 86400 * (days_from_epoch (year d) + day_of_year d)
                     + second_of_day (toTime s)).
  { rewrite Edoy, St. unfold d. cbn [year]. zlia. }
  exists d. split; [ | split; [ exact Vd | ] ].
  - rewrite Eval at 1. apply toDate_value; [ exact Vd | rewrite St; zlia ].
  - rewrite (toInstant_value d (toTime s) Vd Vt). rewrite <- Eval. reflexivity.
Qed.

Lemma X10_seconds_roundtrip_witness :
  exists d : Date,
    toDate (-4294967296) = Ok d /\ valid_Date d /\
    toInstant d (toTime (-4294967296)) = Ok (mkInstant (-4294967296) 0).
Proof.
  assert (H : - 36028797018963968 <= -4294967296 <= 36028797018963968) by lia.
  exact (X10_seconds_roundtrip (-4294967296) H).
Defined.

(** ** Timezone offsets, stored and applied *)

Lemma quarters_snapped_range f : -3 <= quarters_snapped f <= 3.
Proof.
  unfold quarters_snapped.
  destruct (Z.sgn_spec (Qnum f)) as [[_ E] | [[_ E] | [_ E]]]; rewrite E; lia.
Qed.

Lemma tz_sign_consistent (n : Z) (d : positive) :
  let w := tz_whole_hours (n # d) in
  let fn := Qnum ((n # d) - inject_Z w)%Q in
  (0 < w -> 0 <= fn) /\ (w < 0 -> fn <= 0).
Proof.
  cbv zeta. unfold tz_whole_hours, Qtrunc, Qminus, Qplus, Qopp, inject_Z.
  cbn [Qnum Qden].
  assert (Hd : 0 < Z.pos d) by lia.
  split; intros H; Z.to_euclidean_division_equations; nia.
Qed.

Lemma tzOffset_multiple_of_900 (hours : Q) :
  exists q, tzOffset hours = 900 * q /\ -59 <= q <= 59.
Proof.
  rewrite (tzOffset_snapped hours).
  assert (Hw : -14 <= tz_whole_hours hours <= 14) by (unfold tz_whole_hours; lia).
  pose proof (quarters_snapped_range (hours - inject_Z (tz_whole_hours hours))%Q) as Hq.
  exists (4 * tz_whole_hours hours
          + quarters_snapped (hours - inject_Z (tz_whole_hours hours))%Q).
  unfold tzOffset_spec. lia.
Qed.

(** X11: every timezone offset that [Instant::tzOffset] or
    [SystemClock::tzOffset(double)] computes is a whole number of quarter
    hours between -14:45 and +14:45, and it is stable: an offset read
    back in hours with [SystemClock::tzOffset()] and set again is the
    same offset. *)
Theorem X11_tzOffset_quarter_hours :
  forall hours : Q,
    SystemClock_set_tzOffset hours = tzOffset hours /\
    (exists q, tzOffset hours = 900 * q /\ -59 <= q <= 59) /\
    SystemClock_set_tzOffset (SystemClock_tzOffset (SystemClock_set_tzOffset hours))
    = SystemClock_set_tzOffset hours.
Proof.
  intros hours. split; [ reflexivity | split; [ apply tzOffset_multiple_of_900 | ] ].
  change SystemClock_set_tzOffset with tzOffset.
  rewrite (tzOffset_snapped hours).
  assert (Hw : -14 <= tz_whole_hours hours <= 14) by (unfold tz_whole_hours; lia).
  pose proof (quarters_snapped_range (hours - inject_Z (tz_whole_hours hours))%Q) as Hq.
  destruct hours as [n d].
  pose proof (tz_sign_consistent n d) as Hsc. cbv zeta in Hsc.
  rewrite (tzOffset_snapped _). unfold tzOffset_spec, SystemClock_tzOffset.
  cbv zeta.
  set (w := tz_whole_hours (n # d)) in *.
  set (f := ((n # d) - inject_Z w)%Q) in *.
  assert (Hqs : (0 < quarters_snapped f -> 0 < Qnum f) /\
                (quarters_snapped f < 0 -> Qnum f < 0)).
  { unfold quarters_snapped.
    destruct (Z.sgn_spec (Qnum f)) as [[L E] | [[L E] | [L E]]]; rewrite E; lia. }
  set (qs := quarters_snapped f) in *.
  assert (Ew : tz_whole_hours (inject_Z (3600 * w + 900 * qs) / (3600 # 1)) = w).
  { unfold tz_whole_hours, Qtrunc, Qdiv, Qmult, Qinv, inject_Z. cbn [Qnum Qden].
    change (Z.pos (1 * 3600)) with 3600.
    assert (Z.quot ((3600 * w + 900 * qs) * 1) 3600 = w) by zlia. lia. }
  rewrite Ew.
  assert (Eq : quarters_snapped
                 (inject_Z (3600 * w + 900 * qs) / (3600 # 1) - inject_Z w) = qs).
  { unfold quarters_snapped, Qfloor, Qabs, Qminus, Qplus, Qopp, Qdiv, Qmult, Qinv, inject_Z.
    cbn [Qnum Qden]. change (Z.pos (1 * 3600 * 1)) with 3600.
    change (Z.pos (1 * 3600)) with 3600.
    replace ((3600 * w + 900 * qs) * 1 * 1 + - w * 3600) with (900 * qs) by lia.
    destruct (Z.sgn_spec (900 * qs)) as [[L E] | [[L E] | [L E]]]; rewrite E; zlia. }
  rewrite Eq. reflexivity.
Qed.

(** X12: [toTimezone] (and [SystemClock::utcToLocal] with the offset set
    from the same hours) leaves the fraction alone and moves the seconds
    by [tzOffset(hours)]: the time of day moves by that many seconds
    modulo a day and the second of the minute stays. *)
Theorem X12_toTimezone_shift (x : Instant) (hours : Q) (c : SystemClock) :
  in_s64 (_sysTime x - 53100) -> in_s64 (_sysTime x + 53100) ->
  let y := toTimezone x hours in
  _fraction y = _fraction x /\
  secs y = secs x + tzOffset hours /\
  second_of_day (toTime (secs y))
    = (second_of_day (toTime (secs x)) + tzOffset hours) mod 86400 /\
  sec (toTime (secs y)) = sec (toTime (secs x)) /\
  (_tzOffset c = SystemClock_set_tzOffset hours -> utcToLocal c x = y).
Proof.
  intros H1 H2 y.
  destruct (tzOffset_multiple_of_900 hours) as [q [Eq Hq]].
  assert (Es : secs y = secs x + tzOffset hours).
  { unfold y, toTimezone, plus_int, secs. cbn [_sysTime].
    apply wrap_s64_small. unwrap. lia. }
  split; [ reflexivity | split; [ exact Es | ] ].
  destruct (toTime_second_of_day (secs y)) as (Vy & Sy).
  destruct (toTime_second_of_day (secs x)) as (Vx & Sx).
  split; [ rewrite Sy, Sx, Es; zlia | split ].
  - assert (Ey : sec (toTime (secs y)) = second_of_day (toTime (secs y)) mod 60)
      by (unfold second_of_day, valid_Time in *; zlia).
    assert (Ex : sec (toTime (secs x)) = second_of_day (toTime (secs x)) mod 60)
      by (unfold second_of_day, valid_Time in *; zlia).
    rewrite Ey, Ex, Sy, Sx, Es, Eq. zlia.
  - intros E. unfold utcToLocal, y, toTimezone. rewrite E. reflexivity.
Qed.

Lemma X12_toTimezone_shift_witness :
  secs (toTimezone (mkInstant 3913056000 7) (-5 # 1))
  = secs (mkInstant 3913056000 7) + tzOffset (-5 # 1).
Proof.
  assert (H1 : in_s64 (_sysTime (mkInstant 3913056000 7) - 53100))
    by (unwrap; cbn [_sysTime]; lia).
  assert (H2 : in_s64 (_sysTime (mkInstant 3913056000 7) + 53100))
    by (unwrap; cbn [_sysTime]; lia).
  exact (proj1 (proj2 (X12_toTimezone_shift (mkInstant 3913056000 7) (-5 # 1)
                         (mkSystemClock 0 0 0 60 false (mkTimer 0 0 0 0 0 0)) H1 H2))).
Defined.

(** ** Time and Date constructors *)

(** X13: the four-argument Time constructor (and [initializeTime], which
    has the same body) gives a valid time of day for every input, keeps
    the fraction, and leaves a valid time as it is. *)
Theorem X13_Time_hmsf_valid :
  forall h m s f : Z,
    valid_Time (Time_hmsf h m s f) /\
    fraction (Time_hmsf h m s f) = f /\
    (valid_Time (mkTime h m s f) -> Time_hmsf h m s f = mkTime h m s f).
Proof.
  intros h m s f. unfold Time_hmsf, valid_Time. cbn [hour min sec fraction].
  destruct (Z.ltb_spec h 24), (Z.geb_spec h 0), (Z.ltb_spec m 59), (Z.geb_spec m 0),
    (Z.ltb_spec s 59), (Z.geb_spec s 0);
    (split; [ lia | split; [ reflexivity | intros (Hh & Hm & Hs); f_equal; lia ] ]).
Qed.

(** X14: the Date constructor (and [initializeDate]) reads past the end
    of [daysPerMonth] exactly when the month is 12 or more and the day is
    positive; otherwise it returns a date with the month clamped to
    [1, 12], the year clamped at 0 and the day at least 1, a positive day
    being limited to the length of the month after the clamped one. *)
Theorem X14_Date_mdy_clamps :
  forall m d y : Z,
    (12 <= m -> 0 < d -> Date_mdy m d y = OutOfBounds) /\
    (m < 12 \/ d <= 0 ->
     exists r : Date,
       Date_mdy m d y = Ok r /\
       month r = Z.max 1 (Z.min 12 m) /\ year r = Z.max 0 y /\
       (d <= 0 -> day r = 1) /\
       (0 < d -> day r = Z.min d (days_in_month (month r + 1) (year r)))).
Proof.
  intros m d y. unfold Date_mdy.
  set (mm := if m <? 13 then if m >? 0 then m else 1 else 12).
  set (yy := if y >=? 0 then y else 0).
  assert (Hmm : mm = Z.max 1 (Z.min 12 m)).
  { unfold mm. destruct (Z.ltb_spec m 13), (Z.gtb_spec m 0); lia. }
  assert (Hyy : yy = Z.max 0 y) by (unfold yy; destruct (Z.geb_spec y 0); lia).
  split.
  - intros H12 Hd. destruct (Z.gtb_spec d 0); [ | lia ].
    replace mm with 12 by lia. reflexivity.
  - intros H. destruct (Z.gtb_spec d 0) as [Hd | Hd].
    + rewrite MONTH_DAYS_Ok by lia. cbn [bind].
      eexists. split; [ reflexivity | ]. cbn [month day year].
      destruct (Z.gtb_spec d (days_in_month (mm + 1) yy)); lia.
    + eexists. split; [ reflexivity | ]. cbn [month day year]. lia.
Qed.

(** ** Division by two *)

Lemma div_int_two_ticks (x : Instant) :
  Instant_repr x -> -1048576 <= _sysTime x < 1048576 ->
  (-1 <= Z.rem (ticks x) 8589934592 ->
   exists y, div_int x 2 = Some y /\ Instant_repr y /\
             ticks y = Z.quot (ticks x) 2) /\
  (Z.rem (ticks x) 8589934592 < -1 -> div_int x 2 = None).
Proof.
  intros [Hs Hf] Hr. unfold div_int. change (2 =? 0) with false. cbv iota zeta.
  unfold sysTimed, POW2_32.
  set (n := ticks x).
  assert (En : ((inject_Z (_sysTime x) + inject_Z (_fraction x) / inject_Z 4294967296)
                 / inject_Z 2)%Q = (n # 8589934592)%Q).
  { unfold n, ticks, Qdiv, Qplus, Qmult, Qinv, inject_Z. cbn [Qnum Qden].
    change (Z.pos (1 * 4294967296)) with 4294967296.
    change (1 * (1 * 4294967296) * 2)%positive with 8589934592%positive.
    f_equal. lia. }
  rewrite En.
  assert (Hn : -4503599627370496 <= n < 4503599627370496)
    by (unfold n, ticks; unwrap; lia).
  destruct (initialize_double_value n 8589934592) as (_ & _ & Ev); [ unwrap; zlia | ].
  cbv zeta in Ev. rewrite Ev. clear Ev.
  set (w := Z.quot n 8589934592).
  set (p := Z.quot (Z.rem n 8589934592 * 4294967296) 8589934592).
  assert (Hp : p = Z.quot (Z.rem n 8589934592) 2) by (unfold p; zlia).
  split.
  - intros Hd. destruct (Z.ltb_spec p 0); [ zlia | ].
    eexists. split; [ reflexivity | ].
    unfold Instant_repr, ticks; cbn [_sysTime _fraction]; unwrap;
      unfold w in *; zlia.
  - intros Hu. destruct (Z.ltb_spec p 0); [ reflexivity | zlia ].
Qed.

(** X15: dividing an Instant within 2^20 seconds of zero (where every
    double of the computation is exact) by 2. For every Instant that is
    not negative the result is half the value in units of 2^-32 s, the
    odd unit dropped, and adding it to itself gives an even value back.
    For a negative Instant the division has a result only when half the
    value is a whole number of seconds or 2^-33 s short of one;
    otherwise [initialize] converts a negative double to [uint32_t],
    which is undefined. *)
Theorem X15_div_int_two (x : Instant) :
  Instant_repr x -> -1048576 <= _sysTime x < 1048576 ->
  (0 <= ticks x -> -1 <= Z.rem (ticks x) 8589934592) /\
  (-1 <= Z.rem (ticks x) 8589934592 ->
   exists y, div_int x 2 = Some y /\ Instant_repr y /\
             ticks y = Z.quot (ticks x) 2 /\
             Z.abs (ticks x - 2 * ticks y) <= 1 /\
             (Z.even (ticks x) = true -> plus y y = x)) /\
  (Z.rem (ticks x) 8589934592 < -1 -> div_int x 2 = None).
Proof.
  intros Hx Hr. destruct (div_int_two_ticks x Hx Hr) as [Hdef Hundef].
  split; [ intros H; zlia | split; [ | exact Hundef ] ].
  intros Hd. destruct (Hdef Hd) as (y & Ey & R & E).
  exists y. split; [ exact Ey | split; [ exact R | split; [ exact E | ] ] ].
  split; [ rewrite E; zlia | ].
  intros Hev. unfold plus.
  assert (Bo : -1048577 <= _sysTime y <= 1048576).
  { destruct R as [_ Rf]. destruct Hx as [_ Rfx]. unfold ticks in E. unwrap. zlia. }
  destruct (plus_assign_ticks_exact _ _ R R) as [Rp Tp]; [ unwrap; lia | unwrap; lia | ].
  apply (ticks_inj_mod _ _ 0); [ exact Rp | exact Hx | ].
  rewrite Tp, E. apply Z.even_spec in Hev. destruct Hev as [h Hh]. rewrite Hh. zlia.
Qed.

Lemma X15_div_int_two_witness :
  div_int (mkInstant (-3) 5) 2 = None /\
  exists y, div_int (mkInstant 3 5) 2 = Some y /\
            ticks y = Z.quot (ticks (mkInstant 3 5)) 2.
Proof.
  assert (Hn : Instant_repr (mkInstant (-3) 5)) by repr_now.
  assert (Hnr : -1048576 <= _sysTime (mkInstant (-3) 5) < 1048576)
    by (cbn [_sysTime]; lia).
  assert (Hnu : Z.rem (ticks (mkInstant (-3) 5)) 8589934592 < -1)
    by (vm_compute; reflexivity).
  assert (Hp : Instant_repr (mkInstant 3 5)) by repr_now.
  assert (Hpr : -1048576 <= _sysTime (mkInstant 3 5) < 1048576)
    by (cbn [_sysTime]; lia).
  assert (Hpd : -1 <= Z.rem (ticks (mkInstant 3 5)) 8589934592)
    by (vm_compute; discriminate).
  split.
  - exact (proj2 (proj2 (X15_div_int_two _ Hn Hnr)) Hnu).
  - destruct (proj1 (proj2 (X15_div_int_two _ Hp Hpr)) Hpd) as (y & Ey & _ & Et & _).
    exists y. split; [ exact Ey | exact Et ].
Defined.

(** ** The exchange as a whole *)

Lemma Instant_of_era x :
  in_s64 (_sysTime x) -> initialize (era x) (eraOffset x) (_fraction x) = x.
Proof.
  intros H. destruct x as [s f]. unfold initialize.
  pose proof (era_floor (mkInstant s f) H) as Ee.
  pose proof (eraOffset_mod (mkInstant s f)) as Eo.
  cbn [_sysTime _fraction] in *. rewrite Ee, Eo. unfold POW2_32. f_equal.
  unwrap. zlia.
Qed.

Lemma era_step_recovers (local server : Instant) :
  in_s64 (_sysTime local) -> in_s64 (_sysTime server) ->
  in_s32 (era local - 1) -> in_s32 (era local + 1) ->
  - SECS_IN_68_YEARS <= _sysTime server - _sysTime local <= SECS_IN_68_YEARS ->
  let diff := wrap_s64 (eraOffset local - eraOffset server) in
  (if diff >? SECS_IN_68_YEARS
   then initialize (wrap_s32 (era local + 1)) (eraOffset server) (_fraction server)
   else if diff <? - SECS_IN_68_YEARS
   then initialize (wrap_s32 (era local - 1)) (eraOffset server) (_fraction server)
   else initialize (era local) (eraOffset server) (_fraction server)) = server.
Proof.
  intros Hl Hs Hm Hp Hd diff.
  pose proof (eraOffset_range local) as Rl. pose proof (eraOffset_range server) as Rs.
  assert (Ed : diff = eraOffset local - eraOffset server)
    by (apply wrap_s64_small; unwrap; lia).
  pose proof (Instant_of_era server Hs) as Eserver.
  pose proof (era_floor local Hl) as El. pose proof (era_floor server Hs) as Es.
  pose proof (eraOffset_mod local) as Ol. pose proof (eraOffset_mod server) as Os.
  unfold SECS_IN_68_YEARS in *. rewrite Ed.
  destruct (Z.gtb_spec (eraOffset local - eraOffset server) 2144448000).
  - rewrite (wrap_s32_small _ Hp). rewrite <- Eserver at 3. f_equal. zlia.
  - destruct (Z.ltb_spec (eraOffset local - eraOffset server) (Z.opp 2144448000)).
    + rewrite (wrap_s32_small _ Hm). rewrite <- Eserver at 3. f_equal. zlia.
    + rewrite <- Eserver at 3. f_equal. zlia.
Qed.

(** X16: when the server's receive and transmit Instants are each within
    68 years (2144448000 s) of the local T1 and T4, [getNTPOffset]
    recovers them exactly from the 32-bit seconds and the fraction that
    the packet carries, whatever the eras involved. *)
Theorem X16_era_resolution_recovers (T1 T4 S2 S3 : Instant) :
  in_s64 (_sysTime T1) -> in_s64 (_sysTime T4) ->
  in_s64 (_sysTime S2) -> in_s64 (_sysTime S3) ->
  in_s32 (era T1 - 1) -> in_s32 (era T1 + 1) ->
  in_s32 (era T4 - 1) -> in_s32 (era T4 + 1) ->
  Z.abs (_sysTime S2 - _sysTime T1) <= 2144448000 ->
  Z.abs (_sysTime S3 - _sysTime T4) <= 2144448000 ->
  let r := getNTPOffset T1 T4 1 (eraOffset S2) (_fraction S2)
             (eraOffset S3) (_fraction S3) in
  T2 r = S2 /\ T3 r = S3.
Proof.
  intros H1 H4 H2 H3 H1m H1p H4m H4p D2 D3 r.
  pose proof (era_step_recovers T1 S2 H1 H2 H1m H1p) as A.
  pose proof (era_step_recovers T4 S3 H4 H3 H4m H4p) as B.
  unfold SECS_IN_68_YEARS in A, B. cbv zeta in A, B.
  split; [ apply A; lia | apply B; lia ].
Qed.

Lemma X16_era_resolution_recovers_witness :
  T2 (getNTPOffset (mkInstant 4294967290 0) (mkInstant 4294967291 0) 1
        (eraOffset (mkInstant 4294967300 7)) (_fraction (mkInstant 4294967300 7))
        (eraOffset (mkInstant 4294967301 9)) (_fraction (mkInstant 4294967301 9)))
  = mkInstant 4294967300 7.
Proof.
  assert (H1 : in_s64 (_sysTime (mkInstant 4294967290 0))) by (unwrap; cbn [_sysTime]; lia).
  assert (H4 : in_s64 (_sysTime (mkInstant 4294967291 0))) by (unwrap; cbn [_sysTime]; lia).
  assert (H2 : in_s64 (_sysTime (mkInstant 4294967300 7))) by (unwrap; cbn [_sysTime]; lia).
  assert (H3 : in_s64 (_sysTime (mkInstant 4294967301 9))) by (unwrap; cbn [_sysTime]; lia).
  assert (H1m : in_s32 (era (mkInstant 4294967290 0) - 1)) by (vm_compute; intuition discriminate).
  assert (H1p : in_s32 (era (mkInstant 4294967290 0) + 1)) by (vm_compute; intuition discriminate).
  assert (H4m : in_s32 (era (mkInstant 4294967291 0) - 1)) by (vm_compute; intuition discriminate).
  assert (H4p : in_s32 (era (mkInstant 4294967291 0) + 1)) by (vm_compute; intuition discriminate).
  assert (D2 : Z.abs (_sysTime (mkInstant 4294967300 7) - _sysTime (mkInstant 4294967290 0))
               <= 2144448000) by (cbn [_sysTime]; lia).
  assert (D3 : Z.abs (_sysTime (mkInstant 4294967301 9) - _sysTime (mkInstant 4294967291 0))
               <= 2144448000) by (cbn [_sysTime]; lia).
  exact (proj1 (X16_era_resolution_recovers _ _ _ _ H1 H4 H2 H3 H1m H1p H4m H4p D2 D3)).
Defined.



(** ** The timestamp request *)

Lemma land_high_low (hi lo k : Z) :
  0 <= k -> 0 <= lo < 2 ^ k -> Z.land (Z.shiftl hi k) lo = 0.
Proof.
  intros Hk Hlo. apply Z.bits_inj'. intros n Hn.
  rewrite Z.land_spec, Z.bits_0.
  destruct (Z.lt_ge_cases n k) as [Hnk | Hnk].
  - rewrite Z.shiftl_spec_low by lia. reflexivity.
  - destruct (Z.eq_dec lo 0) as [-> | Hne].
    + rewrite Z.bits_0. apply andb_false_r.
    + rewrite (Z.bits_above_log2 lo n); [ apply andb_false_r | lia | ].
      apply Z.lt_le_trans with k; [ apply Z.log2_lt_pow2; lia | exact Hnk ].
Qed.

Lemma lor_high_low (hi lo k : Z) :
  0 <= k -> 0 <= lo < 2 ^ k -> Z.lor (hi * 2 ^ k) lo = hi * 2 ^ k + lo.
Proof.
  intros Hk Hlo. rewrite <- Z.shiftl_mul_pow2 by exact Hk.
  pose proof (land_high_low hi lo k Hk Hlo) as H0.
  rewrite (Z.add_nocarry_lxor _ _ H0). symmetry. apply Z.lxor_lor. exact H0.
Qed.

Lemma read_u32_big_endian (b0 b1 b2 b3 : Z) :
  is_byte b0 -> is_byte b1 -> is_byte b2 -> is_byte b3 ->
  Z.lor (Z.lor (Z.lor (wrap_u32 (Z.shiftl b0 24)) (wrap_u32 (Z.shiftl b1 16)))
               (wrap_u32 (Z.shiftl b2 8))) (wrap_u32 b3)
  = b0 * 16777216 + b1 * 65536 + b2 * 256 + b3.
Proof.
  unfold is_byte. intros H0 H1 H2 H3.
  rewrite !Z.shiftl_mul_pow2 by lia.
  change (2 ^ 24) with 16777216. change (2 ^ 16) with 65536. change (2 ^ 8) with 256.
  rewrite !wrap_u32_small by (unwrap; lia).
  replace (b0 * 16777216) with (b0 * 2 ^ 24) by lia.
  rewrite (lor_high_low b0 (b1 * 65536) 24) by lia.
  replace (b0 * 2 ^ 24 + b1 * 65536) with ((b0 * 256 + b1) * 2 ^ 16) by lia.
  rewrite (lor_high_low _ (b2 * 256) 16) by lia.
  replace ((b0 * 256 + b1) * 2 ^ 16 + b2 * 256)
    with (((b0 * 256 + b1) * 256 + b2) * 2 ^ 8) by lia.
  rewrite (lor_high_low _ b3 8) by lia. lia.
Qed.

Lemma wait_reply_some polls beginWait timeout buf :
  wait_reply polls beginWait timeout = Ok (Some buf) ->
  exists p, In p polls /\ buf = firstn 48 (poll_packet p) /\
            (48 <= length (poll_packet p))%nat /\
            wrap_u32 (poll_millis p - beginWait) < timeout.
Proof.
  induction polls as [ | p rest IH]; cbn [wait_reply]; [ discriminate | ].
  destruct (Z.ltb_spec (wrap_u32 (poll_millis p - beginWait)) timeout); [ | discriminate ].
  unfold NTP_PACKET_SIZE.
  destruct (Z.geb_spec (Z.of_nat (length (poll_packet p))) 48).
  - intros E. injection E as <-. exists p. split; [ left; reflexivity | ].
    split; [ reflexivity | split; [ lia | assumption ] ].
  - intros E. destruct (IH E) as (q & Hin & Hq). exists q. split; [ right; exact Hin | exact Hq ].
Qed.

Lemma wait_reply_returns polls beginWait timeout :
  Exists (fun p => timeout <= wrap_u32 (poll_millis p - beginWait) \/
                   (48 <= length (poll_packet p))%nat) polls ->
  exists o, wait_reply polls beginWait timeout = Ok o.
Proof.
  induction 1 as [p rest Hp | p rest _ IH]; cbn [wait_reply]; unfold NTP_PACKET_SIZE.
  - destruct (Z.ltb_spec (wrap_u32 (poll_millis p - beginWait)) timeout);
      [ | eexists; reflexivity ].
    destruct (Z.geb_spec (Z.of_nat (length (poll_packet p))) 48);
      [ eexists; reflexivity | lia ].
  - destruct (Z.ltb_spec (wrap_u32 (poll_millis p - beginWait)) timeout);
      [ | eexists; reflexivity ].
    destruct (Z.geb_spec (Z.of_nat (length (poll_packet p))) 48);
      [ eexists; reflexivity | exact IH ].
Qed.

(** X18: [getNTPTimestamp] returns as soon as the channel fails to open,
    the request fails to go out, a datagram of 48 bytes or more arrives
    or the time is up. Its status is 1, -1, -2 or -3; -1 exactly when
    [begin] fails, -2 exactly when [begin] succeeds and [endPacket]
    fails; and with any status other than 1 all four outputs are 0. *)
Theorem X18_getNTPTimestamp_failure_zero :
  forall (ch : UDPChannel) (timeout : Z),
    (udp_begin ch <> 1 \/ udp_endPacket ch <> 1 \/
     Exists (fun p => timeout <= wrap_u32 (poll_millis p - udp_beginWait ch) \/
                      (48 <= length (poll_packet p))%nat) (udp_polls ch) ->
     exists r, getNTPTimestamp ch timeout = Ok r) /\
    (forall r : NTPTimestamps,
       getNTPTimestamp ch timeout = Ok r ->
       (status r = 1 \/ status r = -1 \/ status r = -2 \/ status r = -3) /\
       (status r <> 1 ->
        rcvSecs r = 0 /\ rcvFraction r = 0 /\ tsmSecs r = 0 /\ tsmFraction r = 0) /\
       (status r = -1 <-> udp_begin ch <> 1) /\
       (status r = -2 <-> udp_begin ch = 1 /\ udp_endPacket ch <> 1)).
Proof.
  intros ch timeout. unfold getNTPTimestamp. split.
  - intros H.
    destruct (Z.eqb_spec (udp_begin ch) 1) as [Eb | Eb]; cbn [negb];
      [ | eexists; reflexivity ].
    destruct (Z.eqb_spec (udp_endPacket ch) 1) as [Ee | Ee]; cbn [negb];
      [ | eexists; reflexivity ].
    destruct H as [H | [H | H]]; [ contradiction | contradiction | ].
    destruct (wait_reply_returns _ _ _ H) as [o Eo]. rewrite Eo. cbn [bind].
    destruct o; eexists; reflexivity.
  - intros r.
    destruct (Z.eqb_spec (udp_begin ch) 1) as [Eb | Eb]; cbn [negb].
    + destruct (Z.eqb_spec (udp_endPacket ch) 1) as [Ee | Ee]; cbn [negb].
      * destruct (wait_reply (udp_polls ch) (udp_beginWait ch) timeout) as [[buf | ] | | ];
          cbn [bind]; intros E; try discriminate; injection E as <-;
          cbn [status rcvSecs rcvFraction tsmSecs tsmFraction].
        -- rewrite Ee. split; [ lia | split; [ lia | split; split; lia ] ].
        -- split; [ lia | split; [ lia | split; split; lia ] ].
      * intros E. injection E as <-. cbn [status rcvSecs rcvFraction tsmSecs tsmFraction].
        split; [ lia | split; [ lia | split; split; lia ] ].
    + intros E. injection E as <-. cbn [status rcvSecs rcvFraction tsmSecs tsmFraction].
      split; [ lia | split; [ lia | split; split; lia ] ].
Qed.

(** X19: when [getNTPTimestamp] returns 1, some datagram of at least 48
    bytes was seen before the time was up, and the four outputs are the
    big-endian 32-bit words at bytes 32, 36, 40 and 44 of it, each within
    32 bits. *)
Theorem X19_getNTPTimestamp_big_endian (ch : UDPChannel) (timeout : Z) (r : NTPTimestamps) :
  getNTPTimestamp ch timeout = Ok r -> status r = 1 ->
  exists p : Poll,
    In p (udp_polls ch) /\ (48 <= length (poll_packet p))%nat /\
    wrap_u32 (poll_millis p - udp_beginWait ch) < timeout /\
    (Forall is_byte (poll_packet p) ->
     let b i := nth i (poll_packet p) 0 in
     rcvSecs r = b 32%nat * 16777216 + b 33%nat * 65536 + b 34%nat * 256 + b 35%nat /\
     rcvFraction r = b 36%nat * 16777216 + b 37%nat * 65536 + b 38%nat * 256 + b 39%nat /\
     tsmSecs r = b 40%nat * 16777216 + b 41%nat * 65536 + b 42%nat * 256 + b 43%nat /\
     tsmFraction r = b 44%nat * 16777216 + b 45%nat * 65536 + b 46%nat * 256 + b 47%nat /\
     in_u32 (rcvSecs r) /\ in_u32 (rcvFraction r) /\
     in_u32 (tsmSecs r) /\ in_u32 (tsmFraction r)).
Proof.
  unfold getNTPTimestamp.
  destruct (Z.eqb_spec (udp_begin ch) 1) as [Eb | Eb]; cbn [negb];
    [ | intros E; injection E as <-; cbn [status]; discriminate ].
  destruct (Z.eqb_spec (udp_endPacket ch) 1) as [Ee | Ee]; cbn [negb];
    [ | intros E; injection E as <-; cbn [status]; discriminate ].
  destruct (wait_reply (udp_polls ch) (udp_beginWait ch) timeout) as [[buf | ] | | ] eqn:Ew;
    cbn [bind]; intros E; try discriminate; injection E as <-; cbn [status];
    [ intros _ | discriminate ].
  destruct (wait_reply_some _ _ _ _ Ew) as (p & Hin & Hbuf & Hlen & Ht).
  exists p. split; [ exact Hin | split; [ exact Hlen | split; [ exact Ht | ] ] ].
  intros Hbytes. cbv zeta. cbn [rcvSecs rcvFraction tsmSecs tsmFraction].
  set (b := fun i : nat => nth i (poll_packet p) 0).
  assert (Hb : forall i, is_byte (b i)).
  { intros i. unfold b. destruct (Nat.lt_ge_cases i (length (poll_packet p))) as [Hi | Hi].
    - rewrite Forall_forall in Hbytes. apply Hbytes. apply nth_In. exact Hi.
    - rewrite nth_overflow by exact Hi. unfold is_byte. lia. }
  assert (Hn : forall i, (i < 48)%nat -> nth i buf 0 = b i).
  { intros i Hi. subst buf. unfold b.
    rewrite <- (firstn_skipn 48 (poll_packet p)) at 2.
    rewrite app_nth1; [ reflexivity | ]. rewrite length_firstn. lia. }
  unfold read_u32. cbn [Nat.add].
  rewrite !Hn by lia.
  rewrite !read_u32_big_endian by apply Hb. unfold b in *.
  pose proof (Hb 32%nat); pose proof (Hb 33%nat); pose proof (Hb 34%nat);
    pose proof (Hb 35%nat); pose proof (Hb 36%nat); pose proof (Hb 37%nat);
    pose proof (Hb 38%nat); pose proof (Hb 39%nat); pose proof (Hb 40%nat);
    pose proof (Hb 41%nat); pose proof (Hb 42%nat); pose proof (Hb 43%nat);
    pose proof (Hb 44%nat); pose proof (Hb 45%nat); pose proof (Hb 46%nat);
    pose proof (Hb 47%nat).
  unfold is_byte in *. unwrap.
  split; [ reflexivity | split; [ reflexivity | split; [ reflexivity | split; [ reflexivity | ] ] ] ].
  split; [ lia | split; [ lia | split; lia ] ].
Qed.

Lemma X19_getNTPTimestamp_big_endian_witness :
  exists p : Poll,
    In p (udp_polls
            (mkUDPChannel 1 1 4294967290
               [mkPoll 4294967295 [];
                mkPoll 5 (repeat 0 32 ++ [232; 61; 115; 128; 0; 0; 0; 1;
                                          232; 61; 115; 129; 128; 0; 0; 0])])) /\
    (48 <= length (poll_packet p))%nat.
Proof.
  pose (ch := mkUDPChannel 1 1 4294967290
                [mkPoll 4294967295 [];
                 mkPoll 5 (repeat 0 32 ++ [232; 61; 115; 128; 0; 0; 0; 1;
                                           232; 61; 115; 129; 128; 0; 0; 0])]).
  pose (r := mkNTPTimestamps 1 3896341376 1 3896341377 2147483648).
  assert (E : getNTPTimestamp ch 2000 = Ok r) by (vm_compute; reflexivity).
  assert (Es : status r = 1) by reflexivity.
  destruct (X19_getNTPTimestamp_big_endian ch 2000 r E Es) as (p & Hin & Hlen & _).
  exists p. split; [ exact Hin | exact Hlen ].
Defined.

(** X20: with a timeout of 0 the wait loop is never entered: once the
    request has gone out the call returns -3 with all outputs 0, even
    when a reply is already there. *)
Theorem X20_getNTPTimestamp_zero_timeout (ch : UDPChannel) :
  udp_begin ch = 1 -> udp_endPacket ch = 1 -> udp_polls ch <> [] ->
  getNTPTimestamp ch 0 = Ok (mkNTPTimestamps (-3) 0 0 0 0).
Proof.
  intros Eb Ee Hp. unfold getNTPTimestamp. rewrite Eb, Ee. cbn [Z.eqb negb Pos.eqb].
  destruct (udp_polls ch) as [ | p rest]; [ contradiction | ].
  cbn [wait_reply].
  destruct (Z.ltb_spec (wrap_u32 (poll_millis p - udp_beginWait ch)) 0);
    [ unwrap; zlia | reflexivity ].
Qed.

Lemma X20_getNTPTimestamp_zero_timeout_witness :
  getNTPTimestamp (mkUDPChannel 1 1 1000 [mkPoll 1000 (repeat 7 48)]) 0
  = Ok (mkNTPTimestamps (-3) 0 0 0 0).
Proof.
  assert (Eb : udp_begin (mkUDPChannel 1 1 1000 [mkPoll 1000 (repeat 7 48)]) = 1)
    by reflexivity.
  assert (Ee : udp_endPacket (mkUDPChannel 1 1 1000 [mkPoll 1000 (repeat 7 48)]) = 1)
    by reflexivity.
  assert (Hp : udp_polls (mkUDPChannel 1 1 1000 [mkPoll 1000 (repeat 7 48)]) <> [])
    by discriminate.
  exact (X20_getNTPTimestamp_zero_timeout _ Eb Ee Hp).
Defined.

(** ** Timer *)

Lemma set_hms_duration (t : Timer) (h m s : Z) :
  in_s32 h -> in_s32 m -> in_s32 s ->
  1000 * Z.max 0 s + 60000 * Z.max 0 m + 3600000 * Z.max 0 h < 2147483648 ->
  _setPoint (set_hms t h m s)
    = 1000 * Z.max 0 s + 60000 * Z.max 0 m + 3600000 * Z.max 0 h /\
  _stoppage (set_hms t h m s) = _setPoint (set_hms t h m s) /\
  started (set_hms t h m s) = started t.
Proof.
  intros Hh Hm Hs Hb. unfold set_hms, started. cbn [_setPoint _stoppage _millis].
  destruct (Z.ltb_spec h 0), (Z.ltb_spec m 0), (Z.ltb_spec s 0);
    (split; [ | split; reflexivity ]);
    rewrite ?Z.max_l in * by lia; rewrite ?Z.max_r in * by lia;
    rewrite (wrap_s32_small (1000 * _)) by (unwrap; lia);
    rewrite (wrap_s32_small (60000 * _)) by (unwrap; lia);
    rewrite (wrap_s32_small (3600000 * _)) by (unwrap; lia);
    rewrite (wrap_s32_small (1000 * _ + 60000 * _)) by (unwrap; lia);
    rewrite (wrap_s32_small (1000 * _ + 60000 * _ + 3600000 * _)) by (unwrap; lia);
    rewrite wrap_u32_small by (unwrap; lia); lia.
Qed.

(** X21: stopping a running Timer and starting it again keeps the time
    that was left: the new limit is as far from the restart as the old
    one was from the stop (0 when the Timer had already run out). A
    Timer started at a reading of 0 of [millis()] does not count as
    started. *)
Theorem X21_stop_start_keeps_remaining (t : Timer) (now now' : Z) :
  Timer_repr t -> started t = true ->
  in_u32 now -> in_u32 now' -> now' <> 0 ->
  now' + remaining t now < 4294967296 ->
  let t1 := stop t now in
  let t2 := start t1 now' in
  started t1 = false /\ limit t1 = 0 /\
  started t2 = true /\
  (now < limit t -> remaining t2 now' = remaining t now) /\
  (limit t <= now -> remaining t2 now' = 0) /\
  started (start t1 0) = false.
Proof.
  intros (Hm & Hsp & Hl & Hst & Hpm & Hpl) Hs Hn Hn' Hnz Hov t1 t2.
  unfold t2, t1, stop, start, stopped, started, remaining, limit in *. rewrite Hs.
  cbn [_millis _limit _stoppage _setPoint negb Z.eqb].
  destruct (Z.eqb_spec now' 0) as [E | _]; [ contradiction | ].
  cbn [negb _limit].
  destruct (Z.ltb_spec now (_limit t)).
  - rewrite (wrap_u32_small (_limit t - now)) by (unwrap; lia).
    rewrite wrap_u32_small by (unwrap; lia).
    split; [ reflexivity | split; [ reflexivity | split; [ reflexivity | ] ] ].
    split; [ lia | split; [ lia | reflexivity ] ].
  - rewrite wrap_u32_small by (unwrap; lia).
    split; [ reflexivity | split; [ reflexivity | split; [ reflexivity | ] ] ].
    split; [ lia | split; [ lia | reflexivity ] ].
Qed.

Lemma X21_stop_start_keeps_remaining_witness :
  remaining (start (stop (mkTimer 1000 5000 6000 5000 0 0) 2500) 9000) 9000
  = remaining (mkTimer 1000 5000 6000 5000 0 0) 2500.
Proof.
  assert (Hr : Timer_repr (mkTimer 1000 5000 6000 5000 0 0)) by repr_now.
  assert (Hs : started (mkTimer 1000 5000 6000 5000 0 0) = true) by reflexivity.
  assert (Hn : in_u32 2500) by (unwrap; lia).
  assert (Hn' : in_u32 9000) by (unwrap; lia).
  assert (Hz : 9000 <> 0) by lia.
  assert (Ho : 9000 + remaining (mkTimer 1000 5000 6000 5000 0 0) 2500 < 4294967296)
    by (unfold remaining; cbn [_limit]; lia).
  assert (Hl : 2500 < limit (mkTimer 1000 5000 6000 5000 0 0))
    by (unfold limit; cbn [_limit]; lia).
  exact (proj1 (proj2 (proj2 (proj2
           (X21_stop_start_keeps_remaining _ 2500 9000 Hr Hs Hn Hn' Hz Ho)))) Hl).
Defined.

(** X22: [doDevice] runs the handler exactly when the Timer is started
    and [millis()] is past the limit, and the handler finds the Timer
    reset: stopped, not paused, with its whole set point to run. What the
    Timer is after the call is up to the handler. With a handler that
    leaves the Timer alone a later [doDevice] does not run it again. With
    a handler that calls [start()] the Timer runs again for its whole set
    point from the handler's reading of [millis()], and [doDevice] runs
    the handler again once that limit has passed. A Timer that is not
    started never runs the handler, and one that is neither started nor
    paused is left alone. *)
Theorem X22_doDevice_handler :
  forall (handler : Timer -> Timer) (t : Timer) (now now' later later' : Z),
    (started t = false -> snd (doDevice handler t now now') = false) /\
    (started t = false -> paused t = false ->
     doDevice handler t now now' = (t, false)) /\
    (started t = true ->
     (snd (doDevice handler t now now') = true <-> limit t < now) /\
     (limit t < now -> fst (doDevice handler t now now') = handler (reset t)) /\
     (now <= limit t -> doDevice handler t now now' = (t, false))) /\
    (started (reset t) = false /\ paused (reset t) = false /\
     _stoppage (reset t) = _setPoint t) /\
    (started t = true -> limit t < now -> handler (reset t) = reset t ->
     doDevice handler (fst (doDevice handler t now now')) later later'
     = (reset t, false)) /\
    (forall nowh : Z,
       started t = true -> limit t < now ->
       in_u32 nowh -> nowh <> 0 -> 0 <= _setPoint t ->
       nowh + _setPoint t < 4294967296 ->
       let restart := fun t' : Timer => start t' nowh in
       let t' := fst (doDevice restart t now now') in
       started t' = true /\ limit t' = nowh + _setPoint t /\
       (snd (doDevice restart t' later later') = true
        <-> nowh + _setPoint t < later)).
Proof.
  intros handler t now now' later later'. unfold doDevice, run, limit.
  split; [ | split; [ | split; [ | split; [ | split ] ] ] ].
  - intros ->. destruct (paused t); [ | reflexivity ].
    destruct (now >? pauseLimit t); reflexivity.
  - intros -> ->. reflexivity.
  - intros ->. destruct (Z.gtb_spec now (_limit t)); cbn [fst snd].
    + split; [ split; [ lia | reflexivity ] | ].
      split; [ reflexivity | lia ].
    + split; [ split; [ discriminate | lia ] | ].
      split; [ lia | reflexivity ].
  - split; [ reflexivity | split; reflexivity ].
  - intros -> Hlt Hh. destruct (Z.gtb_spec now (_limit t)); [ | lia ].
    cbn [fst]. rewrite Hh. reflexivity.
  - intros nowh -> Hlt Hn Hnz Hsp Hov. cbv zeta.
    destruct (Z.gtb_spec now (_limit t)); [ | lia ]. cbn [fst].
    unfold start, stopped, started, reset.
    cbn [_millis _setPoint _limit _stoppage negb Z.eqb].
    destruct (Z.eqb_spec nowh 0) as [E | _]; [ contradiction | ]. cbn [negb _limit].
    rewrite wrap_u32_small by (unwrap; lia).
    split; [ reflexivity | split; [ reflexivity | ] ].
    destruct (Z.gtb_spec later (nowh + _setPoint t)) as [Hl | Hl]; cbn [snd];
      split; intros Hs; try reflexivity; try lia; discriminate.
Qed.

(** X23: pausing a running Timer stops it until the pause runs out;
    [doDevice] leaves it paused up to the pause limit and past it starts
    the Timer again, without running the handler, with the time that was
    left when it was paused. *)
Theorem X23_pause_resumes (handler : Timer -> Timer) (t : Timer)
    (duration now now1 now2 now3 : Z) :
  Timer_repr t -> started t = true -> paused t = false ->
  in_u32 now -> in_u32 now1 -> in_u32 now2 -> in_u32 now3 -> in_u32 duration ->
  now1 <> 0 -> now3 <> 0 ->
  now < limit t -> now1 + duration < 4294967296 ->
  now3 + remaining t now < 4294967296 ->
  let p := pause t duration now now1 in
  started p = false /\ paused p = true /\ pauseLimit p = now1 + duration /\
  (now2 <= pauseLimit p -> doDevice handler p now2 now3 = (p, false)) /\
  (pauseLimit p < now2 ->
   let r := fst (doDevice handler p now2 now3) in
   snd (doDevice handler p now2 now3) = false /\
   started r = true /\ paused r = false /\
   remaining r now3 = remaining t now).
Proof.
  intros (Hm & Hsp & Hl & Hst & Hpm & Hpl) Hs Hp Hn Hn1 Hn2 Hn3 Hd Hz1 Hz3 Hlt Ho1 Ho3 p.
  unfold p, pause, doDevice, cancelPause, stop, start, stopped, started, paused,
    remaining, limit, pauseLimit in *.
  rewrite Hp, Hs. cbn [negb _millis _setPoint _limit _stoppage _pauseMillis _pauseLimit Z.eqb].
  destruct (Z.eqb_spec now1 0) as [E | _]; [ contradiction | ]. cbn [negb].
  destruct (Z.ltb_spec now (_limit t)); [ | lia ].
  rewrite (wrap_u32_small (now1 + duration)) by (unwrap; lia).
  rewrite (wrap_u32_small (_limit t - now)) by (unwrap; lia).
  split; [ reflexivity | split; [ reflexivity | split; [ reflexivity | split ] ] ].
  - intros Hle. destruct (Z.gtb_spec now2 (now1 + duration)); [ lia | reflexivity ].
  - intros Hgt. destruct (Z.gtb_spec now2 (now1 + duration)); [ | lia ].
    cbn [fst snd _millis _limit _pauseMillis].
    destruct (Z.eqb_spec now3 0) as [E | _]; [ contradiction | ]. cbn [negb Z.eqb].
    rewrite wrap_u32_small by (unwrap; lia).
    split; [ reflexivity | split; [ reflexivity | split; [ reflexivity | lia ] ] ].
Qed.

Lemma X23_pause_resumes_witness :
  pauseLimit (pause (mkTimer 1000 5000 6000 5000 0 0) 300 2500 2501) = 2501 + 300.
Proof.
  assert (Hr : Timer_repr (mkTimer 1000 5000 6000 5000 0 0)) by repr_now.
  assert (Hs : started (mkTimer 1000 5000 6000 5000 0 0) = true) by reflexivity.
  assert (Hp : paused (mkTimer 1000 5000 6000 5000 0 0) = false) by reflexivity.
  assert (Hn : in_u32 2500) by (unwrap; lia).
  assert (Hn1 : in_u32 2501) by (unwrap; lia).
  assert (Hn2 : in_u32 2900) by (unwrap; lia).
  assert (Hn3 : in_u32 2901) by (unwrap; lia).
  assert (Hd : in_u32 300) by (unwrap; lia).
  assert (Hz1 : 2501 <> 0) by lia.
  assert (Hz3 : 2901 <> 0) by lia.
  assert (Hl : 2500 < limit (mkTimer 1000 5000 6000 5000 0 0))
    by (unfold limit; cbn [_limit]; lia).
  assert (Ho1 : 2501 + 300 < 4294967296) by lia.
  assert (Ho3 : 2901 + remaining (mkTimer 1000 5000 6000 5000 0 0) 2500 < 4294967296)
    by (unfold remaining; cbn [_limit]; lia).
  exact (proj1 (proj2 (proj2
           (X23_pause_resumes (fun t => t) _ 300 2500 2501 2900 2901
              Hr Hs Hp Hn Hn1 Hn2 Hn3 Hd Hz1 Hz3 Hl Ho1 Ho3)))).
Defined.

(** ** SystemClock *)

(** X24: [SystemClock::ntpSync(min)] stores the interval clamped to
    [15, 1440] minutes, puts the next synchronisation that many minutes
    after the last one, and sets the sync timer to the interval in
    milliseconds: running with the whole interval left when the timer is
    on, stopped when it is off. *)
Theorem X24_set_ntpSync_clamps (c : SystemClock) (min now : Z) :
  in_u32 min -> in_u32 now -> now <> 0 -> now + 86400000 < 4294967296 ->
  in_s64 (_lastSync c + 86400) -> in_s64 (_lastSync c) ->
  let c' := set_ntpSync c min now in
  ntpSync c' = Z.max 15 (Z.min 1440 min) /\
  _lastSync c' = _lastSync c /\
  _nextSync c' = _lastSync c + 60 * ntpSync c' /\
  _setPoint (_syncTimer c') = 60000 * ntpSync c' /\
  (timerON c = true ->
   started (_syncTimer c') = true /\
   remaining (_syncTimer c') now = 60000 * ntpSync c') /\
  (timerOFF c = true -> started (_syncTimer c') = false).
Proof.
  intros Hmin Hnow Hnz Hov Hl1 Hl0 c'.
  set (refresh := Z.max 15 (Z.min 1440 min)).
  assert (Er : (if min <? 15 then 15 else if min >? 1440 then 1440 else min) = refresh).
  { unfold refresh. destruct (Z.ltb_spec min 15), (Z.gtb_spec min 1440); lia. }
  assert (Hr : 15 <= refresh <= 1440) by (unfold refresh; lia).
  unfold c', set_ntpSync, resetSyncTimer, ntpSync, timerON, timerOFF.
  cbn [_tzOffset _nextSync _lastSync _ntpSync _timerOFF _syncTimer]. rewrite Er.
  rewrite (wrap_s32_small refresh) by (unwrap; lia).
  destruct (set_hms_duration (_syncTimer c) 0 refresh 0) as (Esp & Est & _);
    [ unwrap; lia | unwrap; lia | unwrap; lia | lia | ].
  rewrite Z.max_r in Esp by lia. rewrite (Z.max_r 0 refresh) in Esp by lia.
  split; [ reflexivity | split; [ reflexivity | ] ].
  split; [ rewrite wrap_u32_small by (unwrap; lia);
           rewrite wrap_s64_small by (unwrap; lia); lia | ].
  set (t := set_hms (_syncTimer c) 0 refresh 0) in *.
  destruct (_timerOFF c); cbn [negb].
  - split; [ unfold reset; cbn [_setPoint]; lia | ].
    split; [ discriminate | intros _; reflexivity ].
  - unfold start, stopped, started, reset, remaining.
    cbn [_millis _setPoint _limit _stoppage negb Z.eqb].
    destruct (Z.eqb_spec now 0) as [E | _]; [ contradiction | ].
    rewrite wrap_u32_small by (unwrap; lia).
    split; [ lia | split; [ intros _; split; [ reflexivity | lia ] | discriminate ] ].
Qed.

Lemma X24_set_ntpSync_clamps_witness :
  ntpSync (set_ntpSync (mkSystemClock 0 0 3913056000 60 false (mkTimer 0 0 0 0 0 0)) 5 777)
  = Z.max 15 (Z.min 1440 5).
Proof.
  assert (Hmin : in_u32 5) by (unwrap; lia).
  assert (Hnow : in_u32 777) by (unwrap; lia).
  assert (Hnz : 777 <> 0) by lia.
  assert (Hov : 777 + 86400000 < 4294967296) by lia.
  assert (Hl1 : in_s64 (_lastSync (mkSystemClock 0 0 3913056000 60 false
                                     (mkTimer 0 0 0 0 0 0)) + 86400))
    by (unwrap; cbn [_lastSync]; lia).
  assert (Hl0 : in_s64 (_lastSync (mkSystemClock 0 0 3913056000 60 false
                                     (mkTimer 0 0 0 0 0 0))))
    by (unwrap; cbn [_lastSync]; lia).
  exact (proj1 (X24_set_ntpSync_clamps _ 5 777 Hmin Hnow Hnz Hov Hl1 Hl0)).
Defined.

(** X25: [SystemClock::timerOFF(flg)] changes nothing when the flag
    already has that value; otherwise it stores the flag and resets the
    sync timer to the whole sync interval, running when the timer was
    turned on and stopped when it was turned off. *)
Theorem X25_set_timerOFF_toggles (c : SystemClock) (flg : bool) (now : Z) :
  in_u32 now -> now <> 0 -> 15 <= ntpSync c <= 1440 ->
  now + 86400000 < 4294967296 ->
  let c' := set_timerOFF c flg now in
  timerOFF c' = flg /\
  (timerOFF c = flg -> c' = c) /\
  (timerOFF c <> flg ->
   started (_syncTimer c') = negb flg /\
   paused (_syncTimer c') = false /\
   _stoppage (_syncTimer c') = 60000 * ntpSync c).
Proof.
  intros Hnow Hnz Hr Hov c'.
  unfold c', set_timerOFF, resetSyncTimer, ntpSync, timerON, timerOFF in *.
  destruct (set_hms_duration (_syncTimer c) 0 (_ntpSync c) 0) as (Esp & Est & _);
    [ unwrap; lia | unwrap; lia | unwrap; lia | lia | ].
  rewrite Z.max_r in Esp by lia. rewrite (Z.max_r 0 (_ntpSync c)) in Esp by lia.
  destruct flg, (_timerOFF c) eqn:Eoff; cbn [negb andb];
    cbn [_tzOffset _nextSync _lastSync _ntpSync _timerOFF _syncTimer negb];
    rewrite ?(wrap_s32_small (_ntpSync c)) by (unwrap; lia).
  - split; [ exact Eoff | split; [ reflexivity | intros C; contradiction ] ].
  - split; [ reflexivity | split; [ discriminate | intros _ ] ].
    unfold reset, started, paused. cbn [_millis _pauseMillis _stoppage].
    split; [ reflexivity | split; [ reflexivity | lia ] ].
  - split; [ reflexivity | split; [ discriminate | intros _ ] ].
    unfold start, stopped, reset, started, paused.
    cbn [_millis _pauseMillis _stoppage _setPoint negb Z.eqb].
    destruct (Z.eqb_spec now 0) as [E | _]; [ contradiction | ].
    cbn [negb Z.eqb]. split; [ reflexivity | split; [ reflexivity | lia ] ].
  - split; [ exact Eoff | split; [ reflexivity | intros C; contradiction ] ].
Qed.

Lemma X25_set_timerOFF_toggles_witness :
  timerOFF (set_timerOFF (mkSystemClock 0 0 0 60 false (mkTimer 0 0 0 0 0 0)) true 777)
  = true.
Proof.
  assert (Hnow : in_u32 777) by (unwrap; lia).
  assert (Hnz : 777 <> 0) by lia.
  assert (Hr : 15 <= ntpSync (mkSystemClock 0 0 0 60 false (mkTimer 0 0 0 0 0 0)) <= 1440)
    by (unfold ntpSync; cbn [_ntpSync]; lia).
  assert (Hov : 777 + 86400000 < 4294967296) by lia.
  exact (proj1 (X25_set_timerOFF_toggles _ true 777 Hnow Hnz Hr Hov)).
Defined.

(** ** Doubles and elapsed days *)

(** X26: taking [sysTimed] of an Instant within 2^20 seconds of zero
    (where the double is exact) and constructing an Instant from it, or
    dividing the Instant by 1. An Instant that is not negative, or has
    fraction 0, comes back as it was. For a negative Instant with a
    fraction other than 0 there is no result: [initialize] converts the
    negative double [(fraction - 2^32)] to [uint32_t], which is
    undefined. *)
Theorem X26_sysTimed_roundtrip (x : Instant) :
  Instant_repr x -> -1048576 <= _sysTime x < 1048576 ->
  (0 <= _sysTime x \/ _fraction x = 0 ->
   initialize_double (sysTimed x) = Some x /\ div_int x 1 = Some x) /\
  (_sysTime x < 0 -> _fraction x <> 0 ->
   initialize_double (sysTimed x) = None /\ div_int x 1 = None).
Proof.
  intros [Hs Hf] Hr.
  assert (Ed : div_int x 1 = initialize_double (sysTimed x)).
  { unfold div_int. change (1 =? 0) with false. cbv iota zeta. f_equal.
    unfold Qdiv, Qmult, Qinv, inject_Z, sysTimed, Qplus. cbn [Qnum Qden].
    f_equal; lia. }
  rewrite Ed.
  assert (E : initialize_double (sysTimed x)
              = if Z.rem (ticks x) 4294967296 <? 0 then None
                else Some (mkInstant (Z.quot (ticks x) 4294967296)
                                     (Z.rem (ticks x) 4294967296))).
  { unfold sysTimed, POW2_32.
    set (n := ticks x).
    assert (En : (inject_Z (_sysTime x) + inject_Z (_fraction x) / inject_Z 4294967296)%Q
                 = (n # 4294967296)%Q).
    { unfold n, ticks, Qdiv, Qplus, Qmult, Qinv, inject_Z. cbn [Qnum Qden].
      change (Z.pos (1 * 4294967296)) with 4294967296.
      change (1 * (1 * 4294967296))%positive with 4294967296%positive.
      f_equal. lia. }
    rewrite En.
    assert (Hn : -4503599627370496 <= n < 4503599627370496)
      by (unfold n, ticks; unwrap; lia).
    destruct (initialize_double_value n 4294967296) as (_ & _ & Ev); [ unwrap; zlia | ].
    cbv zeta in Ev. rewrite Ev. clear Ev.
    rewrite Z.quot_mul by lia. reflexivity. }
  rewrite E. clear E Ed.
  destruct x as [s f]. unfold ticks. cbn [_sysTime _fraction] in *. unwrap.
  split.
  - intros H.
    destruct (Z.ltb_spec (Z.rem (s * 4294967296 + f) 4294967296) 0); [ zlia | ].
    split; do 2 f_equal; zlia.
  - intros Hneg Hfz.
    destruct (Z.ltb_spec (Z.rem (s * 4294967296 + f) 4294967296) 0); [ | zlia ].
    split; reflexivity.
Qed.

Lemma X26_sysTimed_roundtrip_witness :
  initialize_double (sysTimed (mkInstant 3 5)) = Some (mkInstant 3 5) /\
  initialize_double (sysTimed (mkInstant (-3) 5)) = None.
Proof.
  assert (Hp : Instant_repr (mkInstant 3 5)) by repr_now.
  assert (Hpr : -1048576 <= _sysTime (mkInstant 3 5) < 1048576)
    by (cbn [_sysTime]; lia).
  assert (Hp0 : 0 <= _sysTime (mkInstant 3 5) \/ _fraction (mkInstant 3 5) = 0)
    by (left; cbn [_sysTime]; lia).
  assert (Hx : Instant_repr (mkInstant (-3) 5)) by repr_now.
  assert (Hr : -1048576 <= _sysTime (mkInstant (-3) 5) < 1048576)
    by (cbn [_sysTime]; lia).
  assert (Hn : _sysTime (mkInstant (-3) 5) < 0) by (cbn [_sysTime]; lia).
  assert (Hf : _fraction (mkInstant (-3) 5) <> 0) by (cbn [_fraction]; lia).
  split.
  - exact (proj1 (proj1 (X26_sysTimed_roundtrip _ Hp Hpr) Hp0)).
  - exact (proj1 (proj2 (X26_sysTimed_roundtrip _ Hx Hr) Hn Hf)).
Defined.

(** X27: the days and the time of day that [printElapsedTime] formats
    add up to the elapsed seconds, the time being a valid time of day,
    as long as the days fit an [int32_t]. *)
Theorem X27_printElapsedTime_days (a b : Instant) :
  elapsedTime a b < 185542587187200 ->
  let r := printElapsedTime a b in
  0 <= fst r /\ valid_Time (snd r) /\
  86400 * fst r + second_of_day (snd r) = elapsedTime a b.
Proof.
  intros Hb r. unfold r, printElapsedTime. cbn [fst snd].
  set (e := elapsedTime a b) in *.
  assert (He : 0 <= e) by (unfold e, elapsedTime; unwrap; zlia).
  change (wrap_u64 SECS_IN_DAY) with 86400.
  rewrite (wrap_s32_small (Z.quot e 86400)) by (unwrap; zlia).
  rewrite (wrap_s64_small (Z.rem e 86400)) by (unwrap; zlia).
  destruct (toTime_second_of_day (Z.rem e 86400)) as [V S].
  split; [ zlia | split; [ exact V | rewrite S; zlia ] ].
Qed.

Lemma X27_printElapsedTime_days_witness :
  86400 * fst (printElapsedTime (mkInstant 200000 5) (mkInstant 7 9))
  + second_of_day (snd (printElapsedTime (mkInstant 200000 5) (mkInstant 7 9)))
  = elapsedTime (mkInstant 200000 5) (mkInstant 7 9).
Proof.
  assert (Hb : elapsedTime (mkInstant 200000 5) (mkInstant 7 9) < 185542587187200)
    by (vm_compute; reflexivity).
  exact (proj2 (proj2 (X27_printElapsedTime_days _ _ Hb))).
Defined.
